(** * Honeypot dashboard backend (api.py): refresh pipeline, cache and read paths

    A shallow embedding of [src/api.py].  Python values that travel through the
    program (the analytics-store responses, the decoded reply of the
    summarization service, the cache) are JSON-shaped and are modelled by the
    type [json]; Python text is a list of Unicode code points; exceptions are
    values of an error monad; the module-level cache and the console are an
    explicit state threaded through the refresh task. *)

From Stdlib Require Import List ZArith NArith Bool String Ascii Lia DecimalString Sorted.
Import ListNotations.

Set Implicit Arguments.
Set Warnings "-register-all".

Local Open Scope N_scope.
Local Open Scope list_scope.

(** ** Text *)

(** A Python [str]: the sequence of its code points. *)
Definition text := list N.

(** An ASCII literal as text. *)
Definition txt (s : string) : text :=
  map N_of_ascii (list_ascii_of_string s).

(** The same, with every apostrophe of the literal standing for a double-quote
    character (code point 34): the way JSON text and the prompt are written
    down in this file. *)
Definition dq (s : string) : text :=
  map (fun c => if c =? 39 then 34 else c) (txt s).

Fixpoint text_eqb (a b : text) : bool :=
  match a, b with
  | [], [] => true
  | x :: a', y :: b' => (x =? y) && text_eqb a' b'
  | _, _ => false
  end.


(** [s.startswith(p)]. *)
Fixpoint startswith (p s : text) : bool :=
  match p, s with
  | [], _ => true
  | x :: p', y :: s' => (x =? y) && startswith p' s'
  | _ :: _, [] => false
  end.

(** [p in s] for two strings: [p] occurs somewhere in [s]. *)
Fixpoint occurs (p s : text) : bool :=
  startswith p s ||
  match s with
  | [] => false
  | _ :: s' => occurs p s'
  end.

(** [str.isspace] on one code point (CPython's [_PyUnicode_IsWhitespace]). *)
Definition isspace (c : N) : bool :=
  ((9 <=? c) && (c <=? 13)) || ((28 <=? c) && (c <=? 32)) ||
  (c =? 133) || (c =? 160) || (c =? 5760) ||
  ((8192 <=? c) && (c <=? 8202)) ||
  (c =? 8232) || (c =? 8233) || (c =? 8239) || (c =? 8287) || (c =? 12288).

Fixpoint lstrip (s : text) : text :=
  match s with
  | [] => []
  | c :: s' => if isspace c then lstrip s' else s
  end.

Definition rstrip (s : text) : text := rev (lstrip (rev s)).

(** [s.strip()]. *)
Definition strip (s : text) : text := rstrip (lstrip s).

(** [s.replace(old, new)] for a non-empty [old]: occurrences are found from
    the left and do not overlap.  [skip] counts the characters of the
    occurrence just matched that are still to be dropped. *)
Fixpoint replace_from (old new : text) (skip : nat) (s : text) : text :=
  match s with
  | [] => []
  | c :: s' =>
      match skip with
      | S k => replace_from old new k s'
      | O =>
          if startswith old s
          then new ++ replace_from old new (List.length old - 1) s'
          else c :: replace_from old new 0 s'
      end
  end.

(** [s.replace(old, new)]; with an empty [old] Python inserts [new] before
    every character and at the end. *)
Definition replace (old new s : text) : text :=
  match old with
  | [] => flat_map (fun c => new ++ [c]) s ++ new
  | _ :: _ => replace_from old new 0 s
  end.

Fixpoint join (sep : text) (l : list text) : text :=
  match l with
  | [] => []
  | [x] => x
  | x :: l' => x ++ sep ++ join sep l'
  end.

(** [str(n)] for an [int]. *)
Definition str_int (z : Z) : text :=
  txt (NilZero.string_of_int (Z.to_int z)).

(** ** Values and exceptions *)

(** The values [json.loads] and the analytics-store client hand to the
    program: [None], [bool], [int], [float], [str], [list] and [dict] with
    string keys.  A [float] is identified by its [repr]; a [dict] keeps its
    keys in insertion order and never holds a key twice. *)
Inductive json : Type :=
| JNull
| JBool (b : bool)
| JInt (z : Z)
| JFloat (r : text)
| JStr (s : text)
| JList (l : list json)
| JDict (d : list (text * json)).

(** The exceptions derived from [Exception] that the program can meet. *)
Inductive exn : Type :=
| KeyError (k : text)
| IndexError
| TypeError
| AttributeError
| JSONDecodeError
| RecursionError
| ExternalError (what : text).

Inductive result (A : Type) : Type :=
| Ok (a : A)
| Raise (e : exn).
Arguments Ok {A} a.
Arguments Raise {A} e.

Definition rbind {A B} (r : result A) (k : A -> result B) : result B :=
  match r with
  | Ok a => k a
  | Raise e => Raise e
  end.

Declare Scope result_scope.
Delimit Scope result_scope with res.
Notation "x <- r ;; k" := (rbind r (fun x => k))
  (at level 61, r at next level, right associativity) : result_scope.

(** Evaluate [f] on each element, left to right, stopping at the first
    exception: the body of a list comprehension. *)
Fixpoint mapM {A B} (f : A -> result B) (l : list A) : result (list B) :=
  match l with
  | [] => Ok []
  | a :: l' =>
      match f a with
      | Raise e => Raise e
      | Ok b =>
          match mapM f l' with
          | Raise e => Raise e
          | Ok bs => Ok (b :: bs)
          end
      end
  end.

(** ** Dictionaries *)

Fixpoint dict_get (k : text) (d : list (text * json)) : option json :=
  match d with
  | [] => None
  | (k', v) :: d' => if text_eqb k k' then Some v else dict_get k d'
  end.

(** [d[k] = v]: an existing key keeps its position, a new one goes last. *)
Fixpoint dict_set (k : text) (v : json) (d : list (text * json))
  : list (text * json) :=
  match d with
  | [] => [(k, v)]
  | (k', v') :: d' =>
      if text_eqb k k' then (k', v) :: d' else (k', v') :: dict_set k v d'
  end.

Definition dict_has (k : text) (d : list (text * json)) : bool :=
  match dict_get k d with
  | Some _ => true
  | None => false
  end.

(** [dict(pairs)]. *)
Definition dict_of_pairs (pairs : list (text * json)) : list (text * json) :=
  fold_left (fun d kv => dict_set (fst kv) (snd kv) d) pairs [].

(** ** The Python operations the program applies to these values *)

(** [v.get(k, default)]: only a [dict] has the method. *)
Definition py_get (v : json) (k : text) (default : json) : result json :=
  match v with
  | JDict d =>
      match dict_get k d with
      | Some x => Ok x
      | None => Ok default
      end
  | _ => Raise AttributeError
  end.

(** [v[k]] with a string [k]. *)
Definition py_getitem (v : json) (k : text) : result json :=
  match v with
  | JDict d =>
      match dict_get k d with
      | Some x => Ok x
      | None => Raise (KeyError k)
      end
  | _ => Raise TypeError
  end.

(** [v[k] = x] with a string [k]; the result is the object after the
    assignment. *)
Definition py_setitem (v : json) (k : text) (x : json) : result json :=
  match v with
  | JDict d => Ok (JDict (dict_set k x d))
  | _ => Raise TypeError
  end.

(** [v[0]]. *)
Definition py_first (v : json) : result json :=
  match v with
  | JList (x :: _) => Ok x
  | JList [] => Raise IndexError
  | JStr (c :: _) => Ok (JStr [c])
  | JStr [] => Raise IndexError
  | JDict _ => Raise (KeyError (txt "0"))
  | _ => Raise TypeError
  end.

Definition float_is_zero (r : text) : bool :=
  text_eqb r (txt "0.0") || text_eqb r (txt "-0.0").

(** [bool(v)]. *)
Definition truthy (v : json) : bool :=
  match v with
  | JNull => false
  | JBool b => b
  | JInt z => negb (z =? 0)%Z
  | JFloat r => negb (float_is_zero r)
  | JStr s => match s with [] => false | _ => true end
  | JList l => match l with [] => false | _ => true end
  | JDict d => match d with [] => false | _ => true end
  end.

(** [v == 0]. *)
Definition eq_zero (v : json) : bool :=
  match v with
  | JBool b => negb b
  | JInt z => (z =? 0)%Z
  | JFloat r => float_is_zero r
  | _ => false
  end.

Definition is_str (k : text) (v : json) : bool :=
  match v with
  | JStr s => text_eqb k s
  | _ => false
  end.

(** [k in v] with a string [k]. *)
Definition py_contains (k : text) (v : json) : result bool :=
  match v with
  | JDict d => Ok (dict_has k d)
  | JList l => Ok (existsb (is_str k) l)
  | JStr s => Ok (occurs k s)
  | _ => Raise TypeError
  end.

(** [iter(v)], run to the end. *)
Definition py_iter (v : json) : result (list json) :=
  match v with
  | JList l => Ok l
  | JDict d => Ok (map (fun kv => JStr (fst kv)) d)
  | JStr s => Ok (map (fun c => JStr [c]) s)
  | _ => Raise TypeError
  end.

(** [[b['key'] for b in v]]. *)
Definition keys_of (v : json) : result json :=
  (bs <- py_iter v ;;
   ks <- mapM (fun b => py_getitem b (txt "key")) bs ;;
   Ok (JList ks))%res.

(** How deep the containers of a value are nested: a scalar has depth 0, a
    [list] or a [dict] one more than the deepest of its members. *)
Fixpoint depth (v : json) : nat :=
  match v with
  | JList l => S (list_max (map depth l))
  | JDict d => S (list_max (map (fun kv => depth (snd kv)) d))
  | _ => O
  end.



(** ** The interpreter

    Two conversions of the interpreter are kept as an interface, because they
    rest on tables and algorithms that are no part of this program: [repr] on
    a [str] (Unicode printability) and the [repr] of the [float] that a JSON
    number literal with a fraction or an exponent denotes.

    So is the room the interpreter has left when a view serialises its
    answer.  The encoder of [json.dumps] enters one level of recursion for
    every [list] or [dict] it descends into, and raises [RecursionError] when
    the recursion limit of the interpreter is reached; with the frames of the
    server and of the framework below it, that is at a nesting of
    [dumps_depth].  Every interpreter that serves a request at all has room
    for the two levels of the placeholder. *)
Class Runtime : Type := {
  str_repr : text -> text;
  float_repr : text -> text;
  dumps_depth : nat;
  dumps_depth_min : (2 <= dumps_depth)%nat
}.

Definition nl : text := [10].

Section Formatting.
Context {R : Runtime}.

(** [repr(v)]. *)
Fixpoint py_repr (v : json) : text :=
  match v with
  | JNull => txt "None"
  | JBool true => txt "True"
  | JBool false => txt "False"
  | JInt z => str_int z
  | JFloat r => r
  | JStr s => str_repr s
  | JList l => txt "[" ++ join (txt ", ") (map py_repr l) ++ txt "]"
  | JDict d =>
      txt "{" ++
      join (txt ", ")
        (map (fun kv => str_repr (fst kv) ++ txt ": " ++ py_repr (snd kv)) d) ++
      txt "}"
  end.

(** [str(v)], which is what an f-string placeholder inserts. *)
Definition py_str (v : json) : text :=
  match v with
  | JStr s => s
  | _ => py_repr v
  end.
End Formatting.

(** ** Configuration and the queries *)

Definition INDEX_PATTERN : text := txt "logstash-*".

Definition jstr (s : string) : json := JStr (txt s).

Definition jobj (l : list (string * json)) : json :=
  JDict (map (fun kv => (txt (fst kv), snd kv)) l).

Definition cardinality (field : string) : json :=
  jobj [("cardinality", jobj [("field", jstr field)])]%string.

Definition terms (field : string) (size : Z) : json :=
  jobj [("terms", jobj [("field", jstr field); ("size", JInt size)])]%string.

Definition range_since (gte : string) : json :=
  jobj [("range", jobj [("@timestamp", jobj [("gte", jstr gte)])])]%string.

(** The request of the refresh task (the keyword arguments of [es.search]). *)
Definition briefing_query : json :=
  jobj [ ("query", range_since "now-15m/m");
         ("size", JInt 0);
         ("aggs", jobj
            [ ("unique_ips", cardinality "source_ip.keyword");
              ("top_countries", terms "geoip.country_name.keyword" 5);
              ("top_honeypots", terms "honeypot.keyword" 5);
              ("top_ports", terms "dest_port" 5);
              ("top_passwords", terms "password.keyword" 5) ]) ]%string.

(** The request of the dashboard endpoint. *)
Definition dashboard_query : json :=
  jobj [ ("size", JInt 200);
         ("query", range_since "now-24h/h");
         ("aggs", jobj
            [ ("unique_attackers", cardinality "source_ip.keyword");
              ("attacks_over_time", jobj
                 [("date_histogram", jobj
                     [ ("field", jstr "@timestamp");
                       ("fixed_interval", jstr "1h");
                       ("min_doc_count", JInt 0);
                       ("extended_bounds", jobj
                          [ ("min", jstr "now-24h/h");
                            ("max", jstr "now/h") ]) ])]);
              ("attacks_by_country", terms "geoip.country_name.keyword" 10);
              ("attacks_by_honeypot", terms "honeypot.keyword" 10);
              ("top_attacked_ports", terms "dest_port" 10);
              ("top_attacker_ips", terms "source_ip.keyword" 10);
              ("top_usernames", terms "user.keyword" 15);
              ("top_passwords", terms "password.keyword" 15) ]);
         ("sort", JList [jobj [("@timestamp", jstr "desc")]]) ]%string.

(** ** The process and its surroundings *)

(** What the module set up when it was imported: whether [es] and [model]
    are clients or [None]. *)
Record Process : Type := {
  es : bool;
  model : bool
}.

(** What the outside answers during one run of a task or a handler:
    the analytics store to a search, the summarization service to a prompt
    (the [text] of its reply, or the exception raised on the way), and the
    clock ([str(datetime.now())] when the task starts,
    [datetime.now().isoformat()] when it stamps its result). *)
Record World : Type := {
  search : text -> json -> result json;
  generate_content : text -> result text;
  clock_start : text;
  clock_stamp : text
}.

(** The lines the program prints. *)
Inductive message : Type :=
| Skipped_unavailable        (* AI ANALYSIS SKIPPED: ... not available. *)
| Running_at (now : text)    (* AI TASK: Running scheduled analysis at ... *)
| No_new_events              (* AI TASK: No new events to analyze. *)
| Sending_to_gemini          (* AI TASK: Sending data to Gemini for analysis... *)
| Cache_updated              (* AI TASK: Analysis complete and cache updated. *)
| Task_error (e : exn)       (* AI TASK ERROR: ... *)
| Dashboard_error (e : exn). (* ERROR in get_dashboard_data: ... *)

(** What a run leaves behind besides the cache: the lines it printed and the
    requests it sent. *)
Inductive event : Type :=
| Printed (m : message)
| Searched (index : text) (body : json)
| Generated (prompt : text).

Record State : Type := {
  ai_analysis_cache : json;
  trace : list event
}.

(** The cache at import time. *)
Definition placeholder_fields : list (text * json) :=
  [ (txt "summary",
     jstr "AI analysis is initializing. Please check back in a few minutes...");
    (txt "threat_type", jstr "Initializing...");
    (txt "recommendations", JList [jstr "Waiting for first data batch..."]);
    (txt "last_updated", JNull) ].

Definition placeholder : json := JDict placeholder_fields.

Definition initial_state : State :=
  {| ai_analysis_cache := placeholder; trace := [] |}.

(** ** Tasks: state and exceptions *)

Definition task (A : Type) : Type := State -> result A * State.

Definition ret {A} (a : A) : task A := fun s => (Ok a, s).

Definition bind {A B} (c : task A) (k : A -> task B) : task B :=
  fun s =>
    match c s with
    | (Ok a, s') => k a s'
    | (Raise e, s') => (Raise e, s')
    end.

Definition lift {A} (r : result A) : task A := fun s => (r, s).

Definition emit (ev : event) : task unit :=
  fun s => (Ok tt, {| ai_analysis_cache := ai_analysis_cache s;
                      trace := trace s ++ [ev] |}).

Definition print (m : message) : task unit := emit (Printed m).

Definition set_cache (v : json) : task unit :=
  fun s => (Ok tt, {| ai_analysis_cache := v; trace := trace s |}).

(** [try: body except Exception as e: handler(e)]. *)
Definition try_except {A} (body : task A) (handler : exn -> task A) : task A :=
  fun s =>
    match body s with
    | (Ok a, s') => (Ok a, s')
    | (Raise e, s') => handler e s'
    end.

Declare Scope task_scope.
Delimit Scope task_scope with task.
Notation "x <- c ;; k" := (bind c (fun x => k))
  (at level 61, c at next level, right associativity) : task_scope.
Notation "c ;; k" := (bind c (fun _ => k))
  (at level 61, right associativity) : task_scope.


(** ** [json.loads]

    The decoder of the standard library ([json.decoder], [json.scanner]) on a
    [str], with its default settings: strict strings, no hooks.  It raises
    [JSONDecodeError] wherever it cannot go on.  The limits of the interpreter
    (recursion depth, the length of an integer literal) are not modelled. *)
Module Decoder.
Section Decoder.
Context {R : Runtime}.

(** The white space of JSON: space, tab, line feed, carriage return. *)
Definition is_ws (c : N) : bool :=
  (c =? 32) || (c =? 9) || (c =? 10) || (c =? 13).

Fixpoint skip_ws (s : text) : text :=
  match s with
  | [] => []
  | c :: s' => if is_ws c then skip_ws s' else s
  end.

Definition is_digit (c : N) : bool := (48 <=? c) && (c <=? 57).

Definition hex_digit (c : N) : option N :=
  if is_digit c then Some (c - 48)
  else if (97 <=? c) && (c <=? 102) then Some (c - 87)
  else if (65 <=? c) && (c <=? 70) then Some (c - 55)
  else None.

Definition hex4 (a b c d : N) : option N :=
  match hex_digit a, hex_digit b, hex_digit c, hex_digit d with
  | Some x, Some y, Some z, Some u => Some (((x * 16 + y) * 16 + z) * 16 + u)
  | _, _, _, _ => None
  end.

Definition is_high_surrogate (u : N) : bool := (55296 <=? u) && (u <=? 56319).
Definition is_low_surrogate (u : N) : bool := (56320 <=? u) && (u <=? 57343).

Definition join_surrogates (hi lo : N) : N :=
  65536 + ((hi - 55296) * 1024 + (lo - 56320)).

(** The character a one-letter escape stands for. *)
Definition unescape (e : N) : option N :=
  if e =? 34 then Some 34
  else if e =? 92 then Some 92
  else if e =? 47 then Some 47
  else if e =? 98 then Some 8
  else if e =? 102 then Some 12
  else if e =? 110 then Some 10
  else if e =? 114 then Some 13
  else if e =? 116 then Some 9
  else None.

(** What a string literal is made of: a character, written as itself or by
    a one-letter escape, or the code unit of a [\u] escape. *)
Inductive item : Type :=
| Char (c : N)
| Unit (u : N).

Definition cons_item (i : item) (x : option (list item * text))
  : option (list item * text) :=
  match x with
  | Some (k, rest) => Some (i :: k, rest)
  | None => None
  end.

(** The items of a string literal up to its closing quote, and what follows
    the quote; [s] starts right after the opening quote.  Control characters
    are refused (strict mode). *)
Fixpoint scan_items (s : text) : option (list item * text) :=
  match s with
  | [] => None
  | c :: r =>
      if c =? 34 then Some ([], r)
      else if c =? 92 then
        match r with
        | [] => None
        | e :: r1 =>
            if e =? 117 then
              match r1 with
              | h1 :: h2 :: h3 :: h4 :: r2 =>
                  match hex4 h1 h2 h3 h4 with
                  | Some u => cons_item (Unit u) (scan_items r2)
                  | None => None
                  end
              | _ => None
              end
            else
              match unescape e with
              | Some x => cons_item (Char x) (scan_items r1)
              | None => None
              end
        end
      else if c <? 32 then None
      else cons_item (Char c) (scan_items r)
  end.

(** The characters the items stand for: a high surrogate escape directly
    followed by a low surrogate escape is one character, any other code unit
    is a character by itself. *)
Fixpoint join_pairs (l : list item) : text :=
  match l with
  | [] => []
  | Char c :: l' => c :: join_pairs l'
  | Unit u :: l' =>
      match l' with
      | Unit u2 :: l'' =>
          if is_high_surrogate u && is_low_surrogate u2
          then join_surrogates u u2 :: join_pairs l''
          else u :: join_pairs l'
      | _ => u :: join_pairs l'
      end
  end.

(** [scanstring]: [s] starts right after the opening quote; the result is
    the decoded string and what follows the closing quote. *)
Definition scanstring (s : text) : option (text * text) :=
  match scan_items s with
  | Some (items, rest) => Some (join_pairs items, rest)
  | None => None
  end.

(** The longest run of digits at the head of [s], and the rest. *)
Fixpoint digits (s : text) : text * text :=
  match s with
  | [] => ([], [])
  | c :: r =>
      if is_digit c
      then let (d, r') := digits r in (c :: d, r')
      else ([], s)
  end.

Definition nat_of_digits (d : text) : Z :=
  fold_left (fun acc c => (acc * 10 + Z.of_N (c - 48))%Z) d 0%Z.

(** The integer part of a number: an optional minus, then a zero or a
    digit from 1 to 9 and more digits.  The result is its value as
    (negative?, digits) and the rest. *)
Definition match_integer (s : text) : option (bool * text * text) :=
  let (neg, s1) :=
    match s with
    | c :: r => if c =? 45 then (true, r) else (false, s)
    | [] => (false, [])
    end in
  match s1 with
  | [] => None
  | c :: r =>
      if c =? 48 then Some (neg, [c], r)
      else if is_digit c then let (d, r') := digits r in Some (neg, c :: d, r')
      else None
  end.

(** The optional fraction: a dot and at least one digit. *)
Definition match_frac (s : text) : text * text :=
  match s with
  | c :: r =>
      if c =? 46 then
        match digits r with
        | ([], _) => ([], s)
        | (d, r') => (c :: d, r')
        end
      else ([], s)
  | [] => ([], [])
  end.

(** The optional exponent: e or E, an optional sign, at least one digit. *)
Definition match_exp (s : text) : text * text :=
  match s with
  | c :: r =>
      if (c =? 101) || (c =? 69) then
        let (sign, r1) :=
          match r with
          | x :: r' => if (x =? 43) || (x =? 45) then ([x], r') else ([], r)
          | [] => ([], [])
          end in
        match digits r1 with
        | ([], _) => ([], s)
        | (d, r2) => (c :: sign ++ d, r2)
        end
      else ([], s)
  | [] => ([], [])
  end.

Definition match_number (s : text) : option (json * text) :=
  match match_integer s with
  | None => None
  | Some (neg, d, r) =>
      let (frac, r1) := match_frac r in
      let (exp, r2) := match_exp r1 in
      match frac, exp with
      | [], [] =>
          let n := nat_of_digits d in
          Some (JInt (if neg then (- n)%Z else n), r2)
      | _, _ =>
          Some (JFloat (float_repr ((if neg then [45] else []) ++ d ++ frac ++ exp)), r2)
      end
  end.

Definition literal (name : string) (v : json) (s : text) : option (json * text) :=
  if startswith (txt name) s
  then Some (v, skipn (List.length (txt name)) s)
  else None.

Definition first_of {A} (a b : option A) : option A :=
  match a with
  | Some _ => a
  | None => b
  end.

(** The values that are neither a string, an object nor an array. *)
Definition scan_atom (s : text) : option (json * text) :=
  first_of (literal "null" JNull s)
 (first_of (literal "true" (JBool true) s)
 (first_of (literal "false" (JBool false) s)
 (first_of (match_number s)
 (first_of (literal "NaN" (JFloat (txt "nan")) s)
 (first_of (literal "Infinity" (JFloat (txt "inf")) s)
           (literal "-Infinity" (JFloat (txt "-inf")) s)))))).

(** [scan_once] with the loops of [JSONObject] and [JSONArray]; [n] bounds
    the nesting and the number of members, and the length of the text is
    always enough. *)
Fixpoint scan_once (n : nat) (s : text) {struct n} : option (json * text) :=
  match n with
  | O => None
  | S n' =>
      match s with
      | [] => None
      | c :: r =>
          if c =? 34 then
            match scanstring r with
            | Some (k, r') => Some (JStr k, r')
            | None => None
            end
          else if c =? 123 then
            match skip_ws r with
            | c1 :: r1 =>
                if c1 =? 125 then Some (JDict [], r1)
                else if c1 =? 34 then
                  match JSONObject n' r1 with
                  | Some (pairs, r') => Some (JDict (dict_of_pairs pairs), r')
                  | None => None
                  end
                else None
            | [] => None
            end
          else if c =? 91 then
            match skip_ws r with
            | c1 :: r1 =>
                if c1 =? 93 then Some (JList [], r1)
                else
                  match JSONArray n' (c1 :: r1) with
                  | Some (l, r') => Some (JList l, r')
                  | None => None
                  end
            | [] => None
            end
          else scan_atom s
      end
  end

(** [s] starts right after the opening quote of a key. *)
with JSONObject (n : nat) (s : text) {struct n}
  : option (list (text * json) * text) :=
  match n with
  | O => None
  | S n' =>
      match scanstring s with
      | None => None
      | Some (key, r) =>
          match skip_ws r with
          | c :: r1 =>
              if c =? 58 then
                match scan_once n' (skip_ws r1) with
                | None => None
                | Some (value, r2) =>
                    match skip_ws r2 with
                    | c2 :: r3 =>
                        if c2 =? 125 then Some ([(key, value)], r3)
                        else if c2 =? 44 then
                          match skip_ws r3 with
                          | c3 :: r4 =>
                              if c3 =? 34 then
                                match JSONObject n' r4 with
                                | Some (pairs, r') => Some ((key, value) :: pairs, r')
                                | None => None
                                end
                              else None
                          | [] => None
                          end
                        else None
                    | [] => None
                    end
                end
              else None
          | [] => None
          end
      end
  end

(** [s] starts at the first character of an element. *)
with JSONArray (n : nat) (s : text) {struct n} : option (list json * text) :=
  match n with
  | O => None
  | S n' =>
      match scan_once n' s with
      | None => None
      | Some (value, r) =>
          match skip_ws r with
          | c :: r1 =>
              if c =? 93 then Some ([value], r1)
              else if c =? 44 then
                match JSONArray n' (skip_ws r1) with
                | Some (l, r') => Some (value :: l, r')
                | None => None
                end
              else None
          | [] => None
          end
      end
  end.

(** [decode]: white space, one value, white space, the end of the text. *)
Definition loads (s : text) : result json :=
  match scan_once (S (List.length s)) (skip_ws s) with
  | None => Raise JSONDecodeError
  | Some (v, r) =>
      match skip_ws r with
      | [] => Ok v
      | _ :: _ => Raise JSONDecodeError
      end
  end.

(** What a scanner finds at the head of a text, with [t] appended to the
    rest. *)
Definition shift {A} (t : text) (x : option (A * text)) : option (A * text) :=
  match x with
  | Some (a, r) => Some (a, r ++ t)
  | None => None
  end.

(** A tail that can follow a value without touching it: nothing, or text
    that starts with white space. *)
Definition quiet (tail : text) : Prop :=
  tail = [] \/ exists w t, tail = w :: t /\ is_ws w = true.

End Decoder.
End Decoder.

Definition json_loads {R : Runtime} : text -> result json := Decoder.loads.

(** ** The refresh task *)

Definition fence_json : text := txt "```json".
Definition fence : text := txt "```".

(** The cleaning of the reply:
    [response.text.strip().replace(fence_json, empty).replace(fence, empty)]. *)
Definition clean (reply : text) : text :=
  replace fence [] (replace fence_json [] (strip reply)).

Definition prompt_head : text := dq "
        You are a senior cybersecurity analyst. Based on the following honeypot activity summary, provide a concise analysis in JSON format. The JSON object must have three keys: 'summary', 'threat_type', and 'recommendations'.

        - 'summary': A brief, one-sentence summary of the activity in plain English.
        - 'threat_type': A short, descriptive label for the dominant threat pattern (e.g., 'Automated Scanning', 'SSH Brute-Force', 'Web Server Probing', 'Coordinated Attack').
        - 'recommendations': A JSON array of 2 short, actionable mitigation steps a security admin should take.

        Here is the data:
        ".

Definition prompt_tail : text := txt "

        Provide only the raw JSON object as your response.
        ".

Definition make_prompt (briefing : text) : text :=
  prompt_head ++ briefing ++ prompt_tail.

Section Refresh.
Context {R : Runtime}.
Variable p : Process.
Variable w : World.

Definition es_search (index : text) (body : json) : task json :=
  (emit (Searched index body) ;; lift (search w index body))%task.

Definition model_generate_content (prompt : text) : task text :=
  (emit (Generated prompt) ;; lift (generate_content w prompt))%task.

(** [agg.get(name, {}).get('buckets', [])], then the keys of the buckets. *)
Definition bucket_keys (aggs : json) (name : string) : result json :=
  (a <- py_get aggs (txt name) (JDict []) ;;
   bs <- py_get a (txt "buckets") (JList []) ;;
   keys_of bs)%res.

(** Step 2: the text briefing. *)
Definition compose_briefing (total_events aggs : json) : result text :=
  (let l0 := txt "Honeypot Security Briefing (last 15 mins):" ++ nl in
   let l1 := txt "- Total Events: " ++ py_str total_events ++ nl in
   u <- py_get aggs (txt "unique_ips") (JDict []) ;;
   n <- py_get u (txt "value") (JInt 0) ;;
   let l2 := txt "- Unique Attacker IPs: " ++ py_str n ++ nl in
   cs <- bucket_keys aggs "top_countries" ;;
   let l3 := txt "- Top Attacking Countries: " ++ py_str cs ++ nl in
   hs <- bucket_keys aggs "top_honeypots" ;;
   let l4 := txt "- Top Targeted Honeypots: " ++ py_str hs ++ nl in
   ps <- bucket_keys aggs "top_ports" ;;
   let l5 := txt "- Top Targeted Ports: " ++ py_str ps ++ nl in
   ws <- bucket_keys aggs "top_passwords" ;;
   let l6 := txt "- Top Passwords Attempted: " ++ py_str ws ++ nl in
   Ok (l0 ++ l1 ++ l2 ++ l3 ++ l4 ++ l5 ++ l6))%res.

(** [response['hits']['total']['value']]. *)
Definition total_of (response : json) : result json :=
  (h <- py_getitem response (txt "hits") ;;
   t <- py_getitem h (txt "total") ;;
   py_getitem t (txt "value"))%res.

Definition fetch_and_analyze_data : task unit :=
  (if negb (es p) || negb (model p) then
     print Skipped_unavailable
   else
     print (Running_at (clock_start w)) ;;
     try_except
       (response <- es_search INDEX_PATTERN briefing_query ;;
        aggs <- lift (py_get response (txt "aggregations") (JDict [])) ;;
        total_events <- lift (total_of response) ;;
        if eq_zero total_events then
          print No_new_events
        else
          briefing <- lift (compose_briefing total_events aggs) ;;
          let prompt := make_prompt briefing in
          print Sending_to_gemini ;;
          reply <- model_generate_content prompt ;;
          let cleaned_response := clean reply in
          ai_result <- lift (json_loads cleaned_response) ;;
          ai_result <- lift (py_setitem ai_result (txt "last_updated")
                               (JStr (clock_stamp w))) ;;
          set_cache ai_result ;;
          print Cache_updated)
       (fun e => print (Task_error e)))%task.

(** ** The endpoints *)

(** A Flask response: the value that [jsonify] serialised into the body, and
    the status code. *)
Definition response : Type := (json * Z)%type.

(** [jsonify(v)].  Flask serialises [v] with [json.dumps], which fails with
    [RecursionError] on a value nested deeper than the interpreter has room
    for.  The response is kept as the value it carries; the text of the body
    lists the keys of every [dict] in sorted order, see [sort_keys]. *)
Definition jsonify (v : json) : result json :=
  if (depth v <=? dumps_depth)%nat then Ok v else Raise RecursionError.

(** A view that returns [jsonify(v)], or [jsonify(v), status]. *)
Definition respond (v : json) (status : Z) : result response :=
  (body <- jsonify v ;; Ok (body, status))%res.

Definition health_check : result response :=
  respond (jobj [ ("status", jstr "ok");
                  ("message", jstr "T-Pot Dashboard API is running.") ]%string) 200%Z.

Definition format_bucket (bucket : json) : result json :=
  (k <- py_getitem bucket (txt "key") ;;
   c <- py_getitem bucket (txt "doc_count") ;;
   Ok (jobj [("name", k); ("value", c)]%string))%res.

Definition format_buckets (agg_data : json) : result json :=
  if negb (truthy agg_data) then Ok (JList [])
  else
    (has <- py_contains (txt "buckets") agg_data ;;
     if negb has then Ok (JList [])
     else
       bs <- py_getitem agg_data (txt "buckets") ;;
       l <- py_iter bs ;;
       out <- mapM format_bucket l ;;
       Ok (JList out))%res.

(** [h.get('_source', {}).get('geoip', {}).get('location')]: the filter of
    the comprehension that builds the map points. *)
Definition location_of (h : json) : result json :=
  (s <- py_get h (txt "_source") (JDict []) ;;
   g <- py_get s (txt "geoip") (JDict []) ;;
   py_get g (txt "location") JNull)%res.

Definition map_point (h : json) : result json :=
  (s <- py_getitem h (txt "_source") ;;
   g <- py_getitem s (txt "geoip") ;;
   l <- py_getitem g (txt "location") ;;
   lat <- py_getitem l (txt "lat") ;;
   g <- py_getitem s (txt "geoip") ;;
   l <- py_getitem g (txt "location") ;;
   lon <- py_getitem l (txt "lon") ;;
   ip <- py_get s (txt "source_ip") (jstr "N/A") ;;
   g <- py_getitem s (txt "geoip") ;;
   country <- py_get g (txt "country_name") (jstr "N/A") ;;
   honeypot <- py_get s (txt "honeypot") (jstr "N/A") ;;
   Ok (jobj [ ("lat", lat); ("lon", lon); ("ip", ip);
              ("country", country); ("honeypot", honeypot) ]%string))%res.

Fixpoint map_points (hits : list json) : result (list json) :=
  match hits with
  | [] => Ok []
  | h :: hits' =>
      (loc <- location_of h ;;
       if truthy loc then
         pt <- map_point h ;;
         rest <- map_points hits' ;;
         Ok (pt :: rest)
       else map_points hits')%res
  end.

(** [bs[0]['key'] if bs else 'N/A']. *)
Definition top_key (bs : json) : result json :=
  if truthy bs
  then (b <- py_first bs ;; py_getitem b (txt "key"))%res
  else Ok (jstr "N/A").

Definition dashboard_data (resp : json) : result json :=
  (aggregations <- py_get resp (txt "aggregations") (JDict []) ;;
   a <- py_get aggregations (txt "attacks_by_country") (JDict []) ;;
   country_buckets <- py_get a (txt "buckets") (JList []) ;;
   a <- py_get aggregations (txt "attacks_by_honeypot") (JDict []) ;;
   honeypot_buckets <- py_get a (txt "buckets") (JList []) ;;
   total <- total_of resp ;;
   a <- py_get aggregations (txt "unique_attackers") (JDict []) ;;
   unique <- py_get a (txt "value") (JInt 0) ;;
   top_country <- top_key country_buckets ;;
   top_honeypot <- top_key honeypot_buckets ;;
   a <- py_get aggregations (txt "attacks_over_time") JNull ;;
   over_time <- format_buckets a ;;
   a <- py_get aggregations (txt "attacks_by_country") JNull ;;
   by_country <- format_buckets a ;;
   a <- py_get aggregations (txt "attacks_by_honeypot") JNull ;;
   by_honeypot <- format_buckets a ;;
   a <- py_get aggregations (txt "top_attacked_ports") JNull ;;
   ports <- format_buckets a ;;
   a <- py_get aggregations (txt "top_attacker_ips") JNull ;;
   attackers <- format_buckets a ;;
   usernames <- bucket_keys aggregations "top_usernames" ;;
   passwords <- bucket_keys aggregations "top_passwords" ;;
   h <- py_getitem resp (txt "hits") ;;
   hs <- py_getitem h (txt "hits") ;;
   hl <- py_iter hs ;;
   recent <- map_points hl ;;
   Ok (jobj [ ("kpi_total_attacks", total);
              ("kpi_unique_attackers", unique);
              ("kpi_top_country", top_country);
              ("kpi_top_honeypot", top_honeypot);
              ("chart_attacks_over_time", over_time);
              ("chart_attacks_by_country", by_country);
              ("chart_attacks_by_honeypot", by_honeypot);
              ("chart_top_ports", ports);
              ("table_top_attackers", attackers);
              ("list_top_usernames", usernames);
              ("list_top_passwords", passwords);
              ("map_recent_attacks", JList recent) ]%string))%res.

Definition error_body (what : text) : json :=
  JDict [(txt "error", JStr what)].

(** [str(e)], kept symbolic except for the library's own message. *)
Definition str_exn (e : exn) : text :=
  match e with
  | KeyError k => str_repr k
  | IndexError => txt "IndexError"
  | TypeError => txt "TypeError"
  | AttributeError => txt "AttributeError"
  | JSONDecodeError => txt "JSONDecodeError"
  | RecursionError =>
      txt "maximum recursion depth exceeded while encoding a JSON object"
  | ExternalError what => what
  end.

Definition get_dashboard_data : task response :=
  (if negb (es p) then
     lift (respond (error_body (txt "Elasticsearch connection not available")) 500%Z)
   else
     try_except
       (resp <- es_search INDEX_PATTERN dashboard_query ;;
        data <- lift (dashboard_data resp) ;;
        lift (respond data 200%Z))
       (fun e =>
          print (Dashboard_error e) ;;
          lift (respond (error_body (str_exn e)) 500%Z)))%task.

(** [GET /api/ai-analysis]: [return jsonify(ai_analysis_cache)], outside any
    [try]: an exception of [jsonify] leaves the view, and the client gets
    the error page of the server with status 500 instead of an answer. *)
Definition get_ai_analysis : task response :=
  fun s => (respond (ai_analysis_cache s) 200%Z, s).

End Refresh.

(** ** A runtime to compute with

    [repr] of a [str] as CPython prints it when every character from code
    point 128 on is printable, and the literal itself for a [float]: enough to
    run the program on ASCII text without fractional numbers.  For the
    encoder, CPython's recursion limit of 1000 less some twenty-five frames
    of the server, of Flask and of [json] below it. *)
Module Reference.

Definition hex_char (d : N) : N := if d <? 10 then 48 + d else 87 + d.

Definition repr_char (quote c : N) : text :=
  if (c =? quote) || (c =? 92) then [92; c]
  else if c =? 9 then txt "\t"
  else if c =? 10 then txt "\n"
  else if c =? 13 then txt "\r"
  else if (c <? 32) || (c =? 127) then txt "\x" ++ [hex_char (c / 16); hex_char (c mod 16)]
  else [c].

Definition repr (s : text) : text :=
  let quote :=
    if existsb (N.eqb 39) s && negb (existsb (N.eqb 34) s) then 34 else 39 in
  quote :: flat_map (repr_char quote) s ++ [quote].

#[global] Instance runtime : Runtime :=
  {| str_repr := repr;
     float_repr := fun lexeme => lexeme;
     dumps_depth := 975;
     dumps_depth_min := proj1 (Nat.leb_le 2 975) eq_refl |}.

End Reference.

(** ** Runs of the refresh task *)

Definition is_cache_updated (ev : event) : bool :=
  match ev with
  | Printed Cache_updated => true
  | _ => false
  end.

Definition is_generated (ev : event) : bool :=
  match ev with
  | Generated _ => true
  | _ => false
  end.

Section Runs.
Context {R : Runtime}.
Variable p : Process.

(** The state one refresh cycle leaves. *)
Definition cycle (w : World) (s : State) : State :=
  snd (fetch_and_analyze_data p w s).

(** What the cycle printed and requested. *)
Definition new_events (w : World) (s : State) : list event :=
  skipn (List.length (trace s)) (trace (cycle w s)).

(** The cycle committed: it printed that the cache was updated. *)
Definition committed (w : World) (s : State) : bool :=
  existsb is_cache_updated (new_events w s).

(** The cycles of a run, one world each, in the order they are triggered. *)
Fixpoint run (ws : list World) (s : State) : State :=
  match ws with
  | [] => s
  | w :: ws' => run ws' (cycle w s)
  end.

(** No cycle of the run from [s] reported an update. *)
Definition uneventful (ws : list World) (s : State) : Prop :=
  existsb is_cache_updated
    (skipn (List.length (trace s)) (trace (run ws s))) = false.

(** What [GET /api/ai-analysis] answers in a state. *)
Definition read (s : State) : result response :=
  fst (get_ai_analysis s).

End Runs.

(** The three fields of a briefing. *)
Definition has_three_fields (d : list (text * json)) : bool :=
  dict_has (txt "summary") d &&
  dict_has (txt "threat_type") d &&
  dict_has (txt "recommendations") d.


(** ** Paths through a cycle *)

Section Paths.
Context {R : Runtime}.
Variable p : Process.
Variable w : World.

(** The path of a cycle, as equations between the intermediate values. *)
Record path (resp aggs total : json) (briefing reply : text) : Prop := {
  path_es : es p = true;
  path_model : model p = true;
  path_search : search w INDEX_PATTERN briefing_query = Ok resp;
  path_aggs : py_get resp (txt "aggregations") (JDict []) = Ok aggs;
  path_total : total_of resp = Ok total;
  path_nonzero : eq_zero total = false;
  path_briefing : compose_briefing total aggs = Ok briefing;
  path_reply : generate_content w (make_prompt briefing) = Ok reply
}.

Definition stamped (d : list (text * json)) : json :=
  JDict (dict_set (txt "last_updated") (JStr (clock_stamp w)) d).

Definition commit_trace (briefing : text) : list event :=
  [ Printed (Running_at (clock_start w));
    Searched INDEX_PATTERN briefing_query;
    Printed Sending_to_gemini;
    Generated (make_prompt briefing);
    Printed Cache_updated ].

(** The trace of a cycle that got a reply and then met the exception [e]. *)
Definition failed_trace (briefing : text) (e : exn) : list event :=
  [ Printed (Running_at (clock_start w));
    Searched INDEX_PATTERN briefing_query;
    Printed Sending_to_gemini;
    Generated (make_prompt briefing);
    Printed (Task_error e) ].

(** The trace of a cycle that found no event in the window. *)
Definition empty_window_trace : list event :=
  [ Printed (Running_at (clock_start w));
    Searched INDEX_PATTERN briefing_query;
    Printed No_new_events ].

End Paths.

(** A cache value that is a briefing: a [dict] with the three fields and
    [last_updated]. *)
Definition is_briefing (c : json) : bool :=
  match c with
  | JDict d => has_three_fields d && dict_has (txt "last_updated") d
  | _ => false
  end.

(** The series [chart_attacks_over_time] of an answer of the dashboard
    endpoint. *)
Definition over_time_series (r : result response) : option (list json) :=
  match r with
  | Ok (JDict data, _) =>
      match dict_get (txt "chart_attacks_over_time") data with
      | Some (JList l) => Some l
      | _ => None
      end
  | _ => None
  end.

(** The [last_updated] entry of a cache value. *)
Definition last_updated (c : json) : option json :=
  match c with
  | JDict d => dict_get (txt "last_updated") d
  | _ => None
  end.



(** A reply that puts [body] between a fence line, with or without a
    language tag, and a closing fence line. *)
Definition fenced (tag body : text) : text :=
  fence ++ tag ++ nl ++ body ++ nl ++ fence.

(** ** The triggers (the main block)

    [threading.Timer(10, fetch_and_analyze_data).start()] runs the task
    once, ten seconds later, on a thread of its own.
    [scheduler.add_job(fetch_and_analyze_data, 'interval', minutes=10)] makes
    the task a job that is due every ten minutes, for the first time ten
    minutes after it was added.  Whenever the job is due, the scheduler runs
    it on a thread of its pool, unless [max_instances] instances of the job
    are running at that moment: then this run is skipped, and the job is due
    again one period later.  The program passes no [max_instances], so the
    job has the default of the library, which is one.

    Time is counted in seconds from the main block, whose statements take
    none.  How long a cycle takes is decided by the store and by the
    summarization service; it is an input here. *)
Module Scheduler.

(** What made a cycle start: the timer, or the [k]-th time the job was due. *)
Inductive origin : Type :=
| By_timer
| By_tick (k : nat).

(** A cycle that was started; it runs from [start] to [finish], [finish]
    excluded. *)
Record started_cycle : Type := {
  trigger : origin;
  start : nat;
  finish : nat
}.

Definition by_timer (c : started_cycle) : bool :=
  match trigger c with
  | By_timer => true
  | By_tick _ => false
  end.

Definition by_scheduler (c : started_cycle) : bool := negb (by_timer c).

Definition running (t : nat) (c : started_cycle) : bool :=
  (start c <=? t)%nat && (t <? finish c)%nat.

(** How many of the cycles [cs] are running at the time [t]. *)
Definition active (cs : list started_cycle) (t : nat) : nat :=
  List.length (filter (running t) cs).

(** [threading.Timer(delay, f).start()], where this call of [f] takes
    [duration]. *)
Definition Timer (delay duration : nat) : started_cycle :=
  {| trigger := By_timer; start := delay; finish := (delay + duration)%nat |}.

(** A job of the scheduler. *)
Record job : Type := {
  period : nat;
  max_instances : nat
}.

Definition default_max_instances : nat := 1.

(** [scheduler.add_job(f, 'interval', minutes=m)], with [max_instances=k]
    or without. *)
Definition add_job (minutes : nat) (instances : option nat) : job :=
  {| period := (60 * minutes)%nat;
     max_instances :=
       match instances with
       | Some k => k
       | None => default_max_instances
       end |}.

(** The cycle that starts when the job is due for the [k]-th time. *)
Definition tick_cycle (j : job) (duration : nat -> nat) (k : nat) : started_cycle :=
  {| trigger := By_tick k;
     start := (period j * k)%nat;
     finish := (period j * k + duration k)%nat |}.

(** The cycles the scheduler started the first [n] times the job was due,
    the latest first. *)
Fixpoint job_cycles (j : job) (duration : nat -> nat) (n : nat)
  : list started_cycle :=
  match n with
  | O => []
  | S m =>
      let earlier := job_cycles j duration m in
      if (active earlier (period j * S m) <? max_instances j)%nat
      then tick_cycle j duration (S m) :: earlier
      else earlier
  end.

(** How long the cycles take: the one the timer starts, and the one that
    starts when the job is due for the [k]-th time. *)
Record Durations : Type := {
  of_timer_cycle : nat;
  of_tick_cycle : nat -> nat
}.

Definition interval_job : job := add_job 10 None.

(** The main block: the cycle of the timer, and the cycles of the job up to
    the [n]-th time it is due. *)
Definition main (d : Durations) (n : nat) : list started_cycle :=
  Timer 10 (of_timer_cycle d) :: job_cycles interval_job (of_tick_cycle d) n.

(** The job was run when it was due for the [k]-th time. *)
Definition ran (cs : list started_cycle) (k : nat) : Prop :=
  exists c, In c cs /\ trigger c = By_tick k.

End Scheduler.

(** ** Sample surroundings *)

Module Sample.

Definition process : Process := {| es := true; model := true |}.

Definition value_of (r : result json) : json :=
  match r with
  | Ok v => v
  | Raise _ => JNull
  end.

Definition text_of (r : result text) : text :=
  match r with
  | Ok t => t
  | Raise _ => []
  end.

(** A response of the store to the query of the refresh task. *)
Definition briefing_response : json :=
  value_of (json_loads (dq
    "{'took': 3, 'timed_out': false,
      'hits': {'total': {'value': 7, 'relation': 'eq'}, 'max_score': null, 'hits': []},
      'aggregations': {
        'unique_ips': {'value': 2},
        'top_countries': {'buckets': [{'key': 'CN', 'doc_count': 5}, {'key': 'RU', 'doc_count': 2}]},
        'top_honeypots': {'buckets': [{'key': 'cowrie', 'doc_count': 7}]},
        'top_ports': {'buckets': [{'key': 22, 'doc_count': 7}]},
        'top_passwords': {'buckets': [{'key': 'admin', 'doc_count': 4}]}}}")).

Definition briefing_aggs : json :=
  value_of (py_get briefing_response (txt "aggregations") (JDict [])).

(** The briefing the task composes from it. *)
Definition briefing_text : text :=
  text_of (compose_briefing (JInt 7) briefing_aggs).

(** The same with no event in the window. *)
Definition empty_response : json :=
  value_of (json_loads (dq
    "{'took': 1, 'timed_out': false,
      'hits': {'total': {'value': 0, 'relation': 'eq'}, 'max_score': null, 'hits': []},
      'aggregations': {
        'unique_ips': {'value': 0},
        'top_countries': {'buckets': []},
        'top_honeypots': {'buckets': []},
        'top_ports': {'buckets': []},
        'top_passwords': {'buckets': []}}}")).

(** A world in which the store answers [resp], the service replies [reply],
    and the clock reads [started] when the task starts and [stamp] when the
    result is stamped. *)
Definition world (resp : result json) (reply : result text)
    (started stamp : string) : World :=
  {| search := fun _ _ => resp;
     generate_content := fun _ => reply;
     clock_start := txt started;
     clock_stamp := txt stamp |}.

Definition good_body : text :=
  dq "{'summary': 'SSH brute-force from two hosts.', 'threat_type': 'SSH Brute-Force', 'recommendations': ['Block the sources.', 'Disable password logins.']}".

Definition partial_body : text := dq "{'summary': 'SSH brute-force from two hosts.'}".

Definition backtick_body : text :=
  dq "{'summary': 'Attackers ran ```wget``` after login.', 'threat_type': 'Dropper', 'recommendations': []}".

Definition good_dict : list (text * json) :=
  [ (txt "summary", jstr "SSH brute-force from two hosts.");
    (txt "threat_type", jstr "SSH Brute-Force");
    (txt "recommendations",
     JList [jstr "Block the sources."; jstr "Disable password logins."]) ].

Definition backtick_dict : list (text * json) :=
  [ (txt "summary", jstr "Attackers ran ```wget``` after login.");
    (txt "threat_type", jstr "Dropper");
    (txt "recommendations", JList []) ].

Definition backtick_dict_cleaned : list (text * json) :=
  [ (txt "summary", jstr "Attackers ran wget after login.");
    (txt "threat_type", jstr "Dropper");
    (txt "recommendations", JList []) ].

Definition partial_dict : list (text * json) :=
  [(txt "summary", jstr "SSH brute-force from two hosts.")].


(** A reply that is an object with the three fields, the last of them a list
    that holds a list that holds a list and so on, 984 deep. *)
Definition deep_body : text :=
  dq "{'summary': 'Deep.', 'threat_type': 'None', 'recommendations': " ++
  repeat 91 984 ++ repeat 93 984 ++ txt "}".

Definition refusal : text := txt "I am sorry, I cannot help with that.".

Definition store_down : World :=
  world (Raise (ExternalError (txt "ConnectionTimeout"))) (Ok good_body)
    "2024-11-03 01:40:00.000100" "2024-11-03T01:40:10.000200".

Definition quiet_window : World :=
  world (Ok empty_response) (Ok good_body)
    "2024-11-03 01:40:00.000100" "2024-11-03T01:40:10.000200".

Definition refused : World :=
  world (Ok briefing_response) (Ok refusal)
    "2024-11-03 01:40:00.000100" "2024-11-03T01:40:10.000200".

Definition partial_reply : World :=
  world (Ok briefing_response) (Ok partial_body)
    "2024-11-03 01:40:00.000100" "2024-11-03T01:40:10.000200".


Definition deep_reply : World :=
  world (Ok briefing_response) (Ok deep_body)
    "2024-11-03 01:40:00.000100" "2024-11-03T01:40:10.000200".

(** Three cycles on the wall clock of a zone that sets its clocks back from
    02:00 to 01:00 on this night: the first at 01:50, the second ten minutes
    later, the third ten minutes after the second. *)
Definition at_0150 : World :=
  world (Ok briefing_response) (Ok (fenced (txt "json") good_body))
    "2024-11-03 01:50:00.000100" "2024-11-03T01:50:10.000200".


Definition at_0200 : World :=
  world (Ok briefing_response) (Ok good_body)
    "2024-11-03 02:00:00.000100" "2024-11-03T02:00:10.000300".

(** The buckets a store returns for the histogram of the dashboard query
    when it is asked at 10:30 on 3 November 2024 (UTC): one an hour from
    10:00 the day before to 10:00, both included; all events fell into the
    fourth hour. *)
Definition hour_bucket (i : nat) : json :=
  jobj [ ("key", JInt (1730541600000 + 3600000 * Z.of_nat i));
         ("doc_count", JInt (if Nat.eqb i 3 then 120 else 0)) ]%string.

Definition hour_buckets : list json := map hour_bucket (seq 0 25).

Definition dashboard_response : json :=
  jobj [ ("hits", jobj [ ("total", jobj [("value", JInt 120)]);
                         ("hits", JList []) ]);
         ("aggregations", jobj
            [ ("unique_attackers", jobj [("value", JInt 4)]);
              ("attacks_over_time", jobj [("buckets", JList hour_buckets)]);
              ("attacks_by_country", jobj [("buckets", JList
                 [jobj [("key", jstr "CN"); ("doc_count", JInt 120)]])]);
              ("attacks_by_honeypot", jobj [("buckets", JList
                 [jobj [("key", jstr "cowrie"); ("doc_count", JInt 120)]])]);
              ("top_attacked_ports", jobj [("buckets", JList
                 [jobj [("key", JInt 22); ("doc_count", JInt 120)]])]);
              ("top_attacker_ips", jobj [("buckets", JList
                 [jobj [("key", jstr "203.0.113.7"); ("doc_count", JInt 120)]])]);
              ("top_usernames", jobj [("buckets", JList
                 [jobj [("key", jstr "root"); ("doc_count", JInt 120)]])]);
              ("top_passwords", jobj [("buckets", JList
                 [jobj [("key", jstr "admin"); ("doc_count", JInt 120)]])]) ]) ]%string.

Definition dashboard_world : World :=
  world (Ok dashboard_response) (Ok refusal)
    "2024-11-03 10:30:00.000100" "2024-11-03T10:30:00.000200".

End Sample.

(** ** More vocabulary for the properties below *)

Definition is_searched (ev : event) : bool :=
  match ev with
  | Searched _ _ => true
  | _ => false
  end.

(** The entry [k] of a value that is a [dict]. *)
Definition field (k : string) (c : json) : option json :=
  match c with
  | JDict d => dict_get (txt k) d
  | _ => None
  end.

(** The keys of a [dict], in its order. *)
Definition keys (d : list (text * json)) : list text := map fst d.

(** A hit that the map of recent attacks shows: one whose location, looked
    up the way the filter of the comprehension does, is there and truthy. *)
Definition located (h : json) : bool :=
  match location_of h with
  | Ok loc => truthy loc
  | Raise _ => false
  end.

(** The aggregations that [format_buckets] turns into the charts and the
    table of the dashboard. *)
Definition chart_aggregations : list string :=
  [ "attacks_over_time"; "attacks_by_country"; "attacks_by_honeypot";
    "top_attacked_ports"; "top_attacker_ips" ]%string.



(** The name of the first entry of a chart, and ['N/A'] for an empty one. *)
Definition first_name (chart : option json) : option json :=
  match chart with
  | Some (JList []) => Some (jstr "N/A")
  | Some (JList (o :: _)) => field "name" o
  | _ => None
  end.

(** ** Import time

    What the module does before it defines the task: it configures the
    summarization client inside [try ... except Exception], and connects to
    the analytics store inside [try ... except ConnectionError], raising a
    [ConnectionError] itself when [es.ping()] is false.  [ConnectionError]
    is the built-in class there: the module imports no other. *)
Module Startup.

(** What a call at import time raises: an instance of the built-in
    [ConnectionError], or of another class derived from [Exception]. *)
Inductive raised : Type :=
| Connection_error
| Other_error.

Inductive outcome (A : Type) : Type :=
| Returns (a : A)
| Raises (e : raised).
Arguments Returns {A} a.
Arguments Raises {A} e.

(** What the libraries answer at import time. *)
Record Surroundings : Type := {
  configure : outcome unit;        (* genai.configure(api_key=GEMINI_API_KEY) *)
  GenerativeModel : outcome unit;  (* genai.GenerativeModel('gemini-2.5-pro') *)
  Elasticsearch : outcome unit;    (* Elasticsearch(ES_HOST, request_timeout=30) *)
  ping : outcome bool              (* es.ping() *)
}.

(** The lines printed at import time. *)
Inductive line : Type :=
| Gemini_fatal           (* FATAL ERROR: Could not configure Gemini AI. ... *)
| Elasticsearch_fatal.   (* FATAL ERROR: Could not connect to Elasticsearch at ... *)

Definition then_ {A B} (o : outcome A) (k : A -> outcome B) : outcome B :=
  match o with
  | Returns a => k a
  | Raises e => Raises e
  end.

(** Lines 32 to 37: whether [model] is a client afterwards, and what was
    printed. *)
Definition configure_gemini (o : Surroundings) : bool * list line :=
  match then_ (configure o) (fun _ => GenerativeModel o) with
  | Returns _ => (true, [])
  | Raises _ => (false, [Gemini_fatal])
  end.

(** Lines 40 to 46: whether [es] is a client afterwards, or the exception
    that leaves the module, and what was printed. *)
Definition connect_elasticsearch (o : Surroundings) : outcome bool * list line :=
  match then_ (Elasticsearch o)
          (fun _ => then_ (ping o)
             (fun up => if negb up then Raises Connection_error else Returns tt)) with
  | Returns _ => (Returns true, [])
  | Raises Connection_error => (Returns false, [Elasticsearch_fatal])
  | Raises Other_error => (Raises Other_error, [])
  end.

(** The import of the module up to the definition of the task. *)
Definition import_module (o : Surroundings) : outcome Process * list line :=
  let (m, printed_m) := configure_gemini o in
  match connect_elasticsearch o with
  | (Returns e, printed_e) =>
      (Returns {| es := e; model := m |}, printed_m ++ printed_e)
  | (Raises x, printed_e) => (Raises x, printed_m ++ printed_e)
  end.

End Startup.


(** ** More sample surroundings *)

Module Incident.

(** A process that started without the summarization client. *)
Definition no_model : Process := {| es := true; model := false |}.

(** The service refuses the call. *)
Definition service_down : World :=
  Sample.world (Ok Sample.briefing_response)
    (Raise (ExternalError (txt "429 Resource has been exhausted")))
    "2024-11-03 01:40:00.000100" "2024-11-03T01:40:10.000200".

(** A response of the store without the total of the hits. *)
Definition no_total : json :=
  jobj [ ("took", JInt 3); ("hits", jobj [("hits", JList [])]) ]%string.

Definition malformed : World :=
  Sample.world (Ok no_total) (Ok Sample.good_body)
    "2024-11-03 01:40:00.000100" "2024-11-03T01:40:10.000200".

(** A response of the store without aggregations. *)
Definition bare_hits : list (text * json) :=
  [ (txt "hits", jobj [ ("total", jobj [("value", JInt 5)]);
                        ("hits", JList []) ]%string) ].

(** A response to the query of the dashboard in which one bucket of the
    ports has no count. *)
Definition port_buckets : list json :=
  [ jobj [("key", JInt 22); ("doc_count", JInt 9)];
    jobj [("key", JInt 23)] ]%string.

Definition broken_aggs : json :=
  jobj [ ("top_attacked_ports", jobj [("buckets", JList port_buckets)]) ]%string.

Definition broken_response : json :=
  jobj [ ("hits", jobj [ ("total", jobj [("value", JInt 9)]);
                         ("hits", JList []) ]);
         ("aggregations", broken_aggs) ]%string.

Definition broken_world : World :=
  Sample.world (Ok broken_response) (Ok Sample.refusal)
    "2024-11-03 10:30:00.000100" "2024-11-03T10:30:00.000200".

(** Three hits: one with coordinates, one without a location, and one whose
    location is the text form of a point. *)
Definition hit_berlin : json :=
  jobj [ ("_source", jobj
           [ ("source_ip", jstr "203.0.113.7");
             ("honeypot", jstr "cowrie");
             ("geoip", jobj
                [ ("country_name", jstr "Germany");
                  ("location", jobj [ ("lat", JInt 52); ("lon", JInt 13) ]) ]) ]) ]%string.

Definition hit_nowhere : json :=
  jobj [ ("_source", jobj [ ("source_ip", jstr "198.51.100.4") ]) ]%string.

Definition hit_text_point : json :=
  jobj [ ("_source", jobj
           [ ("geoip", jobj [ ("location", jstr "52.5,13.4") ]) ]) ]%string.

Definition point_berlin : json :=
  jobj [ ("lat", JInt 52); ("lon", JInt 13); ("ip", jstr "203.0.113.7");
         ("country", jstr "Germany"); ("honeypot", jstr "cowrie") ]%string.

(** Import with an analytics store that does not answer the ping. *)
Definition store_silent : Startup.Surroundings :=
  {| Startup.configure := Startup.Returns tt;
     Startup.GenerativeModel := Startup.Returns tt;
     Startup.Elasticsearch := Startup.Returns tt;
     Startup.ping := Startup.Returns false |}.

(** Import with a summarization library that rejects the configuration. *)
Definition key_rejected : Startup.Surroundings :=
  {| Startup.configure := Startup.Raises Startup.Other_error;
     Startup.GenerativeModel := Startup.Returns tt;
     Startup.Elasticsearch := Startup.Returns tt;
     Startup.ping := Startup.Returns true |}.

End Incident.
(** * Properties *)

Lemma skipn_length_app {A} (l l' : list A) : skipn (List.length l) (l ++ l') = l'.
Proof. induction l; simpl; auto. Qed.

Ltac task_unfold :=
  unfold cycle, fetch_and_analyze_data, try_except, bind, es_search,
    model_generate_content, print, emit, set_cache, lift, ret in *;
  simpl in *.

Ltac trace_norm :=
  repeat rewrite <- app_assoc in *; simpl in *.

(** The goal of a branch in which the cycle skipped. *)
Ltac skipped :=
  split;
  [ reflexivity
  | left; eexists; split; [trace_norm; reflexivity | reflexivity] ].

Section Serialising.
Context {R : Runtime}.

(** A value nested no deeper than the placeholder is serialised by every
    interpreter. *)
Lemma respond_shallow (v : json) (status : Z) :
  (depth v <= 2)%nat -> respond v status = Ok (v, status).
Proof.
  intros H. unfold respond, jsonify.
  assert (E : (depth v <=? dumps_depth)%nat = true).
  { apply Nat.leb_le. pose proof dumps_depth_min. lia. }
  rewrite E. reflexivity.
Qed.

(** What was serialised is what the view was given. *)
Lemma respond_ok (v : json) (status : Z) (r : response) :
  respond v status = Ok r -> r = (v, status).
Proof.
  unfold respond, jsonify.
  destruct (depth v <=? dumps_depth)%nat; simpl; intros H; inversion H; reflexivity.
Qed.

Lemma respond_error_body (what : text) (status : Z) :
  respond (error_body what) status = Ok (error_body what, status).
Proof. apply respond_shallow. simpl. lia. Qed.

Lemma read_placeholder (s : State) :
  ai_analysis_cache s = placeholder -> read s = Ok (placeholder, 200%Z).
Proof.
  intros E. unfold read, get_ai_analysis. cbn [fst]. rewrite E.
  apply respond_shallow. simpl. lia.
Qed.

End Serialising.

Section RefreshFacts.
Context {R : Runtime}.
Variable p : Process.
Variable w : World.

(** Every cycle ends normally, and it either leaves the cache alone and
    does not report an update, or it went down the whole path, decoded the
    cleaned reply to a [dict] and stored that [dict] with its stamp. *)
Lemma cycle_cases (s : State) :
  fst (fetch_and_analyze_data p w s) = Ok tt /\
  ((exists evs,
       cycle p w s = {| ai_analysis_cache := ai_analysis_cache s;
                        trace := trace s ++ evs |} /\
       existsb is_cache_updated evs = false) \/
   (exists resp aggs total briefing reply d,
       path p w resp aggs total briefing reply /\
       json_loads (clean reply) = Ok (JDict d) /\
       cycle p w s = {| ai_analysis_cache := stamped w d;
                        trace := trace s ++ commit_trace w briefing |})).
Proof.
  task_unfold.
  destruct (es p) eqn:Hes; simpl;
    [ destruct (model p) eqn:Hm; simpl | ]; try skipped.
  destruct (search w INDEX_PATTERN briefing_query) as [resp|e] eqn:Hs; simpl;
    [ | skipped ].
  destruct (py_get resp (txt "aggregations") (JDict [])) as [aggs|e] eqn:Ha; simpl;
    [ | skipped ].
  destruct (total_of resp) as [total|e] eqn:Ht; simpl; [ | skipped ].
  destruct (eq_zero total) eqn:Hz; simpl; [ skipped | ].
  destruct (compose_briefing total aggs) as [briefing|e] eqn:Hb; simpl;
    [ | skipped ].
  destruct (generate_content w (make_prompt briefing)) as [reply|e] eqn:Hg; simpl;
    [ | skipped ].
  destruct (json_loads (clean reply)) as [v|e] eqn:Hl; simpl; [ | skipped ].
  destruct v; simpl; try skipped.
  split; [reflexivity | right].
  exists resp, aggs, total, briefing, reply, d.
  split; [constructor; assumption | split; [exact Hl | ]].
  unfold stamped, commit_trace. trace_norm. reflexivity.
Qed.

End RefreshFacts.

Section CycleFacts.
Context {R : Runtime}.
Variable p : Process.
Variable w : World.

Lemma total_of_dict resp total :
  total_of resp = Ok total ->
  exists aggs, py_get resp (txt "aggregations") (JDict []) = Ok aggs.
Proof.
  destruct resp; simpl; try discriminate.
  intros _. destruct (dict_get (txt "aggregations") d); eauto.
Qed.

(** A cycle that got a reply: what it does is decided by the decoding of the
    cleaned reply alone. *)
Lemma cycle_on_path s resp aggs total briefing reply :
  path p w resp aggs total briefing reply ->
  fetch_and_analyze_data p w s =
  (Ok tt,
   match json_loads (clean reply) with
   | Ok (JDict d) =>
       {| ai_analysis_cache := stamped w d;
          trace := trace s ++ commit_trace w briefing |}
   | Ok _ =>
       {| ai_analysis_cache := ai_analysis_cache s;
          trace := trace s ++ failed_trace w briefing TypeError |}
   | Raise e =>
       {| ai_analysis_cache := ai_analysis_cache s;
          trace := trace s ++ failed_trace w briefing e |}
   end).
Proof.
  intros [Hes Hm Hs Ha Ht Hz Hb Hg].
  task_unfold. rewrite Hes, Hm. simpl.
  rewrite Hs. simpl. rewrite Ha. simpl. rewrite Ht. simpl. rewrite Hz. simpl.
  rewrite Hb. simpl. rewrite Hg. simpl.
  unfold stamped, commit_trace, failed_trace.
  destruct (json_loads (clean reply)) as [[]|e]; simpl; trace_norm; reflexivity.
Qed.

(** A cycle that does not report an update leaves the cache as it was. *)
Lemma not_committed_keeps_cache s :
  committed p w s = false ->
  ai_analysis_cache (cycle p w s) = ai_analysis_cache s.
Proof.
  unfold committed, new_events.
  destruct (cycle_cases p w s) as [_ [[evs [E _]] | (resp & aggs & total & briefing & reply & d & _ & _ & E)]];
    rewrite E; simpl; auto.
  rewrite skipn_length_app. simpl. discriminate.
Qed.

Lemma cycle_trace_grows s :
  exists evs, trace (cycle p w s) = trace s ++ evs.
Proof.
  destruct (cycle_cases p w s) as [_ [[evs [E _]] | (resp & aggs & total & briefing & reply & d & _ & _ & E)]];
    rewrite E; simpl; eauto.
Qed.

End CycleFacts.

(** ** The refresh cycle and the cache *)

Section CacheClaims.
Context {R : Runtime}.
Variable p : Process.

(** C3.  If the query to the analytics store raises an error, the cycle
    returns normally (the error stops at the handler of the task) and the
    cache after the cycle is the cache before it. *)
Theorem query_failure_leaves_cache (w : World) (s : State) (e : exn) :
  search w INDEX_PATTERN briefing_query = Raise e ->
  fst (fetch_and_analyze_data p w s) = Ok tt /\
  ai_analysis_cache (cycle p w s) = ai_analysis_cache s /\
  committed p w s = false.
Proof.
  intros Hs.
  destruct (cycle_cases p w s) as [Hok [[evs [E Hn]] | (resp & aggs & total & briefing & reply & d & Hp & _)]].
  - split; [exact Hok | ]. unfold committed, new_events. rewrite E. simpl.
    rewrite skipn_length_app. auto.
  - destruct Hp as [_ _ Hs' _ _ _ _ _]. congruence.
Qed.

(** C4.  If the store reports a total of zero events for the window, the
    cycle stops right after the query: nothing is composed, nothing is sent
    to the summarization service, and the cache is left as it was.  (With
    [es] or [model] missing the cycle does not even query.) *)
Theorem empty_window_leaves_cache (w : World) (s : State) (resp total : json) :
  search w INDEX_PATTERN briefing_query = Ok resp ->
  total_of resp = Ok total ->
  eq_zero total = true ->
  fst (fetch_and_analyze_data p w s) = Ok tt /\
  ai_analysis_cache (cycle p w s) = ai_analysis_cache s /\
  committed p w s = false /\
  existsb is_generated (new_events p w s) = false /\
  new_events p w s =
    (if es p && model p then empty_window_trace w
     else [Printed Skipped_unavailable]).
Proof.
  intros Hs Ht Hz.
  destruct (total_of_dict _ Ht) as [aggs Ha].
  unfold committed, new_events.
  task_unfold.
  destruct (es p); simpl;
    [ destruct (model p); simpl | ];
    try (rewrite skipn_length_app; simpl; repeat split; reflexivity).
  rewrite Hs. simpl. rewrite Ha. simpl. rewrite Ht. simpl. rewrite Hz. simpl.
  trace_norm. rewrite skipn_length_app. simpl. repeat split; reflexivity.
Qed.



(** C1, as the program has it.  After a reply of the summarization service
    the cycle overwrites the cache exactly when the cleaned reply decodes to
    a [dict]: it stores that [dict] with [last_updated] set, whatever keys it
    has and without looking for the three fields; any other reply makes the
    cycle skip with the cache unchanged. *)
Theorem commit_needs_only_a_dict
    (w : World) (s : State) (resp aggs total : json) (briefing reply : text) :
  path p w resp aggs total briefing reply ->
  ai_analysis_cache (cycle p w s) =
    match json_loads (clean reply) with
    | Ok (JDict d) => stamped w d
    | _ => ai_analysis_cache s
    end /\
  committed p w s =
    match json_loads (clean reply) with
    | Ok (JDict _) => true
    | _ => false
    end.
Proof.
  intros Hp. unfold committed, new_events, cycle.
  rewrite (cycle_on_path s Hp).
  destruct (json_loads (clean reply)) as [[]|e]; simpl;
    rewrite skipn_length_app; split; reflexivity.
Qed.

Lemma text_eqb_refl (a : text) : text_eqb a a = true.
Proof. induction a; simpl; auto. rewrite N.eqb_refl. auto. Qed.

Lemma dict_get_set_same k v d : dict_get k (dict_set k v d) = Some v.
Proof.
  induction d as [|[k' v'] d IH]; simpl.
  - rewrite text_eqb_refl. reflexivity.
  - destruct (text_eqb k k') eqn:E; simpl; rewrite E; auto.
Qed.

Lemma run_trace_grows ws : forall s, exists evs, trace (run p ws s) = trace s ++ evs.
Proof.
  induction ws as [|w ws IH]; intros s; simpl.
  - exists []. rewrite app_nil_r. reflexivity.
  - destruct (IH (cycle p w s)) as [evs2 E2].
    destruct (cycle_trace_grows p w s) as [evs1 E1].
    exists (evs1 ++ evs2). rewrite E2, E1, app_assoc. reflexivity.
Qed.

Lemma no_update_run_keeps_cache ws : forall s,
  existsb is_cache_updated (skipn (List.length (trace s)) (trace (run p ws s))) = false ->
  ai_analysis_cache (run p ws s) = ai_analysis_cache s.
Proof.
  induction ws as [|w ws IH]; intros s H; simpl in *; auto.
  destruct (run_trace_grows ws (cycle p w s)) as [evs2 E2].
  destruct (cycle_trace_grows p w s) as [evs1 E1].
  rewrite E2, E1 in H. rewrite <- app_assoc, skipn_length_app, existsb_app in H.
  apply orb_false_iff in H. destruct H as [H1 H2].
  rewrite IH.
  - apply not_committed_keeps_cache. unfold committed, new_events.
    rewrite E1, skipn_length_app. exact H1.
  - rewrite E2, skipn_length_app. exact H2.
Qed.

(** C10.  As long as no refresh cycle has reported an update, a read of
    [/api/ai-analysis] answers the placeholder, and the [last_updated] of the
    placeholder is [None], not a timestamp. *)
Theorem placeholder_until_first_commit (ws : list World) :
  uneventful p ws initial_state ->
  read (run p ws initial_state) = Ok (placeholder, 200%Z) /\
  last_updated placeholder = Some JNull.
Proof.
  intros H. split; [ | reflexivity ].
  apply read_placeholder.
  rewrite (no_update_run_keeps_cache ws initial_state); [reflexivity | exact H].
Qed.

Lemma run_app_gen (ws1 ws2 : list World) : forall s,
  run p (ws1 ++ ws2) s = run p ws2 (run p ws1 s).
Proof. induction ws1 as [|w ws1 IH]; intros s; simpl; auto. Qed.

Lemma skipn_all_length {A} (l : list A) : skipn (List.length l) l = [].
Proof. induction l; simpl; auto. Qed.

Lemma uneventful_nil (s : State) : uneventful p [] s.
Proof. unfold uneventful. simpl. rewrite skipn_all_length. reflexivity. Qed.

(** One more cycle that skips keeps a run uneventful. *)
Lemma uneventful_snoc (ws : list World) (w : World) (s : State) (evs : list event) :
  uneventful p ws s ->
  trace (cycle p w (run p ws s)) = trace (run p ws s) ++ evs ->
  existsb is_cache_updated evs = false ->
  uneventful p (ws ++ [w]) s.
Proof.
  unfold uneventful. intros H E Hn.
  rewrite run_app_gen. simpl. rewrite E.
  destruct (run_trace_grows ws s) as [evs0 E0].
  rewrite E0 in *. rewrite skipn_length_app in H.
  rewrite <- app_assoc, skipn_length_app, existsb_app, H, Hn. reflexivity.
Qed.

(** The cache of a run is the placeholder, if no cycle committed, or what
    the last committing cycle decoded from its reply and stamped. *)
Lemma run_cache (ws : list World) :
  (ai_analysis_cache (run p ws initial_state) = placeholder /\
   uneventful p ws initial_state) \/
  (exists ws1 w ws2 resp aggs total briefing reply d,
     ws = ws1 ++ w :: ws2 /\
     path p w resp aggs total briefing reply /\
     json_loads (clean reply) = Ok (JDict d) /\
     uneventful p ws2 (run p (ws1 ++ [w]) initial_state) /\
     ai_analysis_cache (run p ws initial_state) = stamped w d).
Proof.
  induction ws as [|w ws IH] using rev_ind.
  - left. split; [reflexivity | apply uneventful_nil].
  - rewrite run_app_gen. simpl.
    destruct (cycle_cases p w (run p ws initial_state))
      as [_ [[evs [E Hn]] | (resp & aggs & total & briefing & reply & d & Hp & Hl & E)]].
    + assert (Et : trace (cycle p w (run p ws initial_state)) =
                   trace (run p ws initial_state) ++ evs) by (rewrite E; reflexivity).
      rewrite E. simpl.
      destruct IH as [[Hc Hu] |
        (ws1 & w' & ws2 & resp & aggs & total & briefing & reply & d & -> & Hp & Hl & Hu & Hd)].
      * left. split; [exact Hc | ]. eapply uneventful_snoc; eassumption.
      * right. exists ws1, w', (ws2 ++ [w]), resp, aggs, total, briefing, reply, d.
        split; [rewrite <- app_assoc; reflexivity | ].
        split; [exact Hp | ].
        split; [exact Hl | ].
        split; [ | exact Hd ].
        eapply uneventful_snoc; [exact Hu | | exact Hn].
        rewrite <- run_app_gen, <- app_assoc. exact Et.
    + right. exists ws, w, [], resp, aggs, total, briefing, reply, d.
      split; [reflexivity | ].
      split; [exact Hp | ].
      split; [exact Hl | ].
      split; [apply uneventful_nil | ].
      rewrite E. reflexivity.
Qed.

(** C2, as the program has it.  At every point of every run the cache is a
    [dict] with a [last_updated] entry.  As long as no cycle committed it is
    the placeholder.  Afterwards it is what the most recent committing cycle
    stored: the [dict] that this cycle decoded from the cleaned reply of the
    service, with [last_updated] set to the reading of its clock, whatever
    the other keys are.  A read of [/api/ai-analysis] never finds the cache
    empty, and on the placeholder it always succeeds; after a commit it
    need not: it answers the cache with status 200 if the cache is nested no
    deeper than the encoder can go, and raises [RecursionError] out of the
    view otherwise. *)
Theorem cache_always_a_stamped_dict (ws : list World) :
  exists d,
    ai_analysis_cache (run p ws initial_state) = JDict d /\
    dict_has (txt "last_updated") d = true /\
    read (run p ws initial_state) =
      (if (depth (JDict d) <=? dumps_depth)%nat
       then Ok (JDict d, 200%Z)
       else Raise RecursionError) /\
    ((JDict d = placeholder /\
      uneventful p ws initial_state /\
      read (run p ws initial_state) = Ok (placeholder, 200%Z)) \/
     (exists ws1 w ws2 resp aggs total briefing reply d0,
        ws = ws1 ++ w :: ws2 /\
        path p w resp aggs total briefing reply /\
        json_loads (clean reply) = Ok (JDict d0) /\
        uneventful p ws2 (run p (ws1 ++ [w]) initial_state) /\
        JDict d = stamped w d0)).
Proof.
  destruct (run_cache ws) as [[E Hu] |
    (ws1 & w & ws2 & resp & aggs & total & briefing & reply & d0 & Hws & Hp & Hl & Hu & E)].
  - pose proof (read_placeholder _ E) as Hr.
    unfold read, get_ai_analysis, respond, jsonify in *. cbn [fst] in *.
    rewrite E in *.
    exists placeholder_fields.
    split; [reflexivity | ].
    split; [reflexivity | ].
    split; [ | left; split; [reflexivity | split; [exact Hu | exact Hr]]].
    change (JDict placeholder_fields) with placeholder.
    destruct (depth placeholder <=? dumps_depth)%nat; reflexivity.
  - unfold read, get_ai_analysis, respond, jsonify. cbn [fst]. rewrite E.
    exists (dict_set (txt "last_updated") (JStr (clock_stamp w)) d0).
    split; [reflexivity | ].
    split; [unfold dict_has; rewrite dict_get_set_same; reflexivity | ].
    split.
    + unfold stamped.
      destruct (depth (JDict (dict_set (txt "last_updated") (JStr (clock_stamp w)) d0))
                <=? dumps_depth)%nat; reflexivity.
    + right. exists ws1, w, ws2, resp, aggs, total, briefing, reply, d0.
      split; [exact Hws | ].
      split; [exact Hp | ].
      split; [exact Hl | ].
      split; [exact Hu | reflexivity].
Qed.

End CacheClaims.

(** ** Freshness of the stamp *)

Section Freshness.
Context {R : Runtime}.
Variable p : Process.





End Freshness.

(** ** The dashboard *)

Section Dashboard.
Context {R : Runtime}.

Local Arguments txt : simpl never.
Local Arguments text_eqb : simpl never.
Local Arguments dict_get : simpl never.

Lemma mapM_length {A B} (f : A -> result B) l : forall out,
  mapM f l = Ok out -> List.length out = List.length l /\ Forall2 (fun a b => f a = Ok b) l out.
Proof.
  induction l as [|a l IH]; simpl; intros out H.
  - inversion H. split; [reflexivity | constructor].
  - destruct (f a) as [b|] eqn:Ea; [ | discriminate ].
    destruct (mapM f l) as [bs|] eqn:El; [ | discriminate ].
    inversion H. subst. destruct (IH bs eq_refl) as [Hl HF].
    split; [simpl; congruence | constructor; assumption].
Qed.

(** What [format_buckets] makes of an aggregation that has a list of
    buckets: one entry for each bucket, in the same order. *)
Lemma format_buckets_of_list d bs out :
  dict_get (txt "buckets") d = Some (JList bs) ->
  format_buckets (JDict d) = Ok out ->
  exists l, out = JList l /\ List.length l = List.length bs /\
            Forall2 (fun b o => format_bucket b = Ok o) bs l.
Proof.
  intros Hb. unfold format_buckets.
  assert (Ht : truthy (JDict d) = true) by (destruct d; [discriminate Hb | reflexivity]).
  rewrite Ht. unfold py_contains, py_getitem, py_iter, dict_has, rbind.
  rewrite Hb. cbn [negb].
  destruct (mapM format_bucket bs) as [l|] eqn:E; [ | discriminate ].
  intros H. inversion H. exists l. split; [reflexivity | ].
  apply mapM_length. exact E.
Qed.

(** The ways through the endpoint. *)
Lemma dashboard_cases (p : Process) (w : World) (s : State) :
  get_dashboard_data p w s =
  if negb (es p) then
    (Ok (error_body (txt "Elasticsearch connection not available"), 500%Z), s)
  else
    match (resp <- search w INDEX_PATTERN dashboard_query ;;
           data <- dashboard_data resp ;;
           jsonify data)%res with
    | Ok body =>
        (Ok (body, 200%Z),
         {| ai_analysis_cache := ai_analysis_cache s;
            trace := trace s ++ [Searched INDEX_PATTERN dashboard_query] |})
    | Raise e =>
        (Ok (error_body (str_exn e), 500%Z),
         {| ai_analysis_cache := ai_analysis_cache s;
            trace := trace s ++ [Searched INDEX_PATTERN dashboard_query;
                                 Printed (Dashboard_error e)] |})
    end.
Proof.
  unfold get_dashboard_data, es_search, print.
  unfold try_except, bind, emit, lift, ret.
  destruct (es p); cbn [negb];
    [ | rewrite respond_error_body; reflexivity ].
  cbv beta iota zeta.
  destruct (search w INDEX_PATTERN dashboard_query) as [resp|e];
    cbn [rbind]; cbv beta iota zeta.
  - destruct (dashboard_data resp) as [data|e]; cbn [rbind]; cbv beta iota zeta.
    + unfold respond at 1. destruct (jsonify data) as [body|e];
        cbn [rbind]; cbv beta iota zeta; [reflexivity | ].
      rewrite respond_error_body.
      cbn [ai_analysis_cache trace]. rewrite <- app_assoc. reflexivity.
    + rewrite respond_error_body.
      cbn [ai_analysis_cache trace]. rewrite <- app_assoc. reflexivity.
  - rewrite respond_error_body.
    cbn [ai_analysis_cache trace]. rewrite <- app_assoc. reflexivity.
Qed.

(** An answer with status 200 is the data made from a response of the
    store. *)
Lemma dashboard_answered (p : Process) (w : World) (s : State) (body : json) :
  fst (get_dashboard_data p w s) = Ok (body, 200%Z) ->
  es p = true /\
  exists resp,
    search w INDEX_PATTERN dashboard_query = Ok resp /\
    dashboard_data resp = Ok body.
Proof.
  rewrite dashboard_cases.
  destruct (es p); cbn [negb]; [ | intros H; inversion H ].
  destruct (search w INDEX_PATTERN dashboard_query) as [resp|e] eqn:Hs; cbn [rbind];
    [ | intros H; inversion H ].
  destruct (dashboard_data resp) as [data|e] eqn:Hd; cbn [rbind];
    [ | intros H; inversion H ].
  unfold jsonify. destruct (depth data <=? dumps_depth)%nat;
    [ | intros H; inversion H ].
  cbn [fst]. intros H. inversion H. subst data.
  split; [reflexivity | ]. exists resp. split; [reflexivity | exact Hd].
Qed.

Ltac step_rbind H :=
  match type of H with
  | rbind ?x _ = Ok _ =>
      let E := fresh "E" in
      destruct x eqn:E; simpl in H; [ | discriminate H ]
  end.

(** C8, as the program has it.  When the endpoint answers its data, the
    series [chart_attacks_over_time] has exactly one entry for each bucket
    the store returned for the histogram, in the order of the store, with
    the key of the bucket as name and its count as value.  The endpoint adds
    no entry and drops none: how many there are, and that empty hours are
    among them, is left to the store, which the query asks for hourly buckets
    from [now-24h/h] to [now/h] with a minimal count of zero. *)
Theorem series_follows_store
    (p : Process) (w : World) (s : State) (resp aggs : json)
    (d : list (text * json)) (bs : list json) (body : json) :
  es p = true ->
  search w INDEX_PATTERN dashboard_query = Ok resp ->
  py_get resp (txt "aggregations") (JDict []) = Ok aggs ->
  py_get aggs (txt "attacks_over_time") JNull = Ok (JDict d) ->
  dict_get (txt "buckets") d = Some (JList bs) ->
  fst (get_dashboard_data p w s) = Ok (body, 200%Z) ->
  exists series,
    over_time_series (Ok (body, 200%Z)) = Some series /\
    List.length series = List.length bs /\
    Forall2 (fun b o => format_bucket b = Ok o) bs series.
Proof.
  intros Hes Hs Ha Ho Hb Hr.
  destruct (dashboard_answered _ _ _ Hr) as [_ [resp' [Hs' Hd]]].
  rewrite Hs in Hs'. inversion Hs'. subst resp'. clear Hs' Hr.
  rename body into data.
  unfold dashboard_data in Hd. rewrite Ha in Hd. simpl in Hd.
  do 9 step_rbind Hd.
  rewrite Ho in Hd. simpl in Hd.
  step_rbind Hd.
  destruct (format_buckets_of_list _ Hb E8) as [l [-> [Hl HF]]].
  repeat step_rbind Hd.
  inversion Hd. subst data.
  exists l. split; [ | split; assumption ].
  reflexivity.
Qed.

End Dashboard.

(** ** The triggers *)

Module SchedulerFacts.
Import Scheduler.

Lemma filter_none {A} (f : A -> bool) (l : list A) :
  (forall x, In x l -> f x = false) -> filter f l = [].
Proof.
  induction l as [|x l IH]; intros H; [reflexivity | ].
  cbn [filter]. rewrite (H x (or_introl eq_refl)).
  apply IH. intros y Hy. apply H. right. exact Hy.
Qed.

Lemma filter_nil_none {A} (f : A -> bool) (l : list A) :
  filter f l = [] -> forall x, In x l -> f x = false.
Proof.
  induction l as [|y l IH]; intros H x Hx; [destruct Hx | ].
  cbn [filter] in H. destruct (f y) eqn:E; [discriminate H | ].
  destruct Hx as [<-|Hx]; [exact E | apply IH; assumption].
Qed.

Lemma filter_all {A} (f : A -> bool) (l : list A) :
  (forall x, In x l -> f x = true) -> filter f l = l.
Proof.
  induction l as [|x l IH]; intros H; [reflexivity | ].
  cbn [filter]. rewrite (H x (or_introl eq_refl)).
  f_equal. apply IH. intros y Hy. apply H. right. exact Hy.
Qed.

Lemma active_cons (c : started_cycle) (cs : list started_cycle) (t : nat) :
  active (c :: cs) t = ((if running t c then 1 else 0) + active cs t)%nat.
Proof. unfold active. cbn [filter]. destruct (running t c); reflexivity. Qed.

Section Job.
Variable j : job.
Variable duration : nat -> nat.

Lemma job_cycles_step (m : nat) :
  job_cycles j duration (S m) =
  if (active (job_cycles j duration m) (period j * S m) <? max_instances j)%nat
  then tick_cycle j duration (S m) :: job_cycles j duration m
  else job_cycles j duration m.
Proof. reflexivity. Qed.

(** Every cycle of the job was started by one of the ticks so far. *)
Lemma job_cycles_in (n : nat) (c : started_cycle) :
  In c (job_cycles j duration n) -> exists k, (1 <= k <= n)%nat /\ c = tick_cycle j duration k.
Proof.
  induction n as [|m IH]; [intros [] | ].
  rewrite job_cycles_step.
  destruct (active (job_cycles j duration m) (period j * S m) <? max_instances j)%nat.
  - intros [<-|H].
    + exists (S m). split; [lia | reflexivity].
    + destruct (IH H) as [k [Hk E]]. exists k. split; [lia | exact E].
  - intros H. destruct (IH H) as [k [Hk E]]. exists k. split; [lia | exact E].
Qed.

(** What a tick started stays started. *)
Lemma job_cycles_keep (m n : nat) (c : started_cycle) :
  (m <= n)%nat -> In c (job_cycles j duration m) -> In c (job_cycles j duration n).
Proof.
  induction 1 as [|n Hle IH]; intros H; [exact H | ].
  rewrite job_cycles_step.
  destruct (active (job_cycles j duration n) (period j * S n) <? max_instances j)%nat;
    [right | ]; apply IH; exact H.
Qed.

Lemma cycle_of_inj (k k' : nat) : tick_cycle j duration k = tick_cycle j duration k' -> k = k'.
Proof. intros H. apply (f_equal trigger) in H. inversion H. reflexivity. Qed.

(** Whether the [k]-th tick started a cycle was settled at that tick. *)
Lemma job_cycles_older (k m n : nat) :
  (k <= m)%nat -> (m <= n)%nat -> In (tick_cycle j duration k) (job_cycles j duration n) -> In (tick_cycle j duration k) (job_cycles j duration m).
Proof.
  intros Hk. induction 1 as [|n Hle IH]; intros H; [exact H | ].
  apply IH. rewrite job_cycles_step in H.
  destruct (active (job_cycles j duration n) (period j * S n) <? max_instances j)%nat;
    [ | exact H ].
  destruct H as [E|H]; [ | exact H ].
  apply cycle_of_inj in E. lia.
Qed.

Lemma ran_iff (n k : nat) : ran (job_cycles j duration n) k <-> In (tick_cycle j duration k) (job_cycles j duration n).
Proof.
  split.
  - intros [c [Hin Ht]].
    destruct (job_cycles_in n c Hin) as [k' [_ ->]].
    inversion Ht. subst k'. exact Hin.
  - intros H. exists (tick_cycle j duration k). split; [exact H | reflexivity].
Qed.

(** A cycle started by the job is behind the tick [n] at any time from that
    tick on, so it is running then exactly if it has not finished. *)
Lemma idle_iff (n t : nat) :
  (period j * n <= t)%nat ->
  (active (job_cycles j duration n) t = 0%nat <->
   forall c, In c (job_cycles j duration n) -> (finish c <= t)%nat).
Proof.
  intros Ht. unfold active. split.
  - intros H c Hc. apply length_zero_iff_nil in H.
    pose proof (filter_nil_none _ _ H c Hc) as Hr.
    destruct (job_cycles_in n c Hc) as [k [Hk ->]].
    unfold running in Hr. cbn [start finish tick_cycle] in *.
    apply andb_false_iff in Hr. destruct Hr as [Hr|Hr].
    + apply Nat.leb_gt in Hr. nia.
    + apply Nat.ltb_ge in Hr. exact Hr.
  - intros H. rewrite filter_none; [reflexivity | ].
    intros c Hc. specialize (H c Hc). unfold running.
    apply andb_false_iff. right. apply Nat.ltb_ge. exact H.
Qed.

Hypothesis one_instance : max_instances j = 1%nat.

(** The tick starts a cycle exactly if no cycle of the job is running. *)
Lemma tick_starts_iff (m : nat) :
  In (tick_cycle j duration (S m)) (job_cycles j duration (S m)) <->
  active (job_cycles j duration m) (period j * S m) = 0%nat.
Proof.
  rewrite job_cycles_step, one_instance.
  destruct (active (job_cycles j duration m) (period j * S m) <? 1)%nat eqn:E.
  - apply Nat.ltb_lt in E. split; [lia | left; reflexivity].
  - apply Nat.ltb_ge in E. split; [ | lia ].
    intros H. destruct (job_cycles_in m _ H) as [k [Hk Ek]].
    apply cycle_of_inj in Ek. lia.
Qed.

(** At no time are two cycles of the job running. *)
Lemma at_most_one_job_cycle (n t : nat) : (active (job_cycles j duration n) t <= 1)%nat.
Proof.
  induction n as [|m IH]; [unfold active; simpl; lia | ].
  rewrite job_cycles_step, one_instance.
  destruct (active (job_cycles j duration m) (period j * S m) <? 1)%nat eqn:E; [ | exact IH ].
  apply Nat.ltb_lt in E.
  assert (E0 : active (job_cycles j duration m) (period j * S m) = 0%nat) by lia.
  rewrite active_cons.
  destruct (running t (tick_cycle j duration (S m))) eqn:Hr; [ | simpl; exact IH ].
  assert (Ht : (period j * S m <= t)%nat).
  { unfold running in Hr. cbn [start finish tick_cycle] in Hr.
    apply andb_true_iff in Hr. destruct Hr as [Hr _].
    apply Nat.leb_le in Hr. exact Hr. }
  assert (E1 : active (job_cycles j duration m) t = 0%nat).
  { apply idle_iff; [nia | ].
    intros c Hc.
    pose proof (proj1 (@idle_iff m (period j * S m)%nat ltac:(nia)) E0 c Hc). lia. }
  rewrite E1. reflexivity.
Qed.

Hypothesis positive_period : (0 < period j)%nat.

(** The [k]-th tick runs the job exactly if every cycle of the job that
    started before has finished by then. *)
Lemma tick_runs_iff (n k : nat) :
  (1 <= k <= n)%nat ->
  (ran (job_cycles j duration n) k <->
   forall c, In c (job_cycles j duration n) ->
             (start c < period j * k)%nat -> (finish c <= period j * k)%nat).
Proof.
  intros Hk. destruct k as [|m]; [lia | ].
  rewrite ran_iff. split.
  - intros H c Hc Hs.
    apply (@job_cycles_older (S m) (S m) n) in H; [ | lia | lia ].
    apply tick_starts_iff in H.
    destruct (job_cycles_in n c Hc) as [i [Hi ->]].
    cbn [start tick_cycle] in Hs.
    assert (Him : (i <= m)%nat) by nia.
    apply (@job_cycles_older i m n) in Hc; [ | exact Him | lia ].
    exact (proj1 (@idle_iff m (period j * S m)%nat ltac:(nia)) H _ Hc).
  - intros H.
    apply (job_cycles_keep (m := S m) (n := n)); [lia | ].
    apply tick_starts_iff. apply idle_iff; [nia | ].
    intros c Hc.
    destruct (job_cycles_in m c Hc) as [i [Hi E]].
    apply H.
    + apply (job_cycles_keep (m := m) (n := n)); [lia | exact Hc].
    + subst c. cbn [start tick_cycle]. nia.
Qed.

End Job.

Lemma period_interval_job : period interval_job = 600%nat.
Proof. reflexivity. Qed.

Lemma one_instance_interval_job : max_instances interval_job = 1%nat.
Proof. reflexivity. Qed.

(** C7, as the program has it.  The timer runs the task once, ten seconds
    after the start.  The job of the scheduler is due every 600 seconds; a
    cycle it starts begins at a multiple of 600 seconds and lasts as long as
    the task takes.  A tick runs the task exactly if every cycle that the
    scheduler started before has finished by then, and is skipped
    otherwise; so every tick runs the task as long as no cycle takes more
    than 600 seconds, and the cycles of the scheduler never overlap each
    other.
    The cycle of the timer is not counted by the scheduler: it can overlap
    with a cycle of the scheduler, and at any time at most two cycles are
    running. *)
Theorem one_timer_cycle_and_serial_job_cycles (d : Durations) (n : nat) :
  filter by_timer (main d n) = [Timer 10 (of_timer_cycle d)] /\
  (forall c, In c (main d n) -> by_scheduler c = true ->
     exists k, (1 <= k <= n)%nat /\
               trigger c = By_tick k /\
               start c = (600 * k)%nat /\
               finish c = (600 * k + of_tick_cycle d k)%nat) /\
  (forall k, (1 <= k <= n)%nat ->
     (ran (main d n) k <->
      forall c, In c (main d n) -> by_scheduler c = true ->
                (start c < 600 * k)%nat -> (finish c <= 600 * k)%nat)) /\
  ((forall k, (of_tick_cycle d k <= 600)%nat) ->
   forall k, (1 <= k <= n)%nat -> ran (main d n) k) /\
  (forall t, (active (filter by_scheduler (main d n)) t <= 1)%nat) /\
  (forall t, (active (main d n) t <= 2)%nat).
Proof.
  set (cs := job_cycles interval_job (of_tick_cycle d) n).
  assert (Hcs : forall c, In c cs -> by_timer c = false).
  { intros c Hc. destruct (job_cycles_in _ _ n c Hc) as [k [_ ->]]. reflexivity. }
  assert (Hmain : main d n = Timer 10 (of_timer_cycle d) :: cs) by reflexivity.
  assert (Hjobs : filter by_scheduler (main d n) = cs).
  { rewrite Hmain. cbn [filter]. change (by_scheduler (Timer 10 (of_timer_cycle d))) with false.
    cbv iota. apply filter_all. intros c Hc. unfold by_scheduler.
    rewrite (Hcs c Hc). reflexivity. }
  assert (Hin : forall c, In c (main d n) /\ by_scheduler c = true <-> In c cs).
  { intros c. rewrite <- Hjobs. rewrite filter_In. reflexivity. }
  assert (Hshape : forall c, In c (main d n) -> by_scheduler c = true ->
            exists k, (1 <= k <= n)%nat /\
                      trigger c = By_tick k /\
                      start c = (600 * k)%nat /\
                      finish c = (600 * k + of_tick_cycle d k)%nat).
  { intros c Hc Hb.
    assert (Hc' : In c cs) by (apply Hin; split; assumption).
    destruct (job_cycles_in _ _ n c Hc') as [k [Hk ->]].
    exists k. cbn [trigger start finish tick_cycle].
    rewrite period_interval_job. repeat split; lia || reflexivity. }
  assert (Hticks : forall k, (1 <= k <= n)%nat ->
            (ran (main d n) k <->
             forall c, In c (main d n) -> by_scheduler c = true ->
                       (start c < 600 * k)%nat -> (finish c <= 600 * k)%nat));
    [ | split; [ | split; [exact Hshape | split; [exact Hticks | split; [ | split ]]]]].
  3: { intros Hshort k Hk. apply (Hticks k Hk).
       intros c Hc Hb Hs.
       destruct (Hshape c Hc Hb) as (i & Hi & _ & Es & Ef).
       specialize (Hshort i). lia. }
  - intros k Hk.
    assert (Hran : ran (main d n) k <-> ran cs k).
    { unfold ran. split; intros [c [Hc Ht]]; exists c; (split; [ | exact Ht ]).
      - apply Hin. split; [exact Hc | ].
        unfold by_scheduler, by_timer. rewrite Ht. reflexivity.
      - apply Hin in Hc. apply Hc. }
    rewrite Hran. subst cs.
    assert (Hpos : (0 < period interval_job)%nat)
      by (rewrite period_interval_job; lia).
    rewrite (@tick_runs_iff interval_job (of_tick_cycle d)
               one_instance_interval_job Hpos n k Hk).
    rewrite period_interval_job.
    split; intros H c.
    + intros Hc Hb. apply H. apply Hin. split; assumption.
    + intros Hc. apply Hin in Hc. destruct Hc as [Hc Hb]. apply H; assumption.
  - rewrite Hmain. cbn [filter]. change (by_timer (Timer 10 (of_timer_cycle d))) with true.
    cbv iota. f_equal. apply filter_none. exact Hcs.
  - intros t. rewrite Hjobs.
    apply (@at_most_one_job_cycle interval_job (of_tick_cycle d)
             one_instance_interval_job n t).
  - intros t. rewrite Hmain, active_cons.
    pose proof (@at_most_one_job_cycle interval_job (of_tick_cycle d)
                  one_instance_interval_job n t) as H.
    subst cs. destruct (running t (Timer 10 (of_timer_cycle d))); lia.
Qed.

End SchedulerFacts.

(** ** Cleaning a fenced reply *)

Lemma startswith_before_separator (pat : text) (c : N) : forall s t,
  pat <> [] -> ~ In c pat ->
  startswith pat (s ++ c :: t) = startswith pat s.
Proof.
  induction pat as [|x pat IH]; intros s t Hne Hc; [congruence | ].
  destruct s as [|y s]; simpl.
  - destruct (N.eqb_spec x c) as [->|]; [ | reflexivity ].
    exfalso. apply Hc. left. reflexivity.
  - destruct pat as [|x' pat']; [reflexivity | ].
    rewrite IH; [reflexivity | discriminate | ].
    intros H. apply Hc. right. exact H.
Qed.

Lemma startswith_app (a b s : text) :
  startswith (a ++ b) s = true -> startswith a s = true.
Proof.
  revert s. induction a as [|x a IH]; intros s; simpl; [reflexivity | ].
  destruct s as [|y s]; [discriminate | ].
  intros H. apply andb_true_iff in H. destruct H as [H1 H2].
  rewrite H1. simpl. apply IH. exact H2.
Qed.

Lemma fence_json_fence (s : text) :
  startswith fence s = false -> startswith fence_json s = false.
Proof.
  intros H. destruct (startswith fence_json s) eqn:E; [ | reflexivity ].
  change fence_json with (fence ++ txt "json") in E.
  apply startswith_app in E. congruence.
Qed.

Lemma occurs_cons (pat : text) (c : N) (s : text) :
  occurs pat (c :: s) = false ->
  startswith pat (c :: s) = false /\ occurs pat s = false.
Proof. simpl. intros H. apply orb_false_iff in H. exact H. Qed.

Lemma fence_not_newline : ~ In 10 fence.
Proof. simpl. intros [H|[H|[H|[]]]]; discriminate H. Qed.

(** Where [body] holds no fence, the second replacement removes the closing
    fence and nothing else. *)
Lemma replace_closing_fence (body : text) :
  occurs fence body = false ->
  replace_from fence [] 0 (body ++ 10 :: fence) = body ++ [10].
Proof.
  induction body as [|c body IH]; intros H; [reflexivity | ].
  apply occurs_cons in H. destruct H as [H1 H2].
  change ((c :: body) ++ 10 :: fence) with (c :: (body ++ 10 :: fence)).
  cbn [replace_from].
  change (c :: (body ++ 10 :: fence)) with ((c :: body) ++ 10 :: fence).
  rewrite startswith_before_separator; [ | discriminate | exact fence_not_newline ].
  rewrite H1, IH; [reflexivity | exact H2].
Qed.

(** And the first replacement finds nothing to remove. *)
Lemma replace_no_fence_json (body : text) :
  occurs fence body = false ->
  replace_from fence_json [] 0 (body ++ 10 :: fence) = body ++ 10 :: fence.
Proof.
  induction body as [|c body IH]; intros H; [reflexivity | ].
  apply occurs_cons in H. destruct H as [H1 H2].
  change ((c :: body) ++ 10 :: fence) with (c :: (body ++ 10 :: fence)).
  cbn [replace_from].
  change (c :: (body ++ 10 :: fence)) with ((c :: body) ++ 10 :: fence).
  rewrite fence_json_fence.
  - rewrite IH; [reflexivity | exact H2].
  - rewrite startswith_before_separator; [exact H1 | discriminate | exact fence_not_newline ].
Qed.

Lemma lstrip_spaces (ws : text) (c : N) (s : text) :
  Forall (fun x => isspace x = true) ws -> isspace c = false ->
  lstrip (ws ++ c :: s) = c :: s.
Proof.
  induction 1 as [|x ws Hx _ IH]; intros Hc; simpl.
  - rewrite Hc. reflexivity.
  - rewrite Hx. apply IH. exact Hc.
Qed.

Lemma rstrip_spaces (ws : text) (c : N) (s : text) :
  Forall (fun x => isspace x = true) ws -> isspace c = false ->
  rstrip (s ++ c :: ws) = s ++ [c].
Proof.
  intros H Hc. unfold rstrip.
  rewrite rev_app_distr. simpl rev. rewrite <- app_assoc. simpl app.
  rewrite lstrip_spaces; [ | apply Forall_rev; exact H | exact Hc ].
  simpl rev. rewrite rev_involutive. reflexivity.
Qed.

Lemma strip_spaces (ws1 ws2 : text) (a b : N) (s : text) :
  Forall (fun x => isspace x = true) ws1 ->
  Forall (fun x => isspace x = true) ws2 ->
  isspace a = false -> isspace b = false ->
  strip (ws1 ++ (a :: s ++ [b]) ++ ws2) = a :: s ++ [b].
Proof.
  intros H1 H2 Ha Hb. unfold strip.
  rewrite <- app_comm_cons.
  rewrite lstrip_spaces by assumption.
  rewrite <- app_assoc. simpl app.
  exact (@rstrip_spaces ws2 b (a :: s) H2 Hb).
Qed.

Lemma startswith_self (pat s : text) : startswith pat (pat ++ s) = true.
Proof. induction pat as [|x pat IH]; simpl; [reflexivity | ]. rewrite N.eqb_refl. exact IH. Qed.

Lemma replace_from_drop (old new a s : text) :
  replace_from old new (List.length a) (a ++ s) = replace_from old new 0 s.
Proof. induction a as [|x a IH]; simpl; [destruct s; reflexivity | exact IH]. Qed.

(** A match at the head is replaced, and the search goes on behind it. *)
Lemma replace_from_hit (x : N) (old new s : text) :
  replace_from (x :: old) new 0 ((x :: old) ++ s) =
  new ++ replace_from (x :: old) new 0 s.
Proof.
  change ((x :: old) ++ s) with (x :: (old ++ s)).
  cbn [replace_from].
  change (x :: (old ++ s)) with ((x :: old) ++ s).
  rewrite startswith_self.
  change (List.length (x :: old) - 1)%nat with (List.length old - 0)%nat.
  rewrite Nat.sub_0_r, replace_from_drop. reflexivity.
Qed.

(** No match at the head: the character stays. *)
Lemma replace_from_miss (old new : text) (c : N) (s : text) :
  startswith old (c :: s) = false ->
  replace_from old new 0 (c :: s) = c :: replace_from old new 0 s.
Proof. intros H. cbn [replace_from]. rewrite H. reflexivity. Qed.

Lemma fenced_shape (tag body : text) :
  fenced tag body = 96 :: (96 :: 96 :: tag ++ nl ++ body ++ nl ++ [96; 96]) ++ [96].
Proof.
  unfold fenced. change fence with [96; 96; 96]. simpl.
  repeat (rewrite <- app_assoc; simpl). reflexivity.
Qed.

Lemma replace_fence_hit (s : text) :
  replace_from fence [] 0 (fence ++ s) = replace_from fence [] 0 s.
Proof. exact (replace_from_hit 96 [96; 96] [] s). Qed.

Lemma replace_fence_json_hit (s : text) :
  replace_from fence_json [] 0 (fence_json ++ s) = replace_from fence_json [] 0 s.
Proof. exact (replace_from_hit 96 [96; 96; 106; 115; 111; 110] [] s). Qed.

(** The cleaning of a fenced reply whose body holds no fence gives the body
    between two line feeds. *)
Lemma clean_fenced (tag body ws1 ws2 : text) :
  tag = [] \/ tag = txt "json" ->
  Forall (fun x => isspace x = true) ws1 ->
  Forall (fun x => isspace x = true) ws2 ->
  occurs fence body = false ->
  clean (ws1 ++ fenced tag body ++ ws2) = nl ++ body ++ nl.
Proof.
  intros Ht H1 H2 Hb. unfold clean.
  rewrite fenced_shape, strip_spaces; try assumption; try reflexivity.
  rewrite <- fenced_shape. unfold fenced.
  change (replace fence_json []) with (replace_from fence_json [] 0).
  change (replace fence []) with (replace_from fence [] 0).
  destruct Ht as [-> | ->].
  - change (fence ++ [] ++ nl ++ body ++ nl ++ fence)
      with (96 :: 96 :: 96 :: 10 :: (body ++ 10 :: fence)).
    do 4 (rewrite (@replace_from_miss fence_json) by reflexivity).
    rewrite (@replace_no_fence_json body Hb).
    change (96 :: 96 :: 96 :: 10 :: body ++ 10 :: fence)
      with (fence ++ 10 :: (body ++ 10 :: fence)).
    rewrite replace_fence_hit, replace_from_miss by reflexivity.
    rewrite (@replace_closing_fence body Hb). reflexivity.
  - change (fence ++ txt "json" ++ nl ++ body ++ nl ++ fence)
      with (fence_json ++ 10 :: (body ++ 10 :: fence)).
    rewrite replace_fence_json_hit, (@replace_from_miss fence_json) by reflexivity.
    rewrite (@replace_no_fence_json body Hb).
    rewrite replace_from_miss by reflexivity.
    rewrite (@replace_closing_fence body Hb). reflexivity.
Qed.

(** ** The decoder does not mind white space around the text *)

Module DecoderFacts.
Import Decoder.

Section DecoderFacts.
Context {R : Runtime}.

Lemma is_ws_cases (w : N) : is_ws w = true -> w = 32 \/ w = 9 \/ w = 10 \/ w = 13.
Proof.
  unfold is_ws. intros H.
  repeat (apply orb_true_iff in H; destruct H as [H | H]);
    apply N.eqb_eq in H; auto.
Qed.

Lemma skip_ws_app (s t : text) (c : N) (r : text) :
  skip_ws s = c :: r -> skip_ws (s ++ t) = c :: r ++ t.
Proof.
  induction s as [|x s IH]; simpl; [discriminate | ].
  destruct (is_ws x); [exact IH | ].
  intros H. inversion H. reflexivity.
Qed.

Lemma skip_ws_all (s t : text) :
  skip_ws s = [] -> skip_ws (s ++ t) = skip_ws t.
Proof.
  induction s as [|x s IH]; simpl; [reflexivity | ].
  destruct (is_ws x); [exact IH | discriminate].
Qed.

Lemma skip_ws_spaces (ws s : text) :
  Forall (fun c => is_ws c = true) ws -> skip_ws (ws ++ s) = skip_ws s.
Proof. induction 1 as [|x ws Hx _ IH]; simpl; [reflexivity | rewrite Hx; exact IH]. Qed.

Lemma cons_item_shift i t x : cons_item i (shift t x) = shift t (cons_item i x).
Proof. destruct x as [[k r]|]; reflexivity. Qed.

(** A string literal is read the same whatever follows its closing quote. *)
Lemma scan_items_app (t : text) : forall n s,
  (List.length s <= n)%nat ->
  scan_items s <> None ->
  scan_items (s ++ t) = shift t (scan_items s).
Proof.
  induction n as [|n IH]; intros s Hn Hs.
  - destruct s; [exfalso; apply Hs; reflexivity | simpl in Hn; lia].
  - destruct s as [|c r]; [exfalso; apply Hs; reflexivity | ].
    simpl in Hn. simpl in *.
    destruct (c =? 34); [reflexivity | ].
    destruct (c =? 92).
    + destruct r as [|e r1]; [exfalso; apply Hs; reflexivity | ].
      simpl in *. destruct (e =? 117).
      * destruct r1 as [|h1 [|h2 [|h3 [|h4 r2]]]];
          try (exfalso; apply Hs; reflexivity).
        simpl in *. destruct (hex4 h1 h2 h3 h4); [ | reflexivity ].
        rewrite IH, cons_item_shift; [reflexivity | lia | ].
        intros E. rewrite E in Hs. apply Hs. reflexivity.
      * destruct (unescape e); [ | reflexivity ].
        rewrite IH, cons_item_shift; [reflexivity | lia | ].
        intros E. rewrite E in Hs. apply Hs. reflexivity.
    + destruct (c <? 32); [reflexivity | ].
      rewrite IH, cons_item_shift; [reflexivity | lia | ].
      intros E. rewrite E in Hs. apply Hs. reflexivity.
Qed.

Lemma scanstring_app (s t k r : text) :
  scanstring s = Some (k, r) -> scanstring (s ++ t) = Some (k, r ++ t).
Proof.
  unfold scanstring. intros H.
  rewrite (@scan_items_app t (List.length s) s (le_n _)).
  - destruct (scan_items s) as [[items rest]|]; [ | discriminate ].
    inversion H. reflexivity.
  - intros E. rewrite E in H. discriminate.
Qed.

Section Appending.
(** The text appended: it starts with a white space character. *)
Variable w : N.
Variable t : text.
Hypothesis w_ws : is_ws w = true.

Lemma w_not_digit : is_digit w = false.
Proof. destruct (is_ws_cases w w_ws) as [-> | [-> | [-> | ->]]]; reflexivity. Qed.

Lemma digits_app (s : text) :
  digits (s ++ w :: t) = (fst (digits s), snd (digits s) ++ w :: t).
Proof.
  induction s as [|c s IH]; simpl.
  - rewrite w_not_digit. reflexivity.
  - destruct (is_digit c); [ | reflexivity ].
    rewrite IH. destruct (digits s). reflexivity.
Qed.

Lemma match_integer_app (s : text) :
  match_integer (s ++ w :: t) =
  match match_integer s with
  | Some (neg, d, r) => Some (neg, d, r ++ w :: t)
  | None => None
  end.
Proof.
  pose proof w_not_digit as Hd.
  assert (H45 : (w =? 45) = false)
    by (destruct (is_ws_cases w w_ws) as [-> | [-> | [-> | ->]]]; reflexivity).
  assert (H48 : (w =? 48) = false)
    by (destruct (is_ws_cases w w_ws) as [-> | [-> | [-> | ->]]]; reflexivity).
  unfold match_integer.
  destruct s as [|c s]; simpl.
  - rewrite H45, H48, Hd. reflexivity.
  - destruct (c =? 45).
    + destruct s as [|c' s]; simpl.
      * rewrite H48, Hd. reflexivity.
      * destruct (c' =? 48); [reflexivity | ].
        destruct (is_digit c'); [ | reflexivity ].
        rewrite digits_app. destruct (digits s). reflexivity.
    + simpl. destruct (c =? 48); [reflexivity | ].
      destruct (is_digit c); [ | reflexivity ].
      rewrite digits_app. destruct (digits s). reflexivity.
Qed.

Lemma match_frac_app (s : text) :
  match_frac (s ++ w :: t) = (fst (match_frac s), snd (match_frac s) ++ w :: t).
Proof.
  assert (H46 : (w =? 46) = false)
    by (destruct (is_ws_cases w w_ws) as [-> | [-> | [-> | ->]]]; reflexivity).
  unfold match_frac. destruct s as [|c s]; simpl.
  - rewrite H46. reflexivity.
  - destruct (c =? 46); [ | reflexivity ].
    rewrite digits_app. destruct (digits s) as [[|x d] r']; reflexivity.
Qed.

Lemma match_exp_app (s : text) :
  match_exp (s ++ w :: t) = (fst (match_exp s), snd (match_exp s) ++ w :: t).
Proof.
  assert (He : ((w =? 101) || (w =? 69)) = false)
    by (destruct (is_ws_cases w w_ws) as [-> | [-> | [-> | ->]]]; reflexivity).
  assert (Hs : ((w =? 43) || (w =? 45)) = false)
    by (destruct (is_ws_cases w w_ws) as [-> | [-> | [-> | ->]]]; reflexivity).
  pose proof w_not_digit as Hd.
  unfold match_exp. destruct s as [|c s]; simpl.
  - rewrite He. reflexivity.
  - destruct ((c =? 101) || (c =? 69)); [ | reflexivity ].
    destruct s as [|x s]; simpl.
    + rewrite Hs. simpl. rewrite Hd. reflexivity.
    + destruct ((x =? 43) || (x =? 45)).
      * rewrite digits_app. destruct (digits s) as [[|y d] r']; reflexivity.
      * change (x :: s ++ w :: t) with ((x :: s) ++ w :: t).
        rewrite digits_app. destruct (digits (x :: s)) as [[|y d] r']; reflexivity.
Qed.

Lemma match_number_app (s : text) :
  match_number (s ++ w :: t) = shift (w :: t) (match_number s).
Proof.
  unfold match_number. rewrite match_integer_app.
  destruct (match_integer s) as [[[neg d] r]|]; [ | reflexivity ].
  rewrite match_frac_app. destruct (match_frac r) as [frac r1]. simpl fst. simpl snd.
  rewrite match_exp_app. destruct (match_exp r1) as [exp r2]. simpl fst. simpl snd.
  destruct frac, exp; reflexivity.
Qed.

Lemma startswith_length (pat s : text) :
  startswith pat s = true -> (List.length pat <= List.length s)%nat.
Proof.
  revert s. induction pat as [|x pat IH]; intros s; simpl; [lia | ].
  destruct s as [|y s]; [discriminate | ].
  intros H. apply andb_true_iff in H. destruct H as [_ H].
  apply IH in H. simpl. lia.
Qed.

Lemma skipn_app_le {A} (n : nat) (l l' : list A) :
  (n <= List.length l)%nat -> skipn n (l ++ l') = skipn n l ++ l'.
Proof.
  revert l. induction n as [|n IH]; intros l H; [reflexivity | ].
  destruct l as [|a l]; simpl in *; [lia | ].
  apply IH. lia.
Qed.

Lemma literal_app (name : string) (v : json) (s : text) :
  txt name <> [] -> ~ In w (txt name) ->
  literal name v (s ++ w :: t) = shift (w :: t) (literal name v s).
Proof.
  intros Hne Hw. unfold literal.
  rewrite startswith_before_separator by assumption.
  destruct (startswith (txt name) s) eqn:E; [ | reflexivity ].
  simpl. rewrite skipn_app_le; [reflexivity | ].
  apply startswith_length. exact E.
Qed.

Lemma first_of_shift {A} (x y : option (A * text)) (u : text) :
  first_of (shift u x) (shift u y) = shift u (first_of x y).
Proof. destruct x as [[a r]|]; reflexivity. Qed.

Lemma scan_atom_app (s : text) :
  scan_atom (s ++ w :: t) = shift (w :: t) (scan_atom s).
Proof.
  unfold scan_atom.
  repeat (rewrite literal_app;
          [ | discriminate
            | destruct (is_ws_cases w w_ws) as [-> | [-> | [-> | ->]]];
              simpl; intuition discriminate ]).
  rewrite match_number_app.
  repeat rewrite first_of_shift. reflexivity.
Qed.

End Appending.

Lemma shift_nil {A} (x : option (A * text)) : shift [] x = x.
Proof. destruct x as [[a r]|]; simpl; [rewrite app_nil_r | ]; reflexivity. Qed.

Lemma scan_atom_tail (tail s : text) :
  quiet tail -> scan_atom (s ++ tail) = shift tail (scan_atom s).
Proof.
  intros [-> | (w & t & -> & Hw)].
  - rewrite app_nil_r, shift_nil. reflexivity.
  - apply scan_atom_app. exact Hw.
Qed.

Lemma scan_once_nil n : scan_once n [] = None.
Proof. destruct n; reflexivity. Qed.

Lemma JSONArray_nil n : JSONArray n [] = None.
Proof. destruct n as [|n]; [reflexivity | ]. simpl. rewrite scan_once_nil. reflexivity. Qed.

Lemma skip_ws_app_some (s tail : text) :
  skip_ws s <> [] -> skip_ws (s ++ tail) = skip_ws s ++ tail.
Proof.
  intros H. destruct (skip_ws s) as [|c r] eqn:E; [congruence | ].
  apply skip_ws_app. exact E.
Qed.

Lemma scan_once_step n s :
  scan_once (S n) s =
  match s with
  | [] => None
  | c :: r =>
      if c =? 34 then
        match scanstring r with
        | Some (k, r') => Some (JStr k, r')
        | None => None
        end
      else if c =? 123 then
        match skip_ws r with
        | c1 :: r1 =>
            if c1 =? 125 then Some (JDict [], r1)
            else if c1 =? 34 then
              match JSONObject n r1 with
              | Some (pairs, r') => Some (JDict (dict_of_pairs pairs), r')
              | None => None
              end
            else None
        | [] => None
        end
      else if c =? 91 then
        match skip_ws r with
        | c1 :: r1 =>
            if c1 =? 93 then Some (JList [], r1)
            else
              match JSONArray n (c1 :: r1) with
              | Some (l, r') => Some (JList l, r')
              | None => None
              end
        | [] => None
        end
      else scan_atom s
  end.
Proof. reflexivity. Qed.

Lemma JSONObject_step n s :
  JSONObject (S n) s =
  match scanstring s with
  | None => None
  | Some (key, r) =>
      match skip_ws r with
      | c :: r1 =>
          if c =? 58 then
            match scan_once n (skip_ws r1) with
            | None => None
            | Some (value, r2) =>
                match skip_ws r2 with
                | c2 :: r3 =>
                    if c2 =? 125 then Some ([(key, value)], r3)
                    else if c2 =? 44 then
                      match skip_ws r3 with
                      | c3 :: r4 =>
                          if c3 =? 34 then
                            match JSONObject n r4 with
                            | Some (pairs, r') => Some ((key, value) :: pairs, r')
                            | None => None
                            end
                          else None
                      | [] => None
                      end
                    else None
                | [] => None
                end
            end
          else None
      | [] => None
      end
  end.
Proof. reflexivity. Qed.

Lemma JSONArray_step n s :
  JSONArray (S n) s =
  match scan_once n s with
  | None => None
  | Some (value, r) =>
      match skip_ws r with
      | c :: r1 =>
          if c =? 93 then Some ([value], r1)
          else if c =? 44 then
            match JSONArray n (skip_ws r1) with
            | Some (l, r') => Some (value :: l, r')
            | None => None
            end
          else None
      | [] => None
      end
  end.
Proof. reflexivity. Qed.

(** A value that was read is read again, with the same result, with more
    fuel and with a quiet tail behind the text. *)
Lemma scan_grow (tail : text) (Hq : quiet tail) : forall n m, (n <= m)%nat ->
  (forall s v r, scan_once n s = Some (v, r) ->
                 scan_once m (s ++ tail) = Some (v, r ++ tail)) /\
  (forall s l r, JSONObject n s = Some (l, r) ->
                 JSONObject m (s ++ tail) = Some (l, r ++ tail)) /\
  (forall s l r, JSONArray n s = Some (l, r) ->
                 JSONArray m (s ++ tail) = Some (l, r ++ tail)).
Proof.
  induction n as [|n IH]; intros m Hle.
  - repeat split; intros; discriminate.
  - destruct m as [|m]; [lia | ].
    destruct (IH m ltac:(lia)) as (IHv & IHo & IHa).
    split; [ | split ].
    + intros s v r. rewrite !scan_once_step.
      destruct s as [|c r0]; [discriminate | ].
      change ((c :: r0) ++ tail) with (c :: (r0 ++ tail)). cbv beta iota.
      destruct (c =? 34).
      { destruct (scanstring r0) as [[k r']|] eqn:E; [ | discriminate ].
        rewrite (scanstring_app _ tail E). intros H. inversion H. subst. reflexivity. }
      destruct (c =? 123).
      { destruct (skip_ws r0) as [|c1 r1] eqn:E; [discriminate | ].
        rewrite (skip_ws_app _ tail E).
        destruct (c1 =? 125); [intros H; inversion H; subst; reflexivity | ].
        destruct (c1 =? 34); [ | discriminate ].
        destruct (JSONObject n r1) as [[pairs r']|] eqn:Eo; [ | discriminate ].
        rewrite (IHo _ _ _ Eo). intros H. inversion H. subst. reflexivity. }
      destruct (c =? 91).
      { destruct (skip_ws r0) as [|c1 r1] eqn:E; [discriminate | ].
        rewrite (skip_ws_app _ tail E).
        destruct (c1 =? 93); [intros H; inversion H; subst; reflexivity | ].
        destruct (JSONArray n (c1 :: r1)) as [[l r']|] eqn:Ea; [ | discriminate ].
        change (c1 :: r1 ++ tail) with ((c1 :: r1) ++ tail).
        rewrite (IHa _ _ _ Ea). intros H. inversion H. subst. reflexivity. }
      change (c :: (r0 ++ tail)) with ((c :: r0) ++ tail).
      rewrite (@scan_atom_tail tail (c :: r0) Hq). intros ->. reflexivity.
    + intros s l r. rewrite !JSONObject_step.
      destruct (scanstring s) as [[key r0]|] eqn:E; [ | discriminate ].
      rewrite (scanstring_app _ tail E).
      destruct (skip_ws r0) as [|c r1] eqn:E1; [discriminate | ].
      rewrite (skip_ws_app _ tail E1).
      destruct (c =? 58); [ | discriminate ].
      destruct (scan_once n (skip_ws r1)) as [[value r2]|] eqn:Ev; [ | discriminate ].
      assert (Hne : skip_ws r1 <> [])
        by (intros E0; rewrite E0, scan_once_nil in Ev; discriminate).
      rewrite (@skip_ws_app_some r1 tail Hne), (IHv _ _ _ Ev).
      destruct (skip_ws r2) as [|c2 r3] eqn:E2; [discriminate | ].
      rewrite (skip_ws_app _ tail E2).
      destruct (c2 =? 125); [intros H; inversion H; subst; reflexivity | ].
      destruct (c2 =? 44); [ | discriminate ].
      destruct (skip_ws r3) as [|c3 r4] eqn:E3; [discriminate | ].
      rewrite (skip_ws_app _ tail E3).
      destruct (c3 =? 34); [ | discriminate ].
      destruct (JSONObject n r4) as [[pairs r']|] eqn:Eo; [ | discriminate ].
      rewrite (IHo _ _ _ Eo). intros H. inversion H. subst. reflexivity.
    + intros s l r. rewrite !JSONArray_step.
      destruct (scan_once n s) as [[value r0]|] eqn:Ev; [ | discriminate ].
      rewrite (IHv _ _ _ Ev).
      destruct (skip_ws r0) as [|c r1] eqn:E1; [discriminate | ].
      rewrite (skip_ws_app _ tail E1).
      destruct (c =? 93); [intros H; inversion H; subst; reflexivity | ].
      destruct (c =? 44); [ | discriminate ].
      destruct (JSONArray n (skip_ws r1)) as [[l' r']|] eqn:Ea; [ | discriminate ].
      assert (Hne : skip_ws r1 <> [])
        by (intros E0; rewrite E0, JSONArray_nil in Ea; discriminate).
      rewrite (@skip_ws_app_some r1 tail Hne), (IHa _ _ _ Ea).
      intros H. inversion H. subst. reflexivity.
Qed.

Lemma skip_ws_only_spaces (ws : text) :
  Forall (fun c => is_ws c = true) ws -> skip_ws ws = [].
Proof. induction 1 as [|x ws Hx _ IH]; simpl; [reflexivity | rewrite Hx; exact IH]. Qed.

Lemma spaces_quiet (ws : text) :
  Forall (fun c => is_ws c = true) ws -> quiet ws.
Proof. intros [|x l Hx _]; [left; reflexivity | right; eauto]. Qed.

(** [json.loads] gives the same value with white space before and after
    the text. *)
Lemma loads_between_spaces (before body after : text) (v : json) :
  Forall (fun c => is_ws c = true) before ->
  Forall (fun c => is_ws c = true) after ->
  loads body = Ok v ->
  loads (before ++ body ++ after) = Ok v.
Proof.
  intros Hb Ha. unfold loads.
  destruct (scan_once (S (List.length body)) (skip_ws body)) as [[v' r]|] eqn:E;
    [ | discriminate ].
  destruct (skip_ws r) as [|c r'] eqn:Er; [ | discriminate ].
  intros H. inversion H. subst v'.
  assert (Hne : skip_ws body <> [])
    by (intros E0; rewrite E0 in E; discriminate).
  rewrite (@skip_ws_spaces before (body ++ after) Hb), (@skip_ws_app_some body after Hne).
  destruct (scan_grow (spaces_quiet Ha) (n := S (List.length body))
              (m := S (List.length (before ++ body ++ after)))) as (Hv & _).
  { rewrite !length_app. lia. }
  rewrite (Hv _ _ _ E), (@skip_ws_all r after Er), (@skip_ws_only_spaces after Ha).
  reflexivity.
Qed.

End DecoderFacts.
End DecoderFacts.

Module FuelFacts.
Import Decoder DecoderFacts.
Section FuelFacts.
Context {R : Runtime}.

(** ** The fuel of the decoder is enough *)

Lemma skip_ws_length (s : text) : (List.length (skip_ws s) <= List.length s)%nat.
Proof.
  induction s as [|c s IH]; simpl; [lia | ].
  destruct (is_ws c); simpl; lia.
Qed.

Lemma skip_ws_cons_length (s : text) (c : N) (r : text) :
  skip_ws s = c :: r -> (List.length r < List.length s)%nat.
Proof.
  intros H. pose proof (skip_ws_length s) as L. rewrite H in L. simpl in L. lia.
Qed.

Lemma scan_items_length : forall n s k r,
  (List.length s <= n)%nat ->
  scan_items s = Some (k, r) -> (List.length r < List.length s)%nat.
Proof.
  induction n as [|n IH]; intros s k r Hn.
  - destruct s; [discriminate | simpl in Hn; lia].
  - destruct s as [|c s1]; [discriminate | ].
    simpl in Hn. simpl.
    destruct (c =? 34); [intros H; inversion H; subst; lia | ].
    destruct (c =? 92).
    + destruct s1 as [|e r1]; [discriminate | ].
      simpl in Hn. destruct (e =? 117).
      * destruct r1 as [|h1 [|h2 [|h3 [|h4 r2]]]]; try discriminate.
        simpl in Hn. destruct (hex4 h1 h2 h3 h4); [ | discriminate ].
        destruct (scan_items r2) as [[k' r']|] eqn:E; [ | discriminate ].
        eapply IH in E; [ | lia ].
        simpl. intros H. inversion H. subst. simpl. lia.
      * destruct (unescape e); [ | discriminate ].
        destruct (scan_items r1) as [[k' r']|] eqn:E; [ | discriminate ].
        eapply IH in E; [ | lia ].
        simpl. intros H. inversion H. subst. simpl. lia.
    + destruct (c <? 32); [discriminate | ].
      destruct (scan_items s1) as [[k' r']|] eqn:E; [ | discriminate ].
      eapply IH in E; [ | lia ].
      simpl. intros H. inversion H. subst. lia.
Qed.

Lemma scanstring_length (s k r : text) :
  scanstring s = Some (k, r) -> (List.length r < List.length s)%nat.
Proof.
  unfold scanstring.
  destruct (scan_items s) as [[items rest]|] eqn:E; [ | discriminate ].
  intros H. inversion H. subst.
  eapply scan_items_length; [ | exact E ]. apply le_n.
Qed.

Lemma digits_length (s : text) :
  (List.length (snd (digits s)) <= List.length s)%nat.
Proof.
  induction s as [|c s IH]; simpl; [lia | ].
  destruct (is_digit c); [ | simpl; lia ].
  destruct (digits s); simpl in *. lia.
Qed.

Lemma match_integer_length (s : text) neg d r :
  match_integer s = Some (neg, d, r) -> (List.length r < List.length s)%nat.
Proof.
  unfold match_integer.
  destruct s as [|c s]; [discriminate | ].
  destruct (c =? 45).
  - destruct s as [|c' s]; [discriminate | ].
    destruct (c' =? 48); [intros H; inversion H; subst; simpl; lia | ].
    destruct (is_digit c'); [ | discriminate ].
    pose proof (digits_length s) as L. destruct (digits s).
    intros H. inversion H. subst. simpl in *. lia.
  - destruct (c =? 48); [intros H; inversion H; subst; simpl; lia | ].
    destruct (is_digit c); [ | discriminate ].
    pose proof (digits_length s) as L. destruct (digits s).
    intros H. inversion H. subst. simpl in *. lia.
Qed.

Lemma match_frac_length (s : text) :
  (List.length (snd (match_frac s)) <= List.length s)%nat.
Proof.
  unfold match_frac. destruct s as [|c s]; simpl; [lia | ].
  destruct (c =? 46); [ | simpl; lia ].
  pose proof (digits_length s) as L.
  destruct (digits s) as [[|x d] r']; simpl in *; lia.
Qed.

Lemma match_exp_length (s : text) :
  (List.length (snd (match_exp s)) <= List.length s)%nat.
Proof.
  unfold match_exp. destruct s as [|c s]; simpl; [lia | ].
  destruct ((c =? 101) || (c =? 69)); [ | simpl; lia ].
  destruct s as [|x s]; simpl; [lia | ].
  destruct ((x =? 43) || (x =? 45)).
  - pose proof (digits_length s) as L.
    destruct (digits s) as [[|y d] r']; simpl in *; lia.
  - pose proof (digits_length (x :: s)) as L.
    destruct (digits (x :: s)) as [[|y d] r']; simpl in *; lia.
Qed.

Lemma match_number_length (s : text) v r :
  match_number s = Some (v, r) -> (List.length r < List.length s)%nat.
Proof.
  unfold match_number.
  destruct (match_integer s) as [[[neg d] r0]|] eqn:E; [ | discriminate ].
  apply match_integer_length in E.
  pose proof (match_frac_length r0) as Lf. destruct (match_frac r0) as [frac r1].
  pose proof (match_exp_length r1) as Le. destruct (match_exp r1) as [exp r2].
  simpl in *.
  destruct frac, exp; intros H; inversion H; subst; lia.
Qed.

Lemma literal_length (name : string) (v x : json) (s r : text) :
  txt name <> [] ->
  literal name v s = Some (x, r) -> (List.length r < List.length s)%nat.
Proof.
  intros Hne. unfold literal.
  destruct (startswith (txt name) s) eqn:E; [ | discriminate ].
  apply startswith_length in E.
  intros H. inversion H. subst. rewrite length_skipn.
  destruct (txt name); [congruence | simpl in *; lia].
Qed.

Lemma first_of_some {A} (a b : option A) (x : A) :
  first_of a b = Some x -> a = Some x \/ b = Some x.
Proof. destruct a; simpl; auto. Qed.

Lemma scan_atom_length (s : text) v r :
  scan_atom s = Some (v, r) -> (List.length r < List.length s)%nat.
Proof.
  unfold scan_atom. intros H.
  repeat (apply first_of_some in H; destruct H as [H | H]);
    first [ apply match_number_length in H; exact H
          | apply literal_length in H; [exact H | discriminate] ].
Qed.

(** A value that was read, with whatever fuel, took at least one character,
    and is read with any fuel that is at least the number of characters it
    took. *)
Lemma scan_fuel : forall m,
  (forall s v r, scan_once m s = Some (v, r) ->
     (List.length r < List.length s)%nat /\
     forall n, (List.length s - List.length r <= n)%nat ->
               scan_once n s = Some (v, r)) /\
  (forall s l r, JSONObject m s = Some (l, r) ->
     (List.length r < List.length s)%nat /\
     forall n, (List.length s - List.length r <= n)%nat ->
               JSONObject n s = Some (l, r)) /\
  (forall s l r, JSONArray m s = Some (l, r) ->
     (List.length r < List.length s)%nat /\
     forall n, (List.length s - List.length r <= n)%nat ->
               JSONArray n s = Some (l, r)).
Proof.
  induction m as [|m (IHv & IHo & IHa)].
  - repeat split; intros; discriminate.
  - split; [ | split ].
    + intros s v r. rewrite scan_once_step.
      destruct s as [|c r0]; [discriminate | ].
      destruct (c =? 34) eqn:C1.
      { destruct (scanstring r0) as [[k r']|] eqn:E; [ | discriminate ].
        intros H. inversion H. subst.
        assert (L := E). apply scanstring_length in L.
        split; [cbn [List.length] in *; lia | ].
        intros [|n] Hn; [cbn [List.length] in *; lia | ].
        rewrite scan_once_step, C1, E. reflexivity. }
      destruct (c =? 123) eqn:C2.
      { destruct (skip_ws r0) as [|c1 r1] eqn:E; [discriminate | ].
        assert (L := E). apply skip_ws_cons_length in L.
        destruct (c1 =? 125) eqn:C3.
        - intros H. inversion H. subst. split; [cbn [List.length] in *; lia | ].
          intros [|n] Hn; [cbn [List.length] in *; lia | ].
          rewrite scan_once_step, C1, C2, E, C3. reflexivity.
        - destruct (c1 =? 34) eqn:C4; [ | discriminate ].
          destruct (JSONObject m r1) as [[pairs r']|] eqn:Eo; [ | discriminate ].
          intros H. inversion H. subst.
          destruct (IHo _ _ _ Eo) as [L' F].
          split; [cbn [List.length] in *; lia | ].
          intros [|n] Hn; [cbn [List.length] in *; lia | ].
          rewrite scan_once_step, C1, C2, E, C3, C4, F; [reflexivity | cbn [List.length] in *; lia]. }
      destruct (c =? 91) eqn:C3.
      { destruct (skip_ws r0) as [|c1 r1] eqn:E; [discriminate | ].
        assert (L := E). apply skip_ws_cons_length in L.
        destruct (c1 =? 93) eqn:C4.
        - intros H. inversion H. subst. split; [cbn [List.length] in *; lia | ].
          intros [|n] Hn; [cbn [List.length] in *; lia | ].
          rewrite scan_once_step, C1, C2, C3, E, C4. reflexivity.
        - destruct (JSONArray m (c1 :: r1)) as [[l r']|] eqn:Ea; [ | discriminate ].
          intros H. inversion H. subst.
          destruct (IHa _ _ _ Ea) as [L' F].
          split; [cbn [List.length] in *; lia | ].
          intros [|n] Hn; [cbn [List.length] in *; lia | ].
          rewrite scan_once_step, C1, C2, C3, E, C4, F; [reflexivity | cbn [List.length] in *; lia]. }
      intros H. assert (L := H). apply scan_atom_length in L.
      split; [exact L | ].
      intros [|n] Hn; [cbn [List.length] in *; lia | ].
      rewrite scan_once_step, C1, C2, C3. exact H.
    + intros s l r. rewrite JSONObject_step.
      destruct (scanstring s) as [[key r0]|] eqn:E; [ | discriminate ].
      assert (L0 := E). apply scanstring_length in L0.
      destruct (skip_ws r0) as [|c r1] eqn:E1; [discriminate | ].
      assert (L1 := E1). apply skip_ws_cons_length in L1.
      destruct (c =? 58) eqn:C1; [ | discriminate ].
      destruct (scan_once m (skip_ws r1)) as [[value r2]|] eqn:Ev; [ | discriminate ].
      destruct (IHv _ _ _ Ev) as [L2 F2].
      pose proof (skip_ws_length r1) as L1'.
      destruct (skip_ws r2) as [|c2 r3] eqn:E2; [discriminate | ].
      assert (L3 := E2). apply skip_ws_cons_length in L3.
      destruct (c2 =? 125) eqn:C2.
      * intros H. inversion H. subst. split; [cbn [List.length] in *; lia | ].
        intros [|n] Hn; [cbn [List.length] in *; lia | ].
        rewrite JSONObject_step, E, E1, C1, F2, E2, C2; [reflexivity | cbn [List.length] in *; lia].
      * destruct (c2 =? 44) eqn:C3; [ | discriminate ].
        destruct (skip_ws r3) as [|c3 r4] eqn:E3; [discriminate | ].
        assert (L4 := E3). apply skip_ws_cons_length in L4.
        destruct (c3 =? 34) eqn:C4; [ | discriminate ].
        destruct (JSONObject m r4) as [[pairs r']|] eqn:Eo; [ | discriminate ].
        destruct (IHo _ _ _ Eo) as [L5 F5].
        intros H. inversion H. subst. split; [cbn [List.length] in *; lia | ].
        intros [|n] Hn; [cbn [List.length] in *; lia | ].
        rewrite JSONObject_step, E, E1, C1, F2, E2, C2, C3, E3, C4, F5;
          [reflexivity | cbn [List.length] in *; lia | cbn [List.length] in *; lia].
    + intros s l r. rewrite JSONArray_step.
      destruct (scan_once m s) as [[value r0]|] eqn:Ev; [ | discriminate ].
      destruct (IHv _ _ _ Ev) as [L0 F0].
      destruct (skip_ws r0) as [|c r1] eqn:E1; [discriminate | ].
      assert (L1 := E1). apply skip_ws_cons_length in L1.
      destruct (c =? 93) eqn:C1.
      * intros H. inversion H. subst. split; [cbn [List.length] in *; lia | ].
        intros [|n] Hn; [cbn [List.length] in *; lia | ].
        rewrite JSONArray_step, F0, E1, C1; [reflexivity | cbn [List.length] in *; lia].
      * destruct (c =? 44) eqn:C2; [ | discriminate ].
        destruct (JSONArray m (skip_ws r1)) as [[l' r']|] eqn:Ea; [ | discriminate ].
        destruct (IHa _ _ _ Ea) as [L2 F2].
        pose proof (skip_ws_length r1) as L1'.
        intros H. inversion H. subst. split; [cbn [List.length] in *; lia | ].
        intros [|n] Hn; [cbn [List.length] in *; lia | ].
        rewrite JSONArray_step, F0, E1, C1, C2, F2; [reflexivity | cbn [List.length] in *; lia | cbn [List.length] in *; lia].
Qed.

(** The fuel [loads] takes is enough: no amount of fuel reads a value that
    it does not read. *)
Lemma loads_fuel (m : nat) (s : text) (v : json) (r : text) :
  scan_once m (skip_ws s) = Some (v, r) ->
  scan_once (S (List.length s)) (skip_ws s) = Some (v, r).
Proof.
  intros H. destruct (scan_fuel m) as (Hv & _).
  destruct (Hv _ _ _ H) as [L F]. apply F.
  pose proof (skip_ws_length s). lia.
Qed.

Lemma loads_complete (m : nat) (s : text) (v : json) (r : text) :
  scan_once m (skip_ws s) = Some (v, r) -> skip_ws r = [] -> loads s = Ok v.
Proof.
  intros H Hr. unfold loads. rewrite (loads_fuel _ _ H), Hr. reflexivity.
Qed.

End FuelFacts.
End FuelFacts.

(** ** The round trip of a fenced reply *)

(** C9, as the program has it.  For a reply that puts a text between a fence
    line, with the tag json or without a tag, and a closing fence line, with
    any white space around: if the text decodes to a value (in particular to
    an object with the three fields) and holds no run of three backticks,
    the cleaned reply decodes to that same value. *)
Theorem fenced_reply_round_trip {R : Runtime}
    (tag body ws1 ws2 : text) (v : json) :
  tag = [] \/ tag = txt "json" ->
  Forall (fun x => isspace x = true) ws1 ->
  Forall (fun x => isspace x = true) ws2 ->
  occurs fence body = false ->
  json_loads body = Ok v ->
  json_loads (clean (ws1 ++ fenced tag body ++ ws2)) = Ok v.
Proof.
  intros Ht H1 H2 Hb Hv.
  rewrite (@clean_fenced tag body ws1 ws2 Ht H1 H2 Hb).
  unfold json_loads in *.
  apply DecoderFacts.loads_between_spaces; try exact Hv;
    repeat constructor.
Qed.

(** ** The library functions at work *)

Example replace_does_not_overlap :
  replace (txt "aa") (txt "b") (txt "aaaaa") = txt "bba".
Proof. reflexivity. Qed.

Example strip_takes_unicode_spaces :
  strip ([160; 8195] ++ txt "x y" ++ [10; 12288]) = txt "x y".
Proof. reflexivity. Qed.

Example clean_removes_inner_fences :
  clean (txt "```json{}``` and ```") = txt "{} and ".
Proof. reflexivity. Qed.

Example loads_keeps_the_last_of_two_equal_keys :
  json_loads (dq "{'a': 1, 'b': 2, 'a': 3}") =
  Ok (JDict [(txt "a", JInt 3); (txt "b", JInt 2)]).
Proof. reflexivity. Qed.

Example loads_refuses_a_trailing_comma :
  json_loads (dq "[1, 2,]") = Raise JSONDecodeError.
Proof. reflexivity. Qed.

Example loads_refuses_text_after_the_value :
  json_loads (dq "{} {}") = Raise JSONDecodeError.
Proof. reflexivity. Qed.

Example loads_joins_a_surrogate_pair :
  json_loads (dq "'\ud83d\ude00 \u00e9'") = Ok (JStr [128512; 32; 233]).
Proof. reflexivity. Qed.

Example loads_reads_atoms :
  json_loads (dq " [null, true, false, -12, 'a\nb'] ") =
  Ok (JList [JNull; JBool true; JBool false; JInt (-12); JStr [97; 10; 98]]).
Proof. reflexivity. Qed.

Example repr_of_a_list_of_keys :
  py_repr (JList [jstr "CN"; JInt 22; jstr "a\b"]) = txt "['CN', 22, 'a\\b']".
Proof. reflexivity. Qed.

(** ** The properties on sample surroundings *)

Lemma query_failure_leaves_cache_witness :
  search Sample.store_down INDEX_PATTERN briefing_query =
    Raise (ExternalError (txt "ConnectionTimeout")) /\
  (fst (fetch_and_analyze_data Sample.process Sample.store_down initial_state) = Ok tt /\
   ai_analysis_cache (cycle Sample.process Sample.store_down initial_state) =
     ai_analysis_cache initial_state /\
   committed Sample.process Sample.store_down initial_state = false).
Proof.
  split; [reflexivity | ].
  apply (query_failure_leaves_cache Sample.process Sample.store_down initial_state
           (e := ExternalError (txt "ConnectionTimeout"))).
  reflexivity.
Defined.

Lemma empty_window_leaves_cache_witness :
  search Sample.quiet_window INDEX_PATTERN briefing_query = Ok Sample.empty_response /\
  total_of Sample.empty_response = Ok (JInt 0) /\
  eq_zero (JInt 0) = true /\
  (fst (fetch_and_analyze_data Sample.process Sample.quiet_window initial_state) = Ok tt /\
   ai_analysis_cache (cycle Sample.process Sample.quiet_window initial_state) =
     ai_analysis_cache initial_state /\
   committed Sample.process Sample.quiet_window initial_state = false /\
   existsb is_generated (new_events Sample.process Sample.quiet_window initial_state) = false /\
   new_events Sample.process Sample.quiet_window initial_state =
     (if es Sample.process && model Sample.process
      then empty_window_trace Sample.quiet_window
      else [Printed Skipped_unavailable])).
Proof.
  split; [reflexivity | split; [reflexivity | split; [reflexivity | ]]].
  apply (empty_window_leaves_cache Sample.process Sample.quiet_window initial_state
           (resp := Sample.empty_response) (total := JInt 0));
    reflexivity.
Defined.


Lemma commit_needs_only_a_dict_witness :
  path Sample.process Sample.partial_reply
    Sample.briefing_response Sample.briefing_aggs (JInt 7)
    Sample.briefing_text Sample.partial_body /\
  (ai_analysis_cache (cycle Sample.process Sample.partial_reply initial_state) =
     match json_loads (clean Sample.partial_body) with
     | Ok (JDict d) => stamped Sample.partial_reply d
     | _ => ai_analysis_cache initial_state
     end /\
   committed Sample.process Sample.partial_reply initial_state =
     match json_loads (clean Sample.partial_body) with
     | Ok (JDict _) => true
     | _ => false
     end).
Proof.
  assert (Hp : path Sample.process Sample.partial_reply
                 Sample.briefing_response Sample.briefing_aggs (JInt 7)
                 Sample.briefing_text Sample.partial_body)
    by (constructor; reflexivity).
  split; [exact Hp | ].
  exact (commit_needs_only_a_dict initial_state Hp).
Defined.

(** C1 fails on the program: a reply that decodes to a [dict] with only one
    of the three fields is committed. *)
Lemma partial_reply_is_committed :
  json_loads (clean Sample.partial_body) = Ok (JDict Sample.partial_dict) /\
  has_three_fields Sample.partial_dict = false /\
  committed Sample.process Sample.partial_reply initial_state = true /\
  ai_analysis_cache (cycle Sample.process Sample.partial_reply initial_state) =
    JDict (Sample.partial_dict ++
           [(txt "last_updated", jstr "2024-11-03T01:40:10.000200")]) /\
  ai_analysis_cache (cycle Sample.process Sample.partial_reply initial_state) <>
    ai_analysis_cache initial_state.
Proof.
  repeat split; try reflexivity.
  vm_compute. discriminate.
Qed.


(** C2 fails on the program, twice.  After the commit of a reply with one
    field the cache holds no briefing, and this is what a read answers.
    And after the commit of a reply that has the three fields but is nested
    985 deep, which the decoder takes, the read itself fails: the encoder
    runs out of recursion, the exception leaves the view, and the client
    gets no briefing at all. *)
Lemma cache_can_lose_the_fields :
  is_briefing (ai_analysis_cache (run Sample.process [Sample.partial_reply] initial_state)) = false /\
  read (run Sample.process [Sample.partial_reply] initial_state) =
    Ok (JDict (Sample.partial_dict ++
               [(txt "last_updated", jstr "2024-11-03T01:40:10.000200")]), 200%Z) /\
  committed Sample.process Sample.deep_reply initial_state = true /\
  is_briefing (ai_analysis_cache (run Sample.process [Sample.deep_reply] initial_state)) = true /\
  depth (ai_analysis_cache (run Sample.process [Sample.deep_reply] initial_state)) = 985%nat /\
  read (run Sample.process [Sample.deep_reply] initial_state) = Raise RecursionError.
Proof. repeat split; vm_compute; reflexivity. Qed.

Lemma placeholder_until_first_commit_witness :
  uneventful Sample.process
    [Sample.store_down; Sample.quiet_window; Sample.refused] initial_state /\
  (read (run Sample.process [Sample.store_down; Sample.quiet_window; Sample.refused]
           initial_state) = Ok (placeholder, 200%Z) /\
   last_updated placeholder = Some JNull).
Proof.
  split; [reflexivity | ].
  apply (@placeholder_until_first_commit Reference.runtime Sample.process
           [Sample.store_down; Sample.quiet_window; Sample.refused]).
  reflexivity.
Defined.



(** C7 fails on the program: a cycle started by the timer that takes 700
    seconds is still running when the job is due for the first time, 600
    seconds after the start, and that tick runs the task all the same: for
    the next 110 seconds two cycles are active. *)
Lemma timer_cycle_and_job_cycle_overlap :
  Scheduler.ran
    (Scheduler.main {| Scheduler.of_timer_cycle := 700%nat;
                       Scheduler.of_tick_cycle := fun _ => 120%nat |} 1) 1 /\
  Scheduler.active
    (Scheduler.main {| Scheduler.of_timer_cycle := 700%nat;
                       Scheduler.of_tick_cycle := fun _ => 120%nat |} 1) 600 = 2%nat /\
  Scheduler.active
    (Scheduler.main {| Scheduler.of_timer_cycle := 700%nat;
                       Scheduler.of_tick_cycle := fun _ => 120%nat |} 1) 709 = 2%nat.
Proof.
  split; [ | split; reflexivity ].
  eexists. split; [right; left; reflexivity | reflexivity].
Qed.

(** C8 fails on the program: for a response with the 25 hourly buckets from
    [now-24h/h] to [now/h], both included, the series has 25 entries. *)
Lemma series_of_25_buckets :
  search Sample.dashboard_world INDEX_PATTERN dashboard_query = Ok Sample.dashboard_response /\
  option_map (@List.length json)
    (over_time_series
       (fst (get_dashboard_data Sample.process Sample.dashboard_world initial_state))) =
    Some 25%nat.
Proof. split; reflexivity. Qed.

Lemma series_follows_store_witness :
  es Sample.process = true /\
  search Sample.dashboard_world INDEX_PATTERN dashboard_query = Ok Sample.dashboard_response /\
  py_get Sample.dashboard_response (txt "aggregations") (JDict []) =
    Ok (Sample.value_of (py_get Sample.dashboard_response (txt "aggregations") (JDict []))) /\
  py_get (Sample.value_of (py_get Sample.dashboard_response (txt "aggregations") (JDict [])))
    (txt "attacks_over_time") JNull =
    Ok (JDict [(txt "buckets", JList Sample.hour_buckets)]) /\
  dict_get (txt "buckets") [(txt "buckets", JList Sample.hour_buckets)] =
    Some (JList Sample.hour_buckets) /\
  exists body series,
    fst (get_dashboard_data Sample.process Sample.dashboard_world initial_state) =
      Ok (body, 200%Z) /\
    over_time_series (Ok (body, 200%Z)) = Some series /\
    List.length series = List.length Sample.hour_buckets /\
    Forall2 (fun b o => format_bucket b = Ok o) Sample.hour_buckets series.
Proof.
  repeat (split; [reflexivity | ]).
  destruct (fst (get_dashboard_data Sample.process Sample.dashboard_world initial_state))
    as [[body status]|e] eqn:E; [ | vm_compute in E; discriminate E ].
  assert (Hst : status = 200%Z) by (vm_compute in E; congruence).
  subst status. exists body.
  destruct (series_follows_store Sample.process Sample.dashboard_world initial_state
              (resp := Sample.dashboard_response)
              (aggs := Sample.value_of (py_get Sample.dashboard_response (txt "aggregations") (JDict [])))
              (d := [(txt "buckets", JList Sample.hour_buckets)])
              (bs := Sample.hour_buckets) (body := body)
              eq_refl eq_refl eq_refl eq_refl eq_refl E)
    as [series H].
  exists series. split; [reflexivity | exact H].
Defined.

Lemma fenced_reply_round_trip_witness :
  (txt "json" = [] \/ txt "json" = txt "json") /\
  Forall (fun x => isspace x = true) [32] /\
  Forall (fun x => isspace x = true) [10] /\
  occurs fence Sample.good_body = false /\
  json_loads Sample.good_body = Ok (JDict Sample.good_dict) /\
  json_loads (clean ([32] ++ fenced (txt "json") Sample.good_body ++ [10])) =
    Ok (JDict Sample.good_dict).
Proof.
  assert (Ht : txt "json" = [] \/ txt "json" = txt "json") by (right; reflexivity).
  assert (H1 : Forall (fun x => isspace x = true) [32]) by (repeat constructor).
  assert (H2 : Forall (fun x => isspace x = true) [10]) by (repeat constructor).
  assert (Hb : occurs fence Sample.good_body = false) by reflexivity.
  assert (Hv : json_loads Sample.good_body = Ok (JDict Sample.good_dict)) by reflexivity.
  repeat (split; [assumption | ]).
  exact (@fenced_reply_round_trip Reference.runtime (txt "json") Sample.good_body [32] [10]
           (JDict Sample.good_dict) Ht H1 H2 Hb Hv).
Defined.

(** C9 fails on the program: the backticks inside a field are removed with
    the fences, so the object decoded from the cleaned reply is another one. *)
Lemma backticks_in_a_field_are_lost :
  json_loads Sample.backtick_body = Ok (JDict Sample.backtick_dict) /\
  has_three_fields Sample.backtick_dict = true /\
  json_loads (clean (fenced (txt "json") Sample.backtick_body)) =
    Ok (JDict Sample.backtick_dict_cleaned) /\
  JDict Sample.backtick_dict_cleaned <> JDict Sample.backtick_dict.
Proof.
  repeat split; try reflexivity.
  vm_compute. discriminate.
Qed.

(** * More properties of the program *)

(** ** The refresh task, path by path *)

Section MoreOnCycles.
Context {R : Runtime}.
Variable p : Process.

Lemma skipped_cycle (w : World) (s : State) :
  es p && model p = false ->
  fetch_and_analyze_data p w s =
  (Ok tt, {| ai_analysis_cache := ai_analysis_cache s;
             trace := trace s ++ [Printed Skipped_unavailable] |}).
Proof.
  intros H. task_unfold.
  destruct (es p); simpl in *; [rewrite H; reflexivity | reflexivity].
Qed.

Lemma skipped_run (ws : list World) : forall s,
  es p && model p = false ->
  run p ws s =
  {| ai_analysis_cache := ai_analysis_cache s;
     trace := trace s ++ map (fun _ => Printed Skipped_unavailable) ws |}.
Proof.
  induction ws as [|w ws IH]; intros s H; simpl.
  - rewrite app_nil_r. destruct s; reflexivity.
  - unfold cycle. rewrite (skipped_cycle w s H). simpl.
    rewrite (IH _ H). simpl. rewrite <- app_assoc. reflexivity.
Qed.

(** X1.  With [es] or [model] missing, the task does nothing but print that
    it was skipped: in every run, however long, no request is sent to the
    store or to the summarization service, and a read answers the
    placeholder. *)
Theorem without_clients_nothing_happens (ws : list World) :
  es p && model p = false ->
  trace (run p ws initial_state) = map (fun _ => Printed Skipped_unavailable) ws /\
  existsb is_searched (trace (run p ws initial_state)) = false /\
  existsb is_generated (trace (run p ws initial_state)) = false /\
  read (run p ws initial_state) = Ok (placeholder, 200%Z).
Proof.
  intros H.
  assert (Hr : read (run p ws initial_state) = Ok (placeholder, 200%Z)).
  { apply read_placeholder. rewrite (skipped_run ws initial_state H). reflexivity. }
  rewrite (skipped_run ws initial_state H) in *. simpl.
  repeat split; try exact Hr; induction ws as [|w ws IH]; simpl; auto.
Qed.

(** X2.  Whatever the store and the summarization service answer or raise,
    and whatever the cache holds, the task returns normally, and what it
    printed before stays printed. *)
Theorem task_never_raises (w : World) (s : State) :
  fst (fetch_and_analyze_data p w s) = Ok tt /\
  exists evs, trace (cycle p w s) = trace s ++ evs.
Proof.
  destruct (cycle_cases p w s)
    as [H [[evs [E _]] | (resp & aggs & total & briefing & reply & d & _ & _ & E)]];
    (split; [exact H | rewrite E; simpl; eauto]).
Qed.

(** X3.  If the summarization service raises, on the call or on reading the
    text of its reply, the cycle ends in the handler: the error is printed,
    the cache is left as it was, nothing is decoded. *)
Theorem service_failure_leaves_cache
    (w : World) (s : State) (resp aggs total : json) (briefing : text) (e : exn) :
  es p = true -> model p = true ->
  search w INDEX_PATTERN briefing_query = Ok resp ->
  py_get resp (txt "aggregations") (JDict []) = Ok aggs ->
  total_of resp = Ok total ->
  eq_zero total = false ->
  compose_briefing total aggs = Ok briefing ->
  generate_content w (make_prompt briefing) = Raise e ->
  fst (fetch_and_analyze_data p w s) = Ok tt /\
  ai_analysis_cache (cycle p w s) = ai_analysis_cache s /\
  new_events p w s = failed_trace w briefing e.
Proof.
  intros Hes Hm Hs Ha Ht Hz Hb Hg.
  unfold new_events. task_unfold. rewrite Hes, Hm. simpl.
  rewrite Hs. simpl. rewrite Ha. simpl. rewrite Ht. simpl. rewrite Hz. simpl.
  rewrite Hb. simpl. rewrite Hg. simpl.
  trace_norm. rewrite skipn_length_app. repeat split; reflexivity.
Qed.

(** X4.  If the response of the store lacks [hits], [total] or [value] (or
    is no [dict] at all), the cycle ends in the handler right after the
    query: the [KeyError], [TypeError] or [AttributeError] is printed, no
    prompt is sent, the cache is left as it was. *)
Theorem malformed_response_leaves_cache
    (w : World) (s : State) (resp : json) (e : exn) :
  es p = true -> model p = true ->
  search w INDEX_PATTERN briefing_query = Ok resp ->
  total_of resp = Raise e ->
  fst (fetch_and_analyze_data p w s) = Ok tt /\
  ai_analysis_cache (cycle p w s) = ai_analysis_cache s /\
  new_events p w s =
    [ Printed (Running_at (clock_start w));
      Searched INDEX_PATTERN briefing_query;
      Printed (Task_error
                 match py_get resp (txt "aggregations") (JDict []) with
                 | Ok _ => e
                 | Raise a => a
                 end) ].
Proof.
  intros Hes Hm Hs Ht.
  unfold new_events. task_unfold. rewrite Hes, Hm. simpl.
  rewrite Hs. simpl.
  destruct (py_get resp (txt "aggregations") (JDict [])) as [aggs|a]; simpl.
  - rewrite Ht. simpl. trace_norm. rewrite skipn_length_app. repeat split; reflexivity.
  - trace_norm. rewrite skipn_length_app. repeat split; reflexivity.
Qed.

Ltac one_cycle :=
  trace_norm; rewrite ?skipn_length_app; simpl; repeat split; auto;
  try (left; reflexivity);
  try (right; do 2 eexists; split; [ | reflexivity ]; reflexivity).

(** X5.  In one cycle the task sends at most one query to the store and at
    most one prompt to the summarization service, and a prompt only after
    the query: either no prompt was sent, or the cycle was the start line,
    the query, the sending line, the prompt and one last line. *)
Theorem one_query_one_prompt (w : World) (s : State) :
  (List.length (filter is_searched (new_events p w s)) <= 1)%nat /\
  (List.length (filter is_generated (new_events p w s)) <= 1)%nat /\
  (existsb is_generated (new_events p w s) = false \/
   exists briefing last,
     is_generated last = false /\
     new_events p w s =
       [ Printed (Running_at (clock_start w));
         Searched INDEX_PATTERN briefing_query;
         Printed Sending_to_gemini;
         Generated (make_prompt briefing);
         last ]).
Proof.
  unfold new_events. task_unfold.
  destruct (es p); simpl; [destruct (model p); simpl | ];
    try solve [one_cycle].
  destruct (search w INDEX_PATTERN briefing_query) as [resp|e]; simpl;
    [ | one_cycle ].
  destruct (py_get resp (txt "aggregations") (JDict [])) as [aggs|e]; simpl;
    [ | one_cycle ].
  destruct (total_of resp) as [total|e]; simpl; [ | one_cycle ].
  destruct (eq_zero total); simpl; [ one_cycle | ].
  destruct (compose_briefing total aggs) as [briefing|e]; simpl; [ | one_cycle ].
  destruct (generate_content w (make_prompt briefing)) as [reply|e]; simpl;
    [ | one_cycle ].
  destruct (json_loads (clean reply)) as [v|e]; simpl; [ | one_cycle ].
  destruct v; simpl; one_cycle.
Qed.

(** X6.  The task never reads the cache: what a cycle does, and what it
    stores when it commits, is the same whatever the cache held before, so a
    commit replaces the cache as a whole and nothing of the old value
    survives it. *)
Theorem cycle_ignores_cache (w : World) (s1 s2 : State) :
  new_events p w s1 = new_events p w s2 /\
  (if committed p w s1
   then ai_analysis_cache (cycle p w s1) = ai_analysis_cache (cycle p w s2)
   else ai_analysis_cache (cycle p w s1) = ai_analysis_cache s1 /\
        ai_analysis_cache (cycle p w s2) = ai_analysis_cache s2).
Proof.
  unfold committed, new_events. task_unfold.
  destruct (es p); simpl; [destruct (model p); simpl | ];
    try (rewrite !skipn_length_app; simpl; repeat split; auto).
  destruct (search w INDEX_PATTERN briefing_query) as [resp|e]; simpl;
    [ | trace_norm; rewrite !skipn_length_app; simpl; repeat split; auto ].
  destruct (py_get resp (txt "aggregations") (JDict [])) as [aggs|e]; simpl;
    [ | trace_norm; rewrite !skipn_length_app; simpl; repeat split; auto ].
  destruct (total_of resp) as [total|e]; simpl;
    [ | trace_norm; rewrite !skipn_length_app; simpl; repeat split; auto ].
  destruct (eq_zero total); simpl;
    [ trace_norm; rewrite !skipn_length_app; simpl; repeat split; auto | ].
  destruct (compose_briefing total aggs) as [briefing|e]; simpl;
    [ | trace_norm; rewrite !skipn_length_app; simpl; repeat split; auto ].
  destruct (generate_content w (make_prompt briefing)) as [reply|e]; simpl;
    [ | trace_norm; rewrite !skipn_length_app; simpl; repeat split; auto ].
  destruct (json_loads (clean reply)) as [v|e]; simpl;
    [ | trace_norm; rewrite !skipn_length_app; simpl; repeat split; auto ].
  destruct v; simpl; trace_norm; rewrite !skipn_length_app; simpl;
    repeat split; auto.
Qed.

Lemma text_eqb_eq (a b : text) : text_eqb a b = true -> a = b.
Proof.
  revert b. induction a as [|x a IH]; intros [|y b]; simpl; try discriminate; auto.
  intros H. apply andb_true_iff in H. destruct H as [H1 H2].
  apply N.eqb_eq in H1. apply IH in H2. congruence.
Qed.

Lemma dict_get_set_other k k' v d :
  text_eqb k k' = false -> dict_get k (dict_set k' v d) = dict_get k d.
Proof.
  intros H. induction d as [|[k0 v0] d IH]; simpl.
  - rewrite H. reflexivity.
  - destruct (text_eqb k' k0) eqn:E; simpl.
    + apply text_eqb_eq in E. subst k0. rewrite H. reflexivity.
    + rewrite IH. reflexivity.
Qed.

Lemma keys_dict_set k v d :
  keys (dict_set k v d) = if dict_has k d then keys d else keys d ++ [k].
Proof.
  unfold keys, dict_has. induction d as [|[k0 v0] d IH]; simpl; [reflexivity | ].
  destruct (text_eqb k k0) eqn:E; simpl; [reflexivity | ].
  rewrite IH. destruct (dict_get k d); reflexivity.
Qed.

(** X7.  A commit keeps the decoded reply as it is but for the stamp: every
    entry under another key than [last_updated] is in the cache unchanged,
    [last_updated] is the reading of the clock even when the reply had an
    entry of that name, and the keys keep their order, [last_updated] going
    last when it is new. *)
Theorem commit_keeps_the_reply
    (w : World) (s : State) (resp aggs total : json) (briefing reply : text)
    (d : list (text * json)) :
  path p w resp aggs total briefing reply ->
  json_loads (clean reply) = Ok (JDict d) ->
  exists d',
    ai_analysis_cache (cycle p w s) = JDict d' /\
    (forall k, dict_get k d' =
               if text_eqb k (txt "last_updated")
               then Some (JStr (clock_stamp w))
               else dict_get k d) /\
    keys d' = (if dict_has (txt "last_updated") d then keys d
               else keys d ++ [txt "last_updated"]).
Proof.
  intros Hp Hd.
  exists (dict_set (txt "last_updated") (JStr (clock_stamp w)) d).
  unfold cycle. rewrite (cycle_on_path s Hp), Hd. simpl.
  split; [reflexivity | ].
  split; [ | apply keys_dict_set ].
  intros k. destruct (text_eqb k (txt "last_updated")) eqn:Hk.
  - apply text_eqb_eq in Hk. subst k. apply dict_get_set_same.
  - apply dict_get_set_other. exact Hk.
Qed.

End MoreOnCycles.

(** ** The briefing *)

Section MoreOnBriefing.
Context {R : Runtime}.

(** X8.  The keys that the briefing and the dashboard list for an
    aggregation are the keys of the buckets the store returned, one for each
    bucket and in the order of the store. *)
Theorem bucket_keys_follow_store
    (aggs : json) (name : string) (a : json) (bs : list json) (v : json) :
  py_get aggs (txt name) (JDict []) = Ok a ->
  py_get a (txt "buckets") (JList []) = Ok (JList bs) ->
  bucket_keys aggs name = Ok v ->
  exists ks,
    v = JList ks /\
    List.length ks = List.length bs /\
    Forall2 (fun b k => py_getitem b (txt "key") = Ok k) bs ks.
Proof.
  intros Ha Hb. unfold bucket_keys, keys_of, rbind. rewrite Ha, Hb. simpl.
  destruct (mapM (fun b => py_getitem b (txt "key")) bs) as [ks|] eqn:E;
    [ | discriminate ].
  intros H. inversion H. exists ks. split; [reflexivity | ].
  apply mapM_length. exact E.
Qed.

Lemma bucket_keys_missing (d : list (text * json)) (name : string) :
  dict_get (txt name) d = None ->
  bucket_keys (JDict d) name = Ok (JList []).
Proof. intros H. unfold bucket_keys, rbind. simpl. rewrite H. reflexivity. Qed.

(** X9.  Aggregations that the response does not have are no error: the
    briefing is composed all the same, with 0 for the unique addresses and
    an empty list for each of the four rankings. *)
Theorem briefing_without_aggregations (total_events : json) (d : list (text * json)) :
  dict_get (txt "unique_ips") d = None ->
  dict_get (txt "top_countries") d = None ->
  dict_get (txt "top_honeypots") d = None ->
  dict_get (txt "top_ports") d = None ->
  dict_get (txt "top_passwords") d = None ->
  compose_briefing total_events (JDict d) =
  Ok (txt "Honeypot Security Briefing (last 15 mins):" ++ nl ++
      txt "- Total Events: " ++ py_str total_events ++ nl ++
      txt "- Unique Attacker IPs: 0" ++ nl ++
      txt "- Top Attacking Countries: []" ++ nl ++
      txt "- Top Targeted Honeypots: []" ++ nl ++
      txt "- Top Targeted Ports: []" ++ nl ++
      txt "- Top Passwords Attempted: []" ++ nl).
Proof.
  intros H1 H2 H3 H4 H5. unfold compose_briefing.
  rewrite !bucket_keys_missing by assumption.
  unfold rbind, py_get. rewrite H1. cbn [dict_get].
  repeat rewrite <- app_assoc. reflexivity.
Qed.

End MoreOnBriefing.

(** ** The cleaning of the reply *)

Lemma startswith_fence_inv (s : text) :
  startswith fence s = true -> exists s', s = fence ++ s'.
Proof.
  change fence with [96; 96; 96].
  destruct s as [|a [|b [|c s']]]; cbn [startswith];
    try discriminate;
    try (rewrite ?andb_false_r; discriminate).
  intros H. apply andb_true_iff in H. destruct H as [Ha H].
  apply andb_true_iff in H. destruct H as [Hb H].
  apply andb_true_iff in H. destruct H as [Hc _].
  apply N.eqb_eq in Ha, Hb, Hc. subst. exists s'. reflexivity.
Qed.

Lemma startswith_cons (x y : N) (p s : text) :
  startswith (x :: p) (y :: s) = (x =? y) && startswith p s.
Proof. reflexivity. Qed.

Lemma startswith_other (x y : N) (p s : text) :
  x <> y -> startswith (x :: p) (y :: s) = false.
Proof. intros H. cbn [startswith]. apply N.eqb_neq in H. rewrite H. reflexivity. Qed.

(** What the second replacement does at the head of a text. *)
Lemma replace_fence_cases (s : text) :
  (exists s', s = fence ++ s' /\
              replace_from fence [] 0 s = replace_from fence [] 0 s') \/
  s = [] \/
  (exists c s1, s = c :: s1 /\ startswith fence s = false /\
                replace_from fence [] 0 s = c :: replace_from fence [] 0 s1).
Proof.
  destruct (startswith fence s) eqn:E.
  - left. destruct (startswith_fence_inv s E) as [s' ->]. exists s'.
    split; [reflexivity | apply replace_fence_hit].
  - destruct s as [|c s1]; [right; left; reflexivity | right; right].
    exists c, s1. split; [reflexivity | split; [reflexivity | ]].
    apply replace_from_miss. exact E.
Qed.

Lemma replace_fence_head : forall n s,
  (List.length s <= n)%nat ->
  startswith fence (replace_from fence [] 0 s) = false.
Proof.
  induction n as [|n IH]; intros s Hn.
  - destruct s; [reflexivity | simpl in Hn; lia].
  - destruct (replace_fence_cases s) as [(s' & -> & E) | [-> | (c & s1 & -> & Hs & E)]].
    + rewrite E. apply IH. rewrite length_app in Hn. simpl in Hn. lia.
    + reflexivity.
    + rewrite E. clear E IH Hn.
      change fence with [96; 96; 96] in *.
      destruct (N.eq_dec 96 c) as [<-|Hc]; [ | apply startswith_other; exact Hc ].
      rewrite startswith_cons, N.eqb_refl. cbn [andb].
      change [96; 96; 96] with fence in *.
      destruct (replace_fence_cases s1) as [(s' & -> & E) | [-> | (c2 & s2 & -> & Hs1 & E)]].
      * discriminate Hs.
      * reflexivity.
      * rewrite E. clear E.
        change fence with [96; 96; 96] in *.
        destruct (N.eq_dec 96 c2) as [<-|Hc2]; [ | apply startswith_other; exact Hc2 ].
        rewrite startswith_cons, N.eqb_refl. cbn [andb].
        change [96; 96; 96] with fence in *.
        destruct (replace_fence_cases s2) as [(s' & -> & E) | [-> | (c3 & s3 & -> & Hs2 & E)]].
        -- discriminate Hs.
        -- reflexivity.
        -- rewrite E.
           destruct (N.eq_dec 96 c3) as [<-|Hc3]; [discriminate Hs | ].
           apply startswith_other; exact Hc3.
Qed.

Lemma replace_fence_clears : forall n s,
  (List.length s <= n)%nat ->
  occurs fence (replace_from fence [] 0 s) = false.
Proof.
  induction n as [|n IH]; intros s Hn.
  - destruct s; [reflexivity | simpl in Hn; lia].
  - pose proof (@replace_fence_head _ s (le_n _)) as Hh.
    destruct (replace_fence_cases s) as [(s' & -> & E) | [-> | (c & s1 & -> & Hs & E)]].
    + rewrite E. apply IH. rewrite length_app in Hn. simpl in Hn. lia.
    + reflexivity.
    + rewrite E in *. simpl in Hn.
      change (occurs fence (c :: replace_from fence [] 0 s1))
        with (startswith fence (c :: replace_from fence [] 0 s1) ||
              occurs fence (replace_from fence [] 0 s1)).
      rewrite Hh, IH by lia. reflexivity.
Qed.

Lemma occurs_fence_json (s : text) :
  occurs fence s = false -> occurs fence_json s = false.
Proof.
  induction s as [|c s IH]; intros H.
  - reflexivity.
  - apply occurs_cons in H. destruct H as [H1 H2].
    change (occurs fence_json (c :: s))
      with (startswith fence_json (c :: s) || occurs fence_json s).
    rewrite (fence_json_fence _ H1), (IH H2). reflexivity.
Qed.

(** X10.  Whatever the reply, the cleaned text holds no run of three
    backticks, and so no fence with its tag either. *)
Theorem clean_leaves_no_fence (reply : text) :
  occurs fence (clean reply) = false /\
  occurs fence_json (clean reply) = false.
Proof.
  assert (H : occurs fence (clean reply) = false).
  { unfold clean.
    change (replace fence []) with (replace_from fence [] 0).
    eapply replace_fence_clears. apply le_n. }
  split; [exact H | apply occurs_fence_json; exact H].
Qed.

Lemma replace_from_none (old new : text) : forall s,
  occurs old s = false -> replace_from old new 0 s = s.
Proof.
  induction s as [|c s IH]; intros H; [reflexivity | ].
  apply occurs_cons in H. destruct H as [H1 H2].
  rewrite replace_from_miss by exact H1. rewrite IH by exact H2. reflexivity.
Qed.

Lemma clean_without_fence (reply : text) :
  occurs fence (strip reply) = false -> clean reply = strip reply.
Proof.
  intros H. unfold clean.
  change (replace fence_json []) with (replace_from fence_json [] 0).
  change (replace fence []) with (replace_from fence [] 0).
  rewrite (replace_from_none fence_json [] _ (occurs_fence_json _ H)).
  apply replace_from_none. exact H.
Qed.

(** X11.  A reply without three backticks in a row is only stripped of the
    white space around it. *)
Theorem unfenced_reply_is_stripped (reply : text) :
  occurs fence (strip reply) = false -> clean reply = strip reply.
Proof. exact (@clean_without_fence reply). Qed.

(** Where [body] holds no fence, a closing fence right behind it is all the
    second replacement removes, even when [body] ends with backticks. *)
Lemma replace_closing_fence_inline (body : text) :
  occurs fence body = false ->
  replace_from fence [] 0 (body ++ fence) = body.
Proof.
  induction body as [|c b IH]; intros H; [reflexivity | ].
  apply occurs_cons in H. destruct H as [H1 H2].
  destruct (startswith fence ((c :: b) ++ fence)) eqn:E.
  - destruct (startswith_fence_inv _ E) as [s' Es].
    change fence with [96; 96; 96] in *.
    destruct b as [|b1 [|b2 b3]].
    + inversion Es. reflexivity.
    + inversion Es. reflexivity.
    + cbn [app startswith] in E, H1. congruence.
  - change ((c :: b) ++ fence) with (c :: (b ++ fence)) in *.
    rewrite replace_from_miss by exact E. rewrite IH by exact H2. reflexivity.
Qed.

Lemma replace_no_fence_json_inline (body : text) :
  occurs fence body = false ->
  replace_from fence_json [] 0 (body ++ fence) = body ++ fence.
Proof.
  induction body as [|c b IH]; intros H; [reflexivity | ].
  apply occurs_cons in H. destruct H as [H1 H2].
  change ((c :: b) ++ fence) with (c :: (b ++ fence)).
  rewrite replace_from_miss; [rewrite IH by exact H2; reflexivity | ].
  destruct b as [|b1 [|b2 b3]].
  - cbn [app]. change fence_json with [96; 96; 96; 106; 115; 111; 110].
    change fence with [96; 96; 96]. cbn [startswith].
    change (106 =? 96) with false. rewrite ?andb_false_r. reflexivity.
  - cbn [app]. change fence_json with [96; 96; 96; 106; 115; 111; 110].
    change fence with [96; 96; 96]. cbn [startswith].
    change (106 =? 96) with false. rewrite ?andb_false_r. reflexivity.
  - apply fence_json_fence. change fence with [96; 96; 96] in *.
    cbn [app startswith] in *. exact H1.
Qed.

(** X12.  A reply that puts a text right between the fence with its tag and
    the closing fence, with no line feed in between and any white space
    around, is cleaned to exactly that text, provided the text holds no run
    of three backticks. *)
Theorem inline_fence_is_removed (body ws1 ws2 : text) :
  Forall (fun x => isspace x = true) ws1 ->
  Forall (fun x => isspace x = true) ws2 ->
  occurs fence body = false ->
  clean (ws1 ++ (fence_json ++ body ++ fence) ++ ws2) = body.
Proof.
  intros H1 H2 Hb. unfold clean.
  assert (E : fence_json ++ body ++ fence =
              96 :: (96 :: 96 :: txt "json" ++ body ++ [96; 96]) ++ [96]).
  { change fence_json with (96 :: 96 :: 96 :: txt "json").
    change fence with [96; 96; 96]. simpl.
    repeat (rewrite <- app_assoc; simpl). reflexivity. }
  rewrite E, strip_spaces; try assumption; try reflexivity.
  rewrite <- E.
  change (replace fence_json []) with (replace_from fence_json [] 0).
  change (replace fence []) with (replace_from fence [] 0).
  rewrite replace_fence_json_hit.
  rewrite (@replace_no_fence_json_inline body Hb).
  apply replace_closing_fence_inline. exact Hb.
Qed.

Lemma lstrip_app (t u : text) :
  lstrip (t ++ u) = if forallb isspace t then lstrip u else lstrip t ++ u.
Proof.
  induction t as [|c t IH]; [reflexivity | ].
  cbn [app lstrip forallb]. destruct (isspace c); [exact IH | reflexivity].
Qed.

Lemma lstrip_all_spaces (ws : text) :
  Forall (fun x => isspace x = true) ws -> lstrip ws = [].
Proof.
  induction 1 as [|x ws Hx _ IH]; [reflexivity | ].
  cbn [lstrip]. rewrite Hx. exact IH.
Qed.

Lemma forallb_spaces (ws : text) :
  Forall (fun x => isspace x = true) ws -> forallb isspace ws = true.
Proof. intros H. apply forallb_forall. apply Forall_forall. exact H. Qed.

Lemma rstrip_app_spaces (t ws : text) :
  Forall (fun x => isspace x = true) ws -> rstrip (t ++ ws) = rstrip t.
Proof.
  intros H. unfold rstrip. rewrite rev_app_distr, lstrip_app.
  rewrite forallb_spaces by (apply Forall_rev; exact H). reflexivity.
Qed.

(** [strip] removes the white space around a text, all of it, and what it
    leaves is what it leaves of the text alone. *)
Lemma strip_around (ws1 t ws2 : text) :
  Forall (fun x => isspace x = true) ws1 ->
  Forall (fun x => isspace x = true) ws2 ->
  strip (ws1 ++ t ++ ws2) = strip t.
Proof.
  intros H1 H2. unfold strip.
  rewrite lstrip_app, (forallb_spaces H1), lstrip_app.
  destruct (forallb isspace t) eqn:E.
  - rewrite (lstrip_all_spaces H2).
    rewrite lstrip_all_spaces; [reflexivity | ].
    apply Forall_forall. apply forallb_forall. exact E.
  - apply rstrip_app_spaces. exact H2.
Qed.

(** X13.  A reply that is a text with white space around it is decoded as
    the text itself, to the same value or with the same error, if the text
    holds no run of three backticks and is one that [strip] leaves as it is:
    it neither begins nor ends with a character that counts as white space
    for [str.strip].  (That is more than the white space of JSON: a text
    that begins with a form feed is not covered, and there the two differ.) *)
Theorem bare_reply_is_decoded_as_it_is {R : Runtime} (body ws1 ws2 : text) :
  Forall (fun x => isspace x = true) ws1 ->
  Forall (fun x => isspace x = true) ws2 ->
  strip body = body ->
  occurs fence body = false ->
  json_loads (clean (ws1 ++ body ++ ws2)) = json_loads body.
Proof.
  intros H1 H2 Hs Hf.
  assert (E : strip (ws1 ++ body ++ ws2) = body)
    by (rewrite strip_around by assumption; exact Hs).
  rewrite clean_without_fence; rewrite E; auto.
Qed.

(** ** More on the dashboard *)

Section MoreOnDashboard.
Context {R : Runtime}.

Local Arguments txt : simpl never.
Local Arguments text_eqb : simpl never.
Local Arguments dict_get : simpl never.

Ltac ok_step H :=
  match type of H with
  | rbind ?x _ = Ok _ =>
      let E := fresh "E" in
      destruct x eqn:E; simpl in H; [ | discriminate H ]
  end.

(** X14.  The dashboard endpoint answers every request: with status 200, or
    with status 500 and a body that has the one key [error].  It leaves the
    cache of the analysis as it is, sends at most one query, and never calls
    the summarization service. *)
Theorem dashboard_always_answers (p : Process) (w : World) (s : State) :
  exists body status evs,
    get_dashboard_data p w s =
      (Ok (body, status),
       {| ai_analysis_cache := ai_analysis_cache s; trace := trace s ++ evs |}) /\
    (status = 200%Z \/
     status = 500%Z /\ exists what, body = error_body what) /\
    (List.length (filter is_searched evs) <= 1)%nat /\
    existsb is_generated evs = false /\
    existsb is_cache_updated evs = false.
Proof.
  rewrite dashboard_cases.
  destruct (es p); cbn [negb].
  - destruct (resp <- search w INDEX_PATTERN dashboard_query ;;
              data <- dashboard_data resp ;;
              jsonify data)%res as [body|e].
    + exists body, 200%Z, [Searched INDEX_PATTERN dashboard_query].
      repeat split; auto.
    + exists (error_body (str_exn e)), 500%Z,
        [Searched INDEX_PATTERN dashboard_query; Printed (Dashboard_error e)].
      repeat split; eauto.
  - exists (error_body (txt "Elasticsearch connection not available")), 500%Z, [].
    rewrite app_nil_r. destruct s. repeat split; eauto.
Qed.

(** X15.  When the query of the dashboard fails, the endpoint answers status
    500 with the text of the exception under [error], and prints the
    exception; nothing else happens. *)
Theorem dashboard_store_failure (p : Process) (w : World) (s : State) (e : exn) :
  es p = true ->
  search w INDEX_PATTERN dashboard_query = Raise e ->
  get_dashboard_data p w s =
    (Ok (error_body (str_exn e), 500%Z),
     {| ai_analysis_cache := ai_analysis_cache s;
        trace := trace s ++ [Searched INDEX_PATTERN dashboard_query;
                             Printed (Dashboard_error e)] |}).
Proof.
  intros Hes Hs. rewrite dashboard_cases, Hes, Hs. reflexivity.
Qed.


(** X17.  A response without aggregations is no error: the counters of the
    dashboard get their defaults and every chart, table and list is empty. *)
Theorem dashboard_without_aggregations
    (d : list (text * json)) (total h : json) (hl : list json) (recent : list json) :
  dict_get (txt "aggregations") d = None ->
  total_of (JDict d) = Ok total ->
  dict_get (txt "hits") d = Some h ->
  py_getitem h (txt "hits") = Ok (JList hl) ->
  map_points hl = Ok recent ->
  dashboard_data (JDict d) =
  Ok (jobj [ ("kpi_total_attacks", total);
             ("kpi_unique_attackers", JInt 0);
             ("kpi_top_country", jstr "N/A");
             ("kpi_top_honeypot", jstr "N/A");
             ("chart_attacks_over_time", JList []);
             ("chart_attacks_by_country", JList []);
             ("chart_attacks_by_honeypot", JList []);
             ("chart_top_ports", JList []);
             ("table_top_attackers", JList []);
             ("list_top_usernames", JList []);
             ("list_top_passwords", JList []);
             ("map_recent_attacks", JList recent) ]%string).
Proof.
  intros Ha Ht Hh Hhh Hm. unfold dashboard_data.
  unfold py_get at 1. rewrite Ha. cbn [rbind].
  rewrite Ht. cbn [rbind].
  unfold py_getitem at 1. rewrite Hh. cbn [rbind].
  rewrite Hhh. cbn [rbind py_iter]. rewrite Hm. reflexivity.
Qed.

Lemma Forall2_In_left {A B} (P : A -> B -> Prop) (l : list A) (l' : list B) (a : A) :
  Forall2 P l l' -> In a l -> exists b, P a b.
Proof.
  induction 1 as [|x y l l' Hxy HF IH]; intros Hin; [destruct Hin | ].
  destruct Hin as [<-|Hin]; [exists y; exact Hxy | apply IH; exact Hin].
Qed.

Lemma dashboard_data_charts (resp data aggs : json) (name : string) (a : json) :
  dashboard_data resp = Ok data ->
  py_get resp (txt "aggregations") (JDict []) = Ok aggs ->
  In name chart_aggregations ->
  py_get aggs (txt name) JNull = Ok a ->
  exists out, format_buckets a = Ok out.
Proof.
  intros Hd Ha Hin Hn. unfold dashboard_data in Hd. rewrite Ha in Hd.
  cbn [rbind] in Hd.
  repeat ok_step Hd.
  unfold chart_aggregations in Hin. cbn [In] in Hin.
  destruct Hin as [<-|[<-|[<-|[<-|[<-|[]]]]]];
    match goal with
    | Hx : py_get aggs _ JNull = Ok ?j, Hy : format_buckets ?j = Ok ?o |- _ =>
        rewrite Hn in Hx; inversion Hx; subst; exists o; exact Hy
    end.
Qed.

(** X18.  One bucket without [key] or without [doc_count], in any of the
    five aggregations that become charts, fails the whole request: the
    endpoint answers status 500 and no data at all. *)
Theorem malformed_bucket_fails_the_request
    (p : Process) (w : World) (s : State) (resp aggs : json) (name : string)
    (d : list (text * json)) (bs : list json) (b : json) (e : exn) :
  es p = true ->
  search w INDEX_PATTERN dashboard_query = Ok resp ->
  py_get resp (txt "aggregations") (JDict []) = Ok aggs ->
  In name chart_aggregations ->
  py_get aggs (txt name) JNull = Ok (JDict d) ->
  dict_get (txt "buckets") d = Some (JList bs) ->
  In b bs ->
  format_bucket b = Raise e ->
  exists e', fst (get_dashboard_data p w s) = Ok (error_body (str_exn e'), 500%Z).
Proof.
  intros Hes Hs Ha Hin Hn Hb Hbs He.
  rewrite dashboard_cases, Hes, Hs. cbn [negb rbind].
  destruct (dashboard_data resp) as [data|e'] eqn:Hd; cbn [rbind];
    [ | exists e'; reflexivity ].
  exfalso.
  destruct (dashboard_data_charts _ Hd Ha Hin Hn) as [out Ho].
  destruct (format_buckets_of_list _ Hb Ho) as (l & _ & _ & HF).
  destruct (@Forall2_In_left _ _ _ _ _ _ HF Hbs) as [o Hob]. congruence.
Qed.

(** The first key and the chart, made from one aggregation. *)
Lemma top_key_and_chart (aggs : json) (name : text) (a1 cb top a2 chart : json) :
  py_get aggs name (JDict []) = Ok a1 ->
  py_get a1 (txt "buckets") (JList []) = Ok cb ->
  top_key cb = Ok top ->
  py_get aggs name JNull = Ok a2 ->
  format_buckets a2 = Ok chart ->
  first_name (Some chart) = Some top.
Proof.
  intros H1 H2 H3 H4 H5.
  destruct aggs as [ | | | | | |da]; try discriminate H1.
  unfold py_get in H1, H4.
  destruct (dict_get name da) as [a|] eqn:Ea.
  - inversion H1. inversion H4. subst a1 a2. clear H1 H4.
    destruct a as [ | | | | | |d]; try discriminate H2.
    unfold py_get in H2.
    destruct (dict_get (txt "buckets") d) as [b|] eqn:Eb.
    + inversion H2. subst cb. clear H2.
      unfold format_buckets in H5.
      assert (Ht : truthy (JDict d) = true)
        by (destruct d; [discriminate Eb | reflexivity]).
      rewrite Ht in H5. unfold py_contains, py_getitem, dict_has, rbind in H5.
      rewrite Eb in H5. cbn [negb] in H5.
      destruct (py_iter b) as [l|] eqn:Ei; [ | discriminate H5 ].
      destruct (mapM format_bucket l) as [out|] eqn:Em; [ | discriminate H5 ].
      inversion H5. subst chart. clear H5.
      destruct b as [ | | | |x|lb|db]; try discriminate Ei.
      * (* a string: only the empty one can be iterated without an error *)
        destruct x as [|c x].
        -- inversion Ei. subst l. inversion Em. inversion H3. reflexivity.
        -- inversion Ei. subst l. discriminate Em.
      * inversion Ei. subst l. clear Ei.
        destruct lb as [|x lb].
        -- inversion Em. inversion H3. reflexivity.
        -- unfold top_key in H3. cbn [truthy py_first rbind] in H3.
           cbn [mapM] in Em.
           destruct (format_bucket x) as [o|] eqn:Eo; [ | discriminate Em ].
           destruct (mapM format_bucket lb) as [os|]; [ | discriminate Em ].
           inversion Em. subst out. clear Em.
           unfold format_bucket, rbind in Eo. rewrite H3 in Eo.
           destruct (py_getitem x (txt "doc_count")); [ | discriminate Eo ].
           inversion Eo. reflexivity.
      * destruct db as [|[k v] db].
        -- inversion Ei. subst l. inversion Em. inversion H3. reflexivity.
        -- inversion Ei. subst l. discriminate Em.
    + inversion H2. subst cb. inversion H3. subst top.
      unfold format_buckets in H5.
      destruct (truthy (JDict d)); cbn [negb] in H5.
      * unfold py_contains, dict_has, rbind in H5. rewrite Eb in H5.
        inversion H5. reflexivity.
      * inversion H5. reflexivity.
  - inversion H1. inversion H4. subst a1 a2.
    inversion H2. subst cb. inversion H3. inversion H5. reflexivity.
Qed.

(** X19.  In an answer with status 200, the top country is the name of the
    first entry of the chart of countries, and ['N/A'] when the chart is
    empty; the top honeypot likewise. *)
Theorem top_entries_agree_with_charts
    (p : Process) (w : World) (s : State) (body : json) :
  fst (get_dashboard_data p w s) = Ok (body, 200%Z) ->
  (exists top, field "kpi_top_country" body = Some top /\
     first_name (field "chart_attacks_by_country" body) = Some top) /\
  (exists top, field "kpi_top_honeypot" body = Some top /\
     first_name (field "chart_attacks_by_honeypot" body) = Some top).
Proof.
  intros H. destruct (dashboard_answered _ _ _ H) as [_ [resp [_ Hd]]]. clear H.
  unfold dashboard_data in Hd.
  repeat ok_step Hd.
  inversion Hd. clear Hd.
  split; (eexists; split; [reflexivity | ]);
    match goal with
    | |- first_name ?f = _ => let v := eval cbv in f in change f with v
    end;
    match goal with
    | H1 : py_get ?aggs ?name (JDict []) = Ok ?a1,
      H2 : py_get ?a1 (txt "buckets") (JList []) = Ok ?cb,
      H3 : top_key ?cb = Ok ?top,
      H4 : py_get ?aggs ?name JNull = Ok ?a2,
      H5 : format_buckets ?a2 = Ok ?chart |- _ =>
        eapply top_key_and_chart; [exact H1 | exact H2 | exact H3 | exact H4 | exact H5]
    end.
Qed.

(** X20.  The map of recent attacks shows the hits that have a location,
    and only those, in the order of the response. *)
Theorem map_shows_the_located_hits (hits : list json) (pts : list json) :
  map_points hits = Ok pts ->
  mapM map_point (filter located hits) = Ok pts /\
  (List.length pts <= List.length hits)%nat.
Proof.
  revert pts. induction hits as [|h hits IH]; intros pts H.
  - inversion H. split; [reflexivity | apply le_n].
  - cbn [map_points] in H. unfold rbind in H. cbn [filter].
    change (located h)
      with (match location_of h with Ok loc => truthy loc | Raise _ => false end).
    destruct (location_of h) as [loc|]; [ | discriminate H ].
    destruct (truthy loc).
    + destruct (map_point h) as [pt|] eqn:Ep; [ | discriminate H ].
      destruct (map_points hits) as [rest|]; [ | discriminate H ].
      inversion H. subst pts. destruct (IH rest eq_refl) as [IH1 IH2].
      cbn [mapM]. rewrite Ep, IH1. split; [reflexivity | simpl; lia].
    + destruct (IH pts H) as [IH1 IH2]. split; [exact IH1 | simpl; lia].
Qed.

End MoreOnDashboard.

Section MoreOnTheMap.
Context {R : Runtime}.

(** X21.  One hit that has a location but not the coordinates the map
    reads from it fails the whole list of points. *)
Theorem located_hit_without_coordinates (hits : list json) (h : json) (e : exn) :
  In h hits ->
  located h = true ->
  map_point h = Raise e ->
  exists e', map_points hits = Raise e'.
Proof.
  intros Hin Hl He. induction hits as [|x hits IH]; [destruct Hin | ].
  cbn [map_points]. unfold rbind.
  destruct Hin as [->|Hin].
  - unfold located in Hl. destruct (location_of h) as [loc|]; [ | discriminate Hl ].
    rewrite Hl, He. eauto.
  - destruct (IH Hin) as [e' IH'].
    destruct (location_of x) as [loc|]; [ | eauto ].
    destruct (truthy loc); [ | eauto ].
    destruct (map_point x); [ | eauto ].
    rewrite IH'. eauto.
Qed.

End MoreOnTheMap.

(** ** Import time, and what follows from it *)

Section MoreOnStartup.
Context {R : Runtime}.
Import Startup.

(** X22.  The import of the module stops with an exception exactly when the
    client of the store, or its ping, raises something that is no
    [ConnectionError]; whatever the summarization library raises is caught. *)
Theorem import_stops_only_on_store_error (o : Surroundings) :
  (exists x, fst (import_module o) = Raises x) <->
  (Elasticsearch o = Raises Other_error \/
   (exists u, Elasticsearch o = Returns u) /\ ping o = Raises Other_error).
Proof.
  destruct o as [c g e pg]. unfold import_module, configure_gemini, connect_elasticsearch.
  cbn [configure GenerativeModel Elasticsearch ping].
  destruct (then_ c (fun _ => g)) as [?|?];
    destruct e as [[]|[|]]; cbn [then_];
    try (destruct pg as [[|]|[|]]; cbn [then_ negb fst]);
    cbn [fst];
    (split;
     [ intros [x Hx]; try discriminate Hx; eauto
     | intros [H|[[u Hu] H]]; try discriminate; eauto ]).
Qed.

(** X23.  If the store does not answer the ping at import time, the module
    prints the error and starts all the same, with no client of the store:
    from then on every cycle of the task is skipped, so a read answers the
    placeholder for ever, and the dashboard answers every request with
    status 500 without sending a query. *)
Theorem store_down_at_startup (o : Surroundings) :
  Elasticsearch o = Returns tt ->
  ping o = Returns false ->
  exists p,
    import_module o = (Returns p, snd (configure_gemini o) ++ [Elasticsearch_fatal]) /\
    (forall ws,
       run p ws initial_state =
       {| ai_analysis_cache := placeholder;
          trace := map (fun _ => Printed Skipped_unavailable) ws |}) /\
    (forall w s,
       get_dashboard_data p w s =
       (Ok (error_body (txt "Elasticsearch connection not available"), 500%Z), s)).
Proof.
  intros He Hp.
  exists {| es := false; model := fst (configure_gemini o) |}.
  split; [ | split ].
  - unfold import_module, connect_elasticsearch. rewrite He, Hp. cbn [then_ negb].
    destruct (configure_gemini o). reflexivity.
  - intros ws. rewrite skipped_run by reflexivity. reflexivity.
  - intros w s. rewrite dashboard_cases. reflexivity.
Qed.

(** X24.  If the summarization library raises at import time, the module
    prints the error and starts all the same, with no model: every cycle of
    the task is then skipped, while the dashboard serves its data as it does
    with a model. *)
Theorem model_down_at_startup (o : Surroundings) (x : raised) :
  then_ (configure o) (fun _ => GenerativeModel o) = Raises x ->
  Elasticsearch o = Returns tt ->
  ping o = Returns true ->
  exists p,
    import_module o = (Returns p, [Gemini_fatal]) /\
    (forall ws,
       run p ws initial_state =
       {| ai_analysis_cache := placeholder;
          trace := map (fun _ => Printed Skipped_unavailable) ws |}) /\
    (forall w s,
       get_dashboard_data p w s =
       get_dashboard_data {| es := true; model := true |} w s).
Proof.
  intros Hg He Hp.
  exists {| es := true; model := false |}.
  split; [ | split ].
  - unfold import_module, configure_gemini, connect_elasticsearch.
    rewrite Hg, He, Hp. reflexivity.
  - intros ws. rewrite skipped_run by reflexivity. reflexivity.
  - intros w s. rewrite !dashboard_cases. reflexivity.
Qed.

End MoreOnStartup.

(** ** The properties above on sample surroundings *)

Lemma without_clients_nothing_happens_witness :
  es Incident.no_model && model Incident.no_model = false /\
  (trace (run Incident.no_model [Sample.at_0150; Sample.at_0200] initial_state) =
     map (fun _ => Printed Skipped_unavailable) [Sample.at_0150; Sample.at_0200] /\
   existsb is_searched
     (trace (run Incident.no_model [Sample.at_0150; Sample.at_0200] initial_state)) = false /\
   existsb is_generated
     (trace (run Incident.no_model [Sample.at_0150; Sample.at_0200] initial_state)) = false /\
   read (run Incident.no_model [Sample.at_0150; Sample.at_0200] initial_state) =
     Ok (placeholder, 200%Z)).
Proof.
  split; [reflexivity | ].
  apply (@without_clients_nothing_happens Reference.runtime Incident.no_model
           [Sample.at_0150; Sample.at_0200]).
  reflexivity.
Defined.

Lemma service_failure_leaves_cache_witness :
  es Sample.process = true /\
  model Sample.process = true /\
  search Incident.service_down INDEX_PATTERN briefing_query = Ok Sample.briefing_response /\
  py_get Sample.briefing_response (txt "aggregations") (JDict []) = Ok Sample.briefing_aggs /\
  total_of Sample.briefing_response = Ok (JInt 7) /\
  eq_zero (JInt 7) = false /\
  compose_briefing (JInt 7) Sample.briefing_aggs = Ok Sample.briefing_text /\
  generate_content Incident.service_down (make_prompt Sample.briefing_text) =
    Raise (ExternalError (txt "429 Resource has been exhausted")) /\
  (fst (fetch_and_analyze_data Sample.process Incident.service_down initial_state) = Ok tt /\
   ai_analysis_cache (cycle Sample.process Incident.service_down initial_state) =
     ai_analysis_cache initial_state /\
   new_events Sample.process Incident.service_down initial_state =
     failed_trace Incident.service_down Sample.briefing_text
       (ExternalError (txt "429 Resource has been exhausted"))).
Proof.
  repeat (split; [reflexivity | ]).
  apply (@service_failure_leaves_cache Reference.runtime Sample.process
           Incident.service_down initial_state
           Sample.briefing_response Sample.briefing_aggs (JInt 7) Sample.briefing_text
           (ExternalError (txt "429 Resource has been exhausted")));
    reflexivity.
Defined.

Lemma malformed_response_leaves_cache_witness :
  es Sample.process = true /\
  model Sample.process = true /\
  search Incident.malformed INDEX_PATTERN briefing_query = Ok Incident.no_total /\
  total_of Incident.no_total = Raise (KeyError (txt "total")) /\
  (fst (fetch_and_analyze_data Sample.process Incident.malformed initial_state) = Ok tt /\
   ai_analysis_cache (cycle Sample.process Incident.malformed initial_state) =
     ai_analysis_cache initial_state /\
   new_events Sample.process Incident.malformed initial_state =
     [ Printed (Running_at (clock_start Incident.malformed));
       Searched INDEX_PATTERN briefing_query;
       Printed (Task_error
                  match py_get Incident.no_total (txt "aggregations") (JDict []) with
                  | Ok _ => KeyError (txt "total")
                  | Raise a => a
                  end) ]).
Proof.
  repeat (split; [reflexivity | ]).
  apply (@malformed_response_leaves_cache Reference.runtime Sample.process
           Incident.malformed initial_state Incident.no_total (KeyError (txt "total")));
    reflexivity.
Defined.

Lemma commit_keeps_the_reply_witness :
  path Sample.process Sample.partial_reply
    Sample.briefing_response Sample.briefing_aggs (JInt 7)
    Sample.briefing_text Sample.partial_body /\
  json_loads (clean Sample.partial_body) = Ok (JDict Sample.partial_dict) /\
  exists d',
    ai_analysis_cache (cycle Sample.process Sample.partial_reply initial_state) = JDict d' /\
    (forall k, dict_get k d' =
               if text_eqb k (txt "last_updated")
               then Some (JStr (clock_stamp Sample.partial_reply))
               else dict_get k Sample.partial_dict) /\
    keys d' = (if dict_has (txt "last_updated") Sample.partial_dict
               then keys Sample.partial_dict
               else keys Sample.partial_dict ++ [txt "last_updated"]).
Proof.
  assert (Hp : path Sample.process Sample.partial_reply
                 Sample.briefing_response Sample.briefing_aggs (JInt 7)
                 Sample.briefing_text Sample.partial_body)
    by (constructor; reflexivity).
  assert (Hd : json_loads (clean Sample.partial_body) = Ok (JDict Sample.partial_dict))
    by reflexivity.
  split; [exact Hp | split; [exact Hd | ]].
  exact (@commit_keeps_the_reply Reference.runtime Sample.process Sample.partial_reply
           initial_state _ _ _ _ _ Sample.partial_dict Hp Hd).
Defined.

Lemma bucket_keys_follow_store_witness :
  py_get Sample.briefing_aggs (txt "top_countries") (JDict []) =
    Ok (jobj [("buckets",
               JList [ jobj [("key", jstr "CN"); ("doc_count", JInt 5)];
                       jobj [("key", jstr "RU"); ("doc_count", JInt 2)] ])]%string) /\
  py_get (jobj [("buckets",
                 JList [ jobj [("key", jstr "CN"); ("doc_count", JInt 5)];
                         jobj [("key", jstr "RU"); ("doc_count", JInt 2)] ])]%string)
    (txt "buckets") (JList []) =
    Ok (JList [ jobj [("key", jstr "CN"); ("doc_count", JInt 5)];
                jobj [("key", jstr "RU"); ("doc_count", JInt 2)] ]%string) /\
  bucket_keys Sample.briefing_aggs "top_countries" = Ok (JList [jstr "CN"; jstr "RU"]) /\
  exists ks,
    JList [jstr "CN"; jstr "RU"] = JList ks /\
    List.length ks =
      List.length [ jobj [("key", jstr "CN"); ("doc_count", JInt 5)];
                    jobj [("key", jstr "RU"); ("doc_count", JInt 2)] ]%string /\
    Forall2 (fun b k => py_getitem b (txt "key") = Ok k)
      [ jobj [("key", jstr "CN"); ("doc_count", JInt 5)];
        jobj [("key", jstr "RU"); ("doc_count", JInt 2)] ]%string ks.
Proof.
  repeat (split; [reflexivity | ]).
  apply (@bucket_keys_follow_store Sample.briefing_aggs "top_countries"
           (jobj [("buckets",
                   JList [ jobj [("key", jstr "CN"); ("doc_count", JInt 5)];
                           jobj [("key", jstr "RU"); ("doc_count", JInt 2)] ])]%string));
    reflexivity.
Defined.

Lemma briefing_without_aggregations_witness :
  dict_get (txt "unique_ips") [] = None /\
  dict_get (txt "top_countries") [] = None /\
  dict_get (txt "top_honeypots") [] = None /\
  dict_get (txt "top_ports") [] = None /\
  dict_get (txt "top_passwords") [] = None /\
  compose_briefing (JInt 3) (JDict []) =
  Ok (txt "Honeypot Security Briefing (last 15 mins):" ++ nl ++
      txt "- Total Events: " ++ py_str (JInt 3) ++ nl ++
      txt "- Unique Attacker IPs: 0" ++ nl ++
      txt "- Top Attacking Countries: []" ++ nl ++
      txt "- Top Targeted Honeypots: []" ++ nl ++
      txt "- Top Targeted Ports: []" ++ nl ++
      txt "- Top Passwords Attempted: []" ++ nl).
Proof.
  repeat (split; [reflexivity | ]).
  apply (@briefing_without_aggregations Reference.runtime (JInt 3) []); reflexivity.
Defined.

Lemma unfenced_reply_is_stripped_witness :
  occurs fence (strip (32 :: Sample.good_body ++ [10])) = false /\
  clean (32 :: Sample.good_body ++ [10]) = strip (32 :: Sample.good_body ++ [10]).
Proof.
  split; [reflexivity | ].
  apply (@unfenced_reply_is_stripped (32 :: Sample.good_body ++ [10])).
  reflexivity.
Defined.

Lemma inline_fence_is_removed_witness :
  Forall (fun x => isspace x = true) [32] /\
  Forall (fun x => isspace x = true) [10] /\
  occurs fence Sample.good_body = false /\
  clean ([32] ++ (fence_json ++ Sample.good_body ++ fence) ++ [10]) = Sample.good_body.
Proof.
  assert (H1 : Forall (fun x => isspace x = true) [32]) by (repeat constructor).
  assert (H2 : Forall (fun x => isspace x = true) [10]) by (repeat constructor).
  split; [exact H1 | split; [exact H2 | split; [reflexivity | ]]].
  apply (@inline_fence_is_removed Sample.good_body [32] [10] H1 H2).
  reflexivity.
Defined.

Lemma bare_reply_is_decoded_as_it_is_witness :
  Forall (fun x => isspace x = true) [10] /\
  Forall (fun x => isspace x = true) [32; 10] /\
  strip (dq "{'summary': 'quiet'}") = dq "{'summary': 'quiet'}" /\
  occurs fence (dq "{'summary': 'quiet'}") = false /\
  json_loads (clean ([10] ++ dq "{'summary': 'quiet'}" ++ [32; 10])) =
    json_loads (dq "{'summary': 'quiet'}").
Proof.
  assert (H1 : Forall (fun x => isspace x = true) [10]) by (repeat constructor).
  assert (H2 : Forall (fun x => isspace x = true) [32; 10]) by (repeat constructor).
  split; [exact H1 | split; [exact H2 | ]].
  repeat (split; [reflexivity | ]).
  apply (@bare_reply_is_decoded_as_it_is Reference.runtime
           (dq "{'summary': 'quiet'}") [10] [32; 10] H1 H2);
    reflexivity.
Defined.

Lemma dashboard_store_failure_witness :
  es Sample.process = true /\
  search Sample.store_down INDEX_PATTERN dashboard_query =
    Raise (ExternalError (txt "ConnectionTimeout")) /\
  get_dashboard_data Sample.process Sample.store_down initial_state =
    (Ok (error_body (str_exn (ExternalError (txt "ConnectionTimeout"))), 500%Z),
     {| ai_analysis_cache := ai_analysis_cache initial_state;
        trace := trace initial_state ++
                 [Searched INDEX_PATTERN dashboard_query;
                  Printed (Dashboard_error (ExternalError (txt "ConnectionTimeout")))] |}).
Proof.
  repeat (split; [reflexivity | ]).
  apply (@dashboard_store_failure Reference.runtime Sample.process Sample.store_down
           initial_state (ExternalError (txt "ConnectionTimeout")));
    reflexivity.
Defined.


Lemma dashboard_without_aggregations_witness :
  dict_get (txt "aggregations") Incident.bare_hits = None /\
  total_of (JDict Incident.bare_hits) = Ok (JInt 5) /\
  dict_get (txt "hits") Incident.bare_hits =
    Some (jobj [ ("total", jobj [("value", JInt 5)]); ("hits", JList []) ]%string) /\
  py_getitem (jobj [ ("total", jobj [("value", JInt 5)]); ("hits", JList []) ]%string)
    (txt "hits") = Ok (JList []) /\
  map_points [] = Ok [] /\
  dashboard_data (JDict Incident.bare_hits) =
  Ok (jobj [ ("kpi_total_attacks", JInt 5);
             ("kpi_unique_attackers", JInt 0);
             ("kpi_top_country", jstr "N/A");
             ("kpi_top_honeypot", jstr "N/A");
             ("chart_attacks_over_time", JList []);
             ("chart_attacks_by_country", JList []);
             ("chart_attacks_by_honeypot", JList []);
             ("chart_top_ports", JList []);
             ("table_top_attackers", JList []);
             ("list_top_usernames", JList []);
             ("list_top_passwords", JList []);
             ("map_recent_attacks", JList []) ]%string).
Proof.
  repeat (split; [reflexivity | ]).
  apply (@dashboard_without_aggregations Incident.bare_hits (JInt 5)
           (jobj [ ("total", jobj [("value", JInt 5)]); ("hits", JList []) ]%string)
           [] []);
    reflexivity.
Defined.

Lemma malformed_bucket_fails_the_request_witness :
  es Sample.process = true /\
  search Incident.broken_world INDEX_PATTERN dashboard_query = Ok Incident.broken_response /\
  py_get Incident.broken_response (txt "aggregations") (JDict []) = Ok Incident.broken_aggs /\
  In "top_attacked_ports"%string chart_aggregations /\
  py_get Incident.broken_aggs (txt "top_attacked_ports") JNull =
    Ok (JDict [(txt "buckets", JList Incident.port_buckets)]) /\
  dict_get (txt "buckets") [(txt "buckets", JList Incident.port_buckets)] =
    Some (JList Incident.port_buckets) /\
  In (jobj [("key", JInt 23)]%string) Incident.port_buckets /\
  format_bucket (jobj [("key", JInt 23)]%string) = Raise (KeyError (txt "doc_count")) /\
  exists e',
    fst (get_dashboard_data Sample.process Incident.broken_world initial_state) =
      Ok (error_body (str_exn e'), 500%Z).
Proof.
  assert (Hn : In "top_attacked_ports"%string chart_aggregations)
    by (right; right; right; left; reflexivity).
  assert (Hb : In (jobj [("key", JInt 23)]%string) Incident.port_buckets)
    by (right; left; reflexivity).
  split; [reflexivity | split; [reflexivity | split; [reflexivity | ]]].
  split; [exact Hn | split; [reflexivity | split; [reflexivity | ]]].
  split; [exact Hb | split; [reflexivity | ]].
  exact (@malformed_bucket_fails_the_request Reference.runtime Sample.process
           Incident.broken_world initial_state Incident.broken_response
           Incident.broken_aggs "top_attacked_ports"
           [(txt "buckets", JList Incident.port_buckets)] Incident.port_buckets
           (jobj [("key", JInt 23)]%string) (KeyError (txt "doc_count"))
           eq_refl eq_refl eq_refl Hn eq_refl eq_refl Hb eq_refl).
Defined.

Lemma top_entries_agree_with_charts_witness :
  exists body,
    fst (get_dashboard_data Sample.process Sample.dashboard_world initial_state) =
      Ok (body, 200%Z) /\
    (exists top, field "kpi_top_country" body = Some top /\
       first_name (field "chart_attacks_by_country" body) = Some top) /\
    (exists top, field "kpi_top_honeypot" body = Some top /\
       first_name (field "chart_attacks_by_honeypot" body) = Some top).
Proof.
  destruct (fst (get_dashboard_data Sample.process Sample.dashboard_world initial_state))
    as [[body status]|e] eqn:E; [ | vm_compute in E; discriminate E ].
  assert (Hst : status = 200%Z) by (vm_compute in E; congruence).
  subst status. exists body. split; [reflexivity | ].
  exact (@top_entries_agree_with_charts Reference.runtime Sample.process
           Sample.dashboard_world initial_state body E).
Defined.

Lemma map_shows_the_located_hits_witness :
  map_points [Incident.hit_berlin; Incident.hit_nowhere] = Ok [Incident.point_berlin] /\
  mapM map_point (filter located [Incident.hit_berlin; Incident.hit_nowhere]) =
    Ok [Incident.point_berlin] /\
  (List.length [Incident.point_berlin] <=
   List.length [Incident.hit_berlin; Incident.hit_nowhere])%nat.
Proof.
  split; [reflexivity | ].
  apply (@map_shows_the_located_hits [Incident.hit_berlin; Incident.hit_nowhere]
           [Incident.point_berlin]).
  reflexivity.
Defined.

Lemma located_hit_without_coordinates_witness :
  In Incident.hit_text_point [Incident.hit_berlin; Incident.hit_text_point] /\
  located Incident.hit_text_point = true /\
  map_point Incident.hit_text_point = Raise TypeError /\
  exists e', map_points [Incident.hit_berlin; Incident.hit_text_point] = Raise e'.
Proof.
  assert (Hin : In Incident.hit_text_point [Incident.hit_berlin; Incident.hit_text_point])
    by (right; left; reflexivity).
  split; [exact Hin | split; [reflexivity | split; [reflexivity | ]]].
  exact (@located_hit_without_coordinates
           [Incident.hit_berlin; Incident.hit_text_point] Incident.hit_text_point
           TypeError Hin eq_refl eq_refl).
Defined.

Lemma store_down_at_startup_witness :
  Startup.Elasticsearch Incident.store_silent = Startup.Returns tt /\
  Startup.ping Incident.store_silent = Startup.Returns false /\
  exists p,
    Startup.import_module Incident.store_silent =
      (Startup.Returns p,
       snd (Startup.configure_gemini Incident.store_silent) ++ [Startup.Elasticsearch_fatal]) /\
    (forall ws,
       run p ws initial_state =
       {| ai_analysis_cache := placeholder;
          trace := map (fun _ => Printed Skipped_unavailable) ws |}) /\
    (forall w s,
       get_dashboard_data p w s =
       (Ok (error_body (txt "Elasticsearch connection not available"), 500%Z), s)).
Proof.
  split; [reflexivity | split; [reflexivity | ]].
  apply (@store_down_at_startup Reference.runtime Incident.store_silent); reflexivity.
Defined.

Lemma model_down_at_startup_witness :
  Startup.then_ (Startup.configure Incident.key_rejected)
    (fun _ => Startup.GenerativeModel Incident.key_rejected) =
    Startup.Raises Startup.Other_error /\
  Startup.Elasticsearch Incident.key_rejected = Startup.Returns tt /\
  Startup.ping Incident.key_rejected = Startup.Returns true /\
  exists p,
    Startup.import_module Incident.key_rejected = (Startup.Returns p, [Startup.Gemini_fatal]) /\
    (forall ws,
       run p ws initial_state =
       {| ai_analysis_cache := placeholder;
          trace := map (fun _ => Printed Skipped_unavailable) ws |}) /\
    (forall w s,
       get_dashboard_data p w s =
       get_dashboard_data {| es := true; model := true |} w s).
Proof.
  split; [reflexivity | split; [reflexivity | split; [reflexivity | ]]].
  apply (@model_down_at_startup Reference.runtime Incident.key_rejected Startup.Other_error);
    reflexivity.
Defined.
